(** * GoDebtBotTg: the ledger store and the per-chat dialog engine of main.go

    The development embeds [src/main.go] shallowly:

    - Go values: [int] and [int64] are [Z], [float64] is the kernel's binary64
      [float], [string] is a byte string, [sql.NullTime] and [sql.NullFloat64]
      are options, [error] is an inductive type with its [Error()] text;
    - the SQLite database behind [DB] is a record [sqlDB] of the two tables declared
      by [initDB], in rowid order, with their AUTOINCREMENT counters and the
      connection's [foreign_keys] pragma; every query of main.go is a function
      on that record;
    - the three global maps [userStates], [currentDebtors] and [selectedDebts]
      are [gmap]s keyed by chat id, read with Go's zero-value default;
    - a handler is a function from the world (database, maps, messages sent
      so far) to the world.

    [strconv.ParseFloat] and [time.Parse] belong to Go's library; the handlers
    take them as parameters. Failures of the transport and of the storage
    medium are outside the model: a database function fails only on a
    constraint of the schema.

    [src/unnamed/part_000] is an earlier revision of main.go (no payment
    fields, no subtraction, no debtor deletion); the development follows
    main.go. *)

From Stdlib Require Import ZArith Floats String Ascii DecimalString DecimalPos DecimalZ.
From stdpp Require Import gmap strings list.

Local Open Scope string_scope.
Local Open Scope Z_scope.

(** ** Go's library: strings, strconv, errors *)

Module Go.

(** [strings.HasPrefix(s, prefix)] *)
Fixpoint HasPrefix (s prefix : string) {struct prefix} : bool :=
  match prefix with
  | EmptyString => true
  | String c prefix' =>
      match s with
      | String c' s' => Ascii.eqb c c' && HasPrefix s' prefix'
      | EmptyString => false
      end
  end.

Fixpoint drop_bytes (n : nat) (s : string) : string :=
  match n, s with
  | O, _ => s
  | S n', String _ s' => drop_bytes n' s'
  | S _, EmptyString => EmptyString
  end.

(** [strings.TrimPrefix(s, prefix)] *)
Definition TrimPrefix (s prefix : string) : string :=
  if HasPrefix s prefix then drop_bytes (String.length prefix) s else s.

(** [strings.Contains(s, substr)] *)
Fixpoint Contains (s substr : string) : bool :=
  HasPrefix s substr ||
  match s with
  | EmptyString => false
  | String _ s' => Contains s' substr
  end.

(** The errors main.go can meet. [err.Error()] is [Error]. *)
Inductive error : Type :=
| ErrNoRows                       (* sql.ErrNoRows *)
| SqliteError (msg : string)      (* a constraint failure reported by the driver *)
| Errorf (msg : string)           (* fmt.Errorf(msg) *)
| ErrSyntax                       (* strconv.ErrSyntax, inside a NumError *)
| ErrRange.                       (* strconv.ErrRange, inside a NumError *)

Definition Error (e : error) : string :=
  match e with
  | ErrNoRows => "sql: no rows in result set"
  | SqliteError msg => msg
  | Errorf msg => msg
  | ErrSyntax => "invalid syntax"
  | ErrRange => "value out of range"
  end.

(** [err == sql.ErrNoRows] *)
Definition isErrNoRows (e : error) : bool :=
  match e with ErrNoRows => true | _ => false end.

(** A Go call returning [(T, error)] whose value is read on success only. *)
Inductive Result (A : Type) : Type :=
| Ok (a : A)
| Err (e : error).
Arguments Ok {A} a.
Arguments Err {A} e.

(** *** strconv.Atoi, for a 64-bit [int] *)

Definition digit (c : ascii) : option Z :=
  let n := Z.of_N (N_of_ascii c) in
  if (48 <=? n) && (n <=? 57) then Some (n - 48) else None.

Definition maxUint64 : Z := 2 ^ 64 - 1.
Definition maxInt64 : Z := 2 ^ 63 - 1.
Definition minInt64 : Z := - 2 ^ 63.

(** The digit loop of [strconv.ParseUint(s, 10, 64)]: a byte that is no digit
    is a syntax error with value 0, an overflow stops the loop at once with
    the largest value. *)
Fixpoint parseUint (n : Z) (s : string) : Z * option error :=
  match s with
  | EmptyString => (n, None)
  | String c s' =>
      match digit c with
      | None => (0, Some ErrSyntax)
      | Some d =>
          if n >=? maxUint64 / 10 + 1 then (maxUint64, Some ErrRange)
          else
            let n1 := n * 10 + d in
            if n1 >? maxUint64 then (maxUint64, Some ErrRange)
            else parseUint n1 s'
      end
  end.

(** [strconv.Atoi(s)]: the value comes back with the error, and main.go
    sometimes keeps it ([debtID, _ := strconv.Atoi(...)]). *)
Definition Atoi (s : string) : Z * option error :=
  match s with
  | EmptyString => (0, Some ErrSyntax)
  | String c rest =>
      let neg := Ascii.eqb c "-"%char in
      let body := if neg || Ascii.eqb c "+"%char then rest else s in
      match body with
      | EmptyString => (0, Some ErrSyntax)
      | _ =>
          match parseUint 0 body with
          | (_, Some ErrSyntax) => (0, Some ErrSyntax)
          | (un, _) =>
              if negb neg && (un >=? 2 ^ 63) then (maxInt64, Some ErrRange)
              else if neg && (un >? 2 ^ 63) then (minInt64, Some ErrRange)
              else (if neg then - un else un, None)
          end
      end
  end.

(** The calendar date of a [time.Time]; the layouts main.go parses with
    carry no clock and no zone. *)
Record Time : Type := mkTime { year : Z; month : Z; day : Z }.

End Go.

Import Go.

(** ** Data structures (main.go, lines 20-33) *)

Record Debt : Type := mkDebt {
  Debt_ID : Z;
  DebtorID : Z;
  Amount : float;
  Reason : string
}.

Record Debtor : Type := mkDebtor {
  ID : Z;
  Name : string;
  ChatID : Z;
  PaymentDate : option Time;
  PaymentAmount : option float
}.

(** Go's zero values [Debt{}] and [Debtor{}]. *)
Definition zeroDebt : Debt := mkDebt 0 0 0%float "".
Definition zeroDebtor : Debtor := mkDebtor 0 "" 0 None None.

(** ** The SQLite database (main.go, lines 100-250) *)

Module Sqlite.

(** The database as [initDB] declares it. A table is the list of its rows in
    rowid order; a row of [debtors] has the shape of [Debtor], a row of
    [debts] the shape of [Debt]. [debtors_seq] and [debts_seq] are the
    AUTOINCREMENT counters: the largest id ever handed out.
    [foreign_keys] is the connection's pragma of that name: SQLite applies
    a FOREIGN KEY clause, ON DELETE CASCADE included, only while it is on. *)
Record sqlDB : Type := mkDB {
  foreign_keys : bool;
  debtors : list Debtor;
  debts : list Debt;
  debtors_seq : Z;
  debts_seq : Z
}.

(** SQLite's default for the pragma when neither the data source name nor a
    PRAGMA statement sets it. *)
Definition default_foreign_keys : bool := false.

(** A new database file. *)
Definition empty : sqlDB := mkDB default_foreign_keys [] [] 0 0.

Definition has_debtor (db : sqlDB) (id : Z) : bool :=
  existsb (fun r => ID r =? id) (debtors db).

Definition has_debt (db : sqlDB) (id : Z) : bool :=
  existsb (fun r => Debt_ID r =? id) (debts db).

Definition unique_failed : error :=
  SqliteError "UNIQUE constraint failed: debtors.name, debtors.chat_id".
Definition foreign_key_failed : error :=
  SqliteError "FOREIGN KEY constraint failed".
Definition not_null_failed : error :=
  SqliteError "NOT NULL constraint failed: debts.amount".

(** INSERT INTO debtors (name, chat_id) VALUES (?, ?): the new id, or the
    UNIQUE(name, chat_id) failure. *)
Definition insert_debtor (db : sqlDB) (name : string) (chat_id : Z)
  : sqlDB * Result Z :=
  if existsb (fun r => String.eqb (Name r) name && (ChatID r =? chat_id))
             (debtors db)
  then (db, Err unique_failed)
  else
    let id := debtors_seq db + 1 in
    (mkDB (foreign_keys db)
          (debtors db ++ [mkDebtor id name chat_id None None])
          (debts db) id (debts_seq db),
     Ok id).

(** A REAL bound to NaN is stored as NULL. *)
Definition real_is_null (x : float) : bool := PrimFloat.is_nan x.

(** INSERT INTO debts (debtor_id, amount, reason) VALUES (?, ?, ?) *)
Definition insert_debt (db : sqlDB) (debtor_id : Z) (amount : float)
           (reason : string) : sqlDB * option error :=
  if real_is_null amount then (db, Some not_null_failed)
  else if foreign_keys db && negb (has_debtor db debtor_id)
  then (db, Some foreign_key_failed)
  else
    let id := debts_seq db + 1 in
    (mkDB (foreign_keys db) (debtors db)
          (debts db ++ [mkDebt id debtor_id amount reason])
          (debtors_seq db) id,
     None).

Definition with_debts (db : sqlDB) (rows : list Debt) : sqlDB :=
  mkDB (foreign_keys db) (debtors db) rows (debtors_seq db) (debts_seq db).

Definition with_debtors (db : sqlDB) (rows : list Debtor) : sqlDB :=
  mkDB (foreign_keys db) rows (debts db) (debtors_seq db) (debts_seq db).

(** UPDATE debts SET ... WHERE id = ? *)
Definition update_debts (db : sqlDB) (id : Z) (f : Debt -> Debt) : sqlDB :=
  with_debts db (map (fun r => if Debt_ID r =? id then f r else r) (debts db)).

(** UPDATE debtors SET ... WHERE id = ? *)
Definition update_debtors (db : sqlDB) (id : Z) (f : Debtor -> Debtor) : sqlDB :=
  with_debtors db (map (fun r => if ID r =? id then f r else r) (debtors db)).

(** DELETE FROM debts WHERE id = ? *)
Definition delete_debt (db : sqlDB) (id : Z) : sqlDB :=
  with_debts db (List.filter (fun r => negb (Debt_ID r =? id)) (debts db)).

(** DELETE FROM debtors WHERE id = ?. The clause
    [FOREIGN KEY (debtor_id) REFERENCES debtors (id) ON DELETE CASCADE]
    deletes the debts of a deleted debtor when the pragma is on. *)
Definition delete_debtor (db : sqlDB) (id : Z) : sqlDB :=
  mkDB (foreign_keys db)
       (List.filter (fun r => negb (ID r =? id)) (debtors db))
       (if foreign_keys db && has_debtor db id
        then List.filter (fun r => negb (DebtorID r =? id)) (debts db)
        else debts db)
       (debtors_seq db) (debts_seq db).

End Sqlite.

Import Sqlite.

(** ** Database initialization (main.go, lines 100-133) *)

(** [initDB]: [sql.Open("sqlite3", "./debt_tracker.db")] followed by the two
    CREATE TABLE IF NOT EXISTS statements. The rows already in the file are
    kept. The data source name carries no parameter and main.go executes no
    PRAGMA, so the connection has SQLite's default for [foreign_keys]. *)
Definition initDB (file : sqlDB) : sqlDB :=
  mkDB default_foreign_keys (debtors file) (debts file)
       (debtors_seq file) (debts_seq file).

(** ** Database interaction functions (main.go, lines 137-250) *)

Definition addDebtor (db : sqlDB) (debtor : Debtor) : sqlDB * Result Debtor :=
  match insert_debtor db (Name debtor) (ChatID debtor) with
  | (db', Err err) =>
      if Contains (Error err) "UNIQUE constraint failed"
      then (db', Err (Errorf "debtor already exists"))
      else (db', Err err)
  | (db', Ok id) =>
      (db', Ok (mkDebtor id (Name debtor) (ChatID debtor)
                         (PaymentDate debtor) (PaymentAmount debtor)))
  end.

Definition getDebtorByName (db : sqlDB) (name : string) (chatID : Z)
  : Result Debtor :=
  match find (fun r => String.eqb (Name r) name && (ChatID r =? chatID))
             (debtors db) with
  | Some r => Ok r
  | None => Err ErrNoRows
  end.

Definition getDebtorByID (db : sqlDB) (id : Z) : Result Debtor :=
  match find (fun r => ID r =? id) (debtors db) with
  | Some r => Ok r
  | None => Err ErrNoRows
  end.

Definition addDebt (db : sqlDB) (debt : Debt) : sqlDB * option error :=
  insert_debt db (DebtorID debt) (Amount debt) (Reason debt).

(** The SELECT of [listDebtors] has no chat_id column: [ChatID] stays zero. *)
Definition listDebtors (db : sqlDB) (chatID : Z) : Result (list Debtor) :=
  Ok (map (fun r => mkDebtor (ID r) (Name r) 0 (PaymentDate r) (PaymentAmount r))
          (List.filter (fun r => ChatID r =? chatID) (debtors db))).

(** The SELECT of [listDebts] has no debtor_id column: [DebtorID] stays zero. *)
Definition listDebts (db : sqlDB) (debtorID : Z) : Result (list Debt) :=
  Ok (map (fun r => mkDebt (Debt_ID r) 0 (Amount r) (Reason r))
          (List.filter (fun r => DebtorID r =? debtorID) (debts db))).

Definition getDebtByID (db : sqlDB) (debtID : Z) : Result Debt :=
  match find (fun r => Debt_ID r =? debtID) (debts db) with
  | Some r => Ok r
  | None => Err ErrNoRows
  end.

(** [amount REAL NOT NULL]: an update to NaN fails when it reaches a row. *)
Definition updateDebtAmount (db : sqlDB) (debtID : Z) (newAmount : float)
  : sqlDB * option error :=
  if real_is_null newAmount && has_debt db debtID
  then (db, Some not_null_failed)
  else (update_debts db debtID
          (fun r => mkDebt (Debt_ID r) (DebtorID r) newAmount (Reason r)), None).

Definition updateDebtReason (db : sqlDB) (debtID : Z) (newReason : string)
  : sqlDB * option error :=
  (update_debts db debtID
     (fun r => mkDebt (Debt_ID r) (DebtorID r) (Amount r) newReason), None).

Definition closeDebt (db : sqlDB) (debtID : Z) : sqlDB * option error :=
  (delete_debt db debtID, None).

Definition deleteDebtor (db : sqlDB) (debtorID : Z) : sqlDB * option error :=
  (delete_debtor db debtorID, None).

Definition updateDebtorPaymentDate (db : sqlDB) (debtorID : Z) (paymentDate : Time)
  : sqlDB * option error :=
  (update_debtors db debtorID
     (fun r => mkDebtor (ID r) (Name r) (ChatID r) (Some paymentDate)
                        (PaymentAmount r)), None).

Definition updateDebtorPaymentAmount (db : sqlDB) (debtorID : Z)
           (paymentAmount : float) : sqlDB * option error :=
  (update_debtors db debtorID
     (fun r => mkDebtor (ID r) (Name r) (ChatID r) (PaymentDate r)
                        (if real_is_null paymentAmount then None
                         else Some paymentAmount)), None).

Definition clearDebtorPaymentDate (db : sqlDB) (debtorID : Z) : sqlDB * option error :=
  (update_debtors db debtorID
     (fun r => mkDebtor (ID r) (Name r) (ChatID r) None (PaymentAmount r)), None).

Definition clearDebtorPaymentAmount (db : sqlDB) (debtorID : Z)
  : sqlDB * option error :=
  (update_debtors db debtorID
     (fun r => mkDebtor (ID r) (Name r) (ChatID r) (PaymentDate r) None), None).

(** ** Conversation states and the global maps (main.go, lines 40-96) *)

Inductive State : Type :=
| StateIdle
| StateAddingDebtorName
| StateAddingDebtReason
| StateAddingDebtAmount
| StateEditingChooseDebt
| StateEditingChooseWhatToEdit
| StateEditingAmount
| StateEditingReason
| StateConfirmingCloseDebt
| StateSubtractingFromDebt
| StateConfirmingDeleteDebtor
| StateSettingPaymentDate
| StateSettingPaymentAmount
| StateEditingPaymentDate
| StateEditingPaymentAmount.

(** What the bot hands to the transport. A text is kept as its format and
    arguments; the debtor view of [showDebtorDetails] as the rows it is
    rendered from. Inline keyboards are left to the transport. *)
Inductive Arg : Type :=
| ArgS (s : string)
| ArgF (x : float)
| ArgT (t : Time).

Inductive Text : Type :=
| Sprintf (format : string) (args : list Arg)
| DebtorDetails (debtor : Debtor) (debts : list Debt) (totalDebt : float).

Inductive Out : Type :=
| Send (chatID : Z) (text : Text)
| Edit (chatID : Z) (messageID : Z) (text : Text)
| Photo (chatID : Z) (path : string)
| Document (chatID : Z)
| Log (format : string) (err : error).

(** The process state: the database handle [DB], the three maps, and the
    transport's record of what was sent. *)
Record World : Type := mkWorld {
  DB : sqlDB;
  userStates : gmap Z State;
  currentDebtors : gmap Z Debtor;
  selectedDebts : gmap Z Debt;
  sent : list Out
}.

(** Reading a Go map gives the zero value for a missing key. *)
Definition userState (w : World) (chatID : Z) : State :=
  default StateIdle (userStates w !! chatID).
Definition currentDebtor (w : World) (chatID : Z) : Debtor :=
  default zeroDebtor (currentDebtors w !! chatID).
Definition selectedDebt (w : World) (chatID : Z) : Debt :=
  default zeroDebt (selectedDebts w !! chatID).

Definition set_DB (d : sqlDB) (w : World) : World :=
  mkWorld d (userStates w) (currentDebtors w) (selectedDebts w) (sent w).
Definition set_userState (chatID : Z) (s : State) (w : World) : World :=
  mkWorld (DB w) (<[chatID := s]> (userStates w)) (currentDebtors w)
          (selectedDebts w) (sent w).
Definition set_currentDebtor (chatID : Z) (d : Debtor) (w : World) : World :=
  mkWorld (DB w) (userStates w) (<[chatID := d]> (currentDebtors w))
          (selectedDebts w) (sent w).
Definition set_selectedDebt (chatID : Z) (d : Debt) (w : World) : World :=
  mkWorld (DB w) (userStates w) (currentDebtors w)
          (<[chatID := d]> (selectedDebts w)) (sent w).
Definition emit (o : Out) (w : World) : World :=
  mkWorld (DB w) (userStates w) (currentDebtors w) (selectedDebts w)
          (sent w ++ [o]).

Definition sendSimpleMessage (chatID : Z) (text : Text) (w : World) : World :=
  emit (Send chatID text) w.
Definition sendWithKeyboard (chatID : Z) (text : Text) (w : World) : World :=
  emit (Send chatID text) w.
Definition editMessageWithKeyboard (chatID messageID : Z) (text : Text)
           (w : World) : World :=
  emit (Edit chatID messageID text) w.
Definition logPrintf (format : string) (err : error) (w : World) : World :=
  emit (Log format err) w.

Definition clearUserState (chatID : Z) (w : World) : World :=
  mkWorld (DB w) (delete chatID (userStates w)) (delete chatID (currentDebtors w))
          (delete chatID (selectedDebts w)) (sent w).

(** The process after [initDB]: empty maps, nothing sent. *)
Definition boot (file : sqlDB) : World := mkWorld (initDB file) ∅ ∅ ∅ [].

(** ** Show debtor details (main.go, lines 835-903) *)

Definition totalDebt (debts : list Debt) : float :=
  fold_left (fun acc debt => PrimFloat.add acc (Amount debt)) debts 0%float.

Definition showDebtorDetails (chatID debtorID : Z) (w : World) : World :=
  match getDebtorByID (DB w) debtorID with
  | Err err =>
      let w := logPrintf "Error getting debtor details: %v" err w in
      if isErrNoRows err
      then sendSimpleMessage chatID (Sprintf "Должник не найден." []) w
      else sendSimpleMessage chatID
             (Sprintf "Произошла ошибка при получении информации о должнике." []) w
  | Ok debtor =>
      let w := set_currentDebtor chatID debtor w in
      match listDebts (DB w) debtorID with
      | Err err =>
          let w := logPrintf "Error listing debts: %v" err w in
          sendSimpleMessage chatID
            (Sprintf "Произошла ошибка при получении списка долгов." []) w
      | Ok debts =>
          sendWithKeyboard chatID (DebtorDetails debtor debts (totalDebt debts)) w
      end
  end.

(** ** Command handlers (main.go, lines 332-438) *)

(** The texts of [/start] and [/help] are cut to their first line. *)
Definition handleStartCommand (chatID : Z) (w : World) : World :=
  let w := clearUserState chatID w in
  let w := emit (Photo chatID "botBanner.jpeg") w in
  sendSimpleMessage chatID (Sprintf "Привет! Я бот DebtTracker. Я помогу тебе вести учет долгов." []) w.

Definition handleAddCommand (chatID : Z) (w : World) : World :=
  let w := clearUserState chatID w in
  let w := set_userState chatID StateAddingDebtorName w in
  sendSimpleMessage chatID (Sprintf "Введи имя должника:" []) w.

Definition handleDebtsCommand (chatID : Z) (w : World) : World :=
  let w := clearUserState chatID w in
  match listDebtors (DB w) chatID with
  | Err err =>
      let w := logPrintf "Error listing debtors: %v" err w in
      sendSimpleMessage chatID
        (Sprintf "Произошла ошибка при получении списка должников." []) w
  | Ok [] =>
      sendSimpleMessage chatID
        (Sprintf "У тебя пока нет должников.  Используй /add, чтобы добавить." []) w
  | Ok _ => sendWithKeyboard chatID (Sprintf "*Твои должники:*" []) w
  end.

Definition handleHelpCommand (chatID : Z) (w : World) : World :=
  let w := clearUserState chatID w in
  sendSimpleMessage chatID (Sprintf "**Команды бота DebtTracker:**" []) w.

(** [generateCSV] reads the two tables and writes a temporary file; of the
    export only the reads and the answer are kept. *)
Definition handleExportCSVCommand (chatID : Z) (w : World) : World :=
  let w := clearUserState chatID w in
  match listDebtors (DB w) chatID with
  | Err err =>
      let w := logPrintf "Error generating CSV: %v" err w in
      sendSimpleMessage chatID
        (Sprintf "Произошла ошибка при создании CSV файла." []) w
  | Ok [] =>
      let w := logPrintf "Error generating CSV: %v"
                 (Errorf "no debtors found for chat %d") w in
      sendSimpleMessage chatID
        (Sprintf "Нет данных для выгрузки. Сначала добавьте должников." []) w
  | Ok _ => emit (Document chatID) w
  end.

(** ** Message handler (main.go, lines 442-642) *)

Section Handlers.

(** [strconv.ParseFloat(text, 64)]: the value when [err == nil]. *)
Variable ParseFloat : string -> option float.

(** [time.Parse(layout, value)]: the time when [err == nil]. *)
Variable time_Parse : string -> string -> option Time.

(** The test [err != nil || amount <= 0] that follows every
    [strconv.ParseFloat]: [None] when it holds, the amount otherwise. *)
Definition parseAmount (text : string) : option float :=
  match ParseFloat text with
  | None => None
  | Some amount => if PrimFloat.leb amount 0 then None else Some amount
  end.

(** The layouts of the two payment-date states, in the order tried. *)
Definition formats : list string :=
  ["02.01.2006"; "02.01.06"; "2.1.2006"; "2.1.06";
   "02-01-2006"; "02-01-06"; "2-1-2006"; "2-1-06"].

(** The loop [for _, format := range formats] with its [break]: [last] is
    the pair [t, err] before the iteration ([None] when [err != nil]). *)
Fixpoint tryFormats (layouts : list string) (text : string)
         (last : option Time) : option Time :=
  match layouts with
  | [] => last
  | format :: rest =>
      match time_Parse format text with
      | Some t => Some t
      | None => tryFormats rest text None
      end
  end.

(** [var t time.Time; var err error] and the loop over [formats]. *)
Definition parseDate (text : string) : option Time :=
  tryFormats formats text (Some (mkTime 0 0 0)).

(** Lines 475-476, the end of the state [StateAddingDebtorName]. *)
Definition askDebtReason (chatID : Z) (w : World) : World :=
  let w := set_userState chatID StateAddingDebtReason w in
  sendSimpleMessage chatID
    (Sprintf "Какова причина долга для *%s*?"
             [ArgS (Name (currentDebtor w chatID))]) w.

(** Lines 460-476: what the state [StateAddingDebtorName] does with the
    result of [addDebtor]. *)
Definition addedDebtor (chatID : Z) (text : string) (res : Result Debtor)
           (w : World) : World :=
  match res with
  | Err err =>
      if Contains (Error err) "debtor already exists"
      then sendSimpleMessage chatID
             (Sprintf "Должник с именем *%s* уже существует в вашем списке. Пожалуйста введите другое имя"
                      [ArgS text]) w
      else
        let w := logPrintf "Error adding debtor: %v" err w in
        let w := sendSimpleMessage chatID
                   (Sprintf "Произошла ошибка при добавлении должника." []) w in
        clearUserState chatID w
  | Ok newDebtor =>
      let w := set_currentDebtor chatID newDebtor w in
      askDebtReason chatID w
  end.

Definition handleMessage (chatID : Z) (text : string) (w : World) : World :=
  match userState w chatID with
  | StateAddingDebtorName =>
      match getDebtorByName (DB w) text chatID with
      | Err err =>
          if negb (isErrNoRows err)
          then
            let w := logPrintf "Error getting debtor: %v" err w in
            let w := sendSimpleMessage chatID
                       (Sprintf "Произошла ошибка при поиске должника." []) w in
            clearUserState chatID w
          else
            let newDebtor := mkDebtor 0 text chatID None None in
            let '(d, res) := addDebtor (DB w) newDebtor in
            addedDebtor chatID text res (set_DB d w)
      | Ok debtor =>
          let w := set_currentDebtor chatID debtor w in
          askDebtReason chatID w
      end

  | StateAddingDebtReason =>
      let w := set_selectedDebt chatID
                 (mkDebt 0 (ID (currentDebtor w chatID)) 0%float text) w in
      let w := set_userState chatID StateAddingDebtAmount w in
      sendSimpleMessage chatID
        (Sprintf "Сколько *%s* должен за *%s*?"
                 [ArgS (Name (currentDebtor w chatID)); ArgS text]) w

  | StateAddingDebtAmount =>
      match parseAmount text with
      | None =>
          sendSimpleMessage chatID
            (Sprintf "Пожалуйста, введи корректную сумму долга (положительное число)." []) w
      | Some amount =>
          let debt := mkDebt 0 (ID (currentDebtor w chatID)) amount
                             (Reason (selectedDebt w chatID)) in
          let '(d, err) := addDebt (DB w) debt in
          let w := set_DB d w in
          let w :=
            match err with
            | Some err =>
                let w := logPrintf "Error adding debt: %v" err w in
                sendSimpleMessage chatID
                  (Sprintf "Произошла ошибка при добавлении долга." []) w
            | None =>
                sendSimpleMessage chatID
                  (Sprintf "✅ Долг добавлен! *%s* должен *%.2f ₽* за *%s*."
                           [ArgS (Name (currentDebtor w chatID)); ArgF amount;
                            ArgS (Reason debt)]) w
            end in
          clearUserState chatID w
      end

  | StateEditingAmount =>
      match parseAmount text with
      | None =>
          sendSimpleMessage chatID
            (Sprintf "Пожалуйста, введи корректную сумму (положительное число)." []) w
      | Some amount =>
          let '(d, err) :=
            updateDebtAmount (DB w) (Debt_ID (selectedDebt w chatID)) amount in
          let w := set_DB d w in
          let w :=
            match err with
            | Some err =>
                let w := logPrintf "Error updating debt amount: %v" err w in
                sendSimpleMessage chatID
                  (Sprintf "Не удалось обновить сумму долга." []) w
            | None =>
                let w := sendSimpleMessage chatID
                           (Sprintf "Сумма долга успешно обновлена." []) w in
                showDebtorDetails chatID (ID (currentDebtor w chatID)) w
            end in
          clearUserState chatID w
      end

  | StateEditingReason =>
      let '(d, err) :=
        updateDebtReason (DB w) (Debt_ID (selectedDebt w chatID)) text in
      let w := set_DB d w in
      let w :=
        match err with
        | Some err =>
            let w := logPrintf "Error updating debt reason: %v" err w in
            sendSimpleMessage chatID
              (Sprintf "Не удалось обновить причину долга." []) w
        | None =>
            let w := sendSimpleMessage chatID
                       (Sprintf "Причина долга успешно обновлена." []) w in
            showDebtorDetails chatID (ID (currentDebtor w chatID)) w
        end in
      clearUserState chatID w

  | StateSubtractingFromDebt =>
      match parseAmount text with
      | None =>
          sendSimpleMessage chatID
            (Sprintf "Пожалуйста, введи корректную сумму для вычитания (положительное число)." []) w
      | Some amountToSubtract =>
          let debt := selectedDebt w chatID in
          if PrimFloat.ltb (Amount debt) amountToSubtract
          then sendSimpleMessage chatID
                 (Sprintf "Сумма для вычитания не может быть больше суммы долга." []) w
          else
            let newAmount := PrimFloat.sub (Amount debt) amountToSubtract in
            let '(d, err) := updateDebtAmount (DB w) (Debt_ID debt) newAmount in
            let w := set_DB d w in
            let w :=
              match err with
              | Some err =>
                  let w := logPrintf "Error subtracting from debt: %v" err w in
                  sendSimpleMessage chatID
                    (Sprintf "Не удалось вычесть сумму из долга." []) w
              | None =>
                  let w :=
                    if PrimFloat.eqb newAmount 0
                    then
                      let w := set_DB (fst (closeDebt (DB w) (Debt_ID debt))) w in
                      sendSimpleMessage chatID
                        (Sprintf "✅ Долг в размере *%.2f ₽* за *%s* полностью погашен и закрыт."
                                 [ArgF (Amount debt); ArgS (Reason debt)]) w
                    else
                      sendSimpleMessage chatID
                        (Sprintf "Сумма *%.2f ₽* вычтена из долга.  Остаток долга: *%.2f ₽*"
                                 [ArgF amountToSubtract; ArgF newAmount]) w in
                  showDebtorDetails chatID (DebtorID debt) w
              end in
            clearUserState chatID w
      end

  | StateSettingPaymentDate =>
      match parseDate text with
      | None =>
          sendSimpleMessage chatID
            (Sprintf "Неверный формат даты. Пожалуйста, введите дату в формате ДД.ММ.ГГГГ или ДД.ММ.ГГ, например, 31.12.2024 или 31.12.24" []) w
      | Some t =>
          let currentDebtor := currentDebtor w chatID in
          let '(d, err) := updateDebtorPaymentDate (DB w) (ID currentDebtor) t in
          let w := set_DB d w in
          let w :=
            match err with
            | Some err =>
                let w := logPrintf "Error updating payment date: %v" err w in
                sendSimpleMessage chatID
                  (Sprintf "Не удалось обновить дату платежа." []) w
            | None =>
                let w := sendSimpleMessage chatID
                           (Sprintf "Дата платежа для %s установлена на %s"
                                    [ArgS (Name currentDebtor); ArgT t]) w in
                showDebtorDetails chatID (ID currentDebtor) w
            end in
          clearUserState chatID w
      end

  | StateSettingPaymentAmount =>
      match parseAmount text with
      | None =>
          sendSimpleMessage chatID
            (Sprintf "Пожалуйста, введите корректную сумму платежа (положительное число)." []) w
      | Some amount =>
          let currentDebtor := currentDebtor w chatID in
          let '(d, err) :=
            updateDebtorPaymentAmount (DB w) (ID currentDebtor) amount in
          let w := set_DB d w in
          let w :=
            match err with
            | Some err =>
                let w := logPrintf "Error setting payment amount: %v" err w in
                sendSimpleMessage chatID
                  (Sprintf "Не удалось установить сумму платежа." []) w
            | None =>
                sendSimpleMessage chatID
                  (Sprintf "Сумма платежа для *%s* установлена на *%.2f ₽*"
                           [ArgS (Name currentDebtor); ArgF amount]) w
            end in
          let w := clearUserState chatID w in
          showDebtorDetails chatID (ID currentDebtor) w
      end

  | StateEditingPaymentDate =>
      match parseDate text with
      | None =>
          sendSimpleMessage chatID
            (Sprintf "Неверный формат даты. Пожалуйста, введите дату в формате ДД.ММ.ГГГГ или ДД.ММ.ГГ" []) w
      | Some t =>
          let '(d, err) :=
            updateDebtorPaymentDate (DB w) (ID (currentDebtor w chatID)) t in
          let w := set_DB d w in
          let w :=
            match err with
            | Some err =>
                let w := logPrintf "Error updating payment date: %v" err w in
                sendSimpleMessage chatID
                  (Sprintf "Не удалось обновить дату платежа." []) w
            | None =>
                let w := sendSimpleMessage chatID
                           (Sprintf "Дата платежа обновлена на %s" [ArgT t]) w in
                showDebtorDetails chatID (ID (currentDebtor w chatID)) w
            end in
          clearUserState chatID w
      end

  | StateEditingPaymentAmount =>
      match parseAmount text with
      | None =>
          sendSimpleMessage chatID
            (Sprintf "Пожалуйста, введите корректную сумму платежа (положительное число)." []) w
      | Some amount =>
          let '(d, err) :=
            updateDebtorPaymentAmount (DB w) (ID (currentDebtor w chatID)) amount in
          let w := set_DB d w in
          let w :=
            match err with
            | Some err =>
                let w := logPrintf "Error updating payment amount: %v" err w in
                sendSimpleMessage chatID
                  (Sprintf "Не удалось обновить сумму платежа." []) w
            | None =>
                sendSimpleMessage chatID
                  (Sprintf "Сумма платежа успешно обновлена." []) w
            end in
          let w := clearUserState chatID w in
          showDebtorDetails chatID (ID (currentDebtor w chatID)) w
      end

  | _ =>
      let w := sendSimpleMessage chatID
                 (Sprintf "Чтобы добавить долг, используй команду /add.  Чтобы посмотреть долги, используй /debts." []) w in
      clearUserState chatID w
  end.

(** ** Callback query handler (main.go, lines 646-831) *)

(** The cases [close_debt:], [edit_debt:] and [subtract_from_debt:] share
    their beginning: the id is parsed, the debt is read, and either failure
    is logged before the handler returns. [k] is the rest of the case. *)
Definition withDebt (data prefix logMsg : string) (w : World)
           (k : Z -> Debt -> World) : World :=
  match Atoi (TrimPrefix data prefix) with
  | (_, Some err) => logPrintf "Invalid debt ID in callback: %v" err w
  | (debtID, None) =>
      match getDebtByID (DB w) debtID with
      | Err err => logPrintf logMsg err w
      | Ok debt => k debtID debt
      end
  end.

Definition handleCallbackQuery (chatID messageID : Z) (data : string)
           (w : World) : World :=
  if HasPrefix data "select_debtor:" then
    match Atoi (TrimPrefix data "select_debtor:") with
    | (_, Some err) => logPrintf "Invalid debtor ID in callback: %v" err w
    | (debtorID, None) =>
        match getDebtorByID (DB w) debtorID with
        | Err err =>
            let w :=
              if isErrNoRows err
              then sendSimpleMessage chatID (Sprintf "Должник не найден." []) w
              else
                let w := logPrintf "Error getting debtor for details: %v" err w in
                sendSimpleMessage chatID
                  (Sprintf "Произошла ошибка при получении информации о должнике." []) w in
            clearUserState chatID w
        | Ok debtor =>
            let w := set_currentDebtor chatID debtor w in
            let w := clearUserState chatID w in
            showDebtorDetails chatID debtorID w
        end
    end

  else if HasPrefix data "close_debt:" then
    withDebt data "close_debt:" "Error getting debt for closing: %v" w
      (fun debtID debt =>
         let w := set_selectedDebt chatID debt w in
         let w := set_userState chatID StateConfirmingCloseDebt w in
         editMessageWithKeyboard chatID messageID
           (Sprintf "Вы уверены, что хотите закрыть долг *%.2f ₽* за *%s*?"
                    [ArgF (Amount debt); ArgS (Reason debt)]) w)

  else if HasPrefix data "confirm_close:" then
    let debtID := fst (Atoi (TrimPrefix data "confirm_close:")) in
    let '(d, err) := closeDebt (DB w) debtID in
    let w := set_DB d w in
    let w :=
      match err with
      | Some err =>
          let w := logPrintf "Error closing debt in callback: %v" err w in
          sendSimpleMessage chatID
            (Sprintf "Произошла ошибка при закрытии долга." []) w
      | None =>
          editMessageWithKeyboard chatID messageID (Sprintf "Долг закрыт." []) w
      end in
    let w := showDebtorDetails chatID (ID (currentDebtor w chatID)) w in
    clearUserState chatID w

  else if String.eqb data "cancel_operation" then
    let w := editMessageWithKeyboard chatID messageID
               (Sprintf "Операция отменена." []) w in
    let w := clearUserState chatID w in
    match currentDebtors w !! chatID with
    | Some debtor => showDebtorDetails chatID (ID debtor) w
    | None => w
    end

  else if HasPrefix data "edit_debt:" then
    withDebt data "edit_debt:" "Error getting debt for editing: %v" w
      (fun debtID debt =>
         let w := set_selectedDebt chatID debt w in
         let w := set_userState chatID StateEditingChooseWhatToEdit w in
         editMessageWithKeyboard chatID messageID
           (Sprintf "Что ты хочешь изменить?" []) w)

  else if HasPrefix data "edit_amount:" then
    let debtID := fst (Atoi (TrimPrefix data "edit_amount:")) in
    let w := set_selectedDebt chatID (mkDebt debtID 0 0%float "") w in
    let w := set_userState chatID StateEditingAmount w in
    editMessageWithKeyboard chatID messageID (Sprintf "Введи новую сумму:" []) w

  else if HasPrefix data "edit_reason:" then
    let debtID := fst (Atoi (TrimPrefix data "edit_reason:")) in
    let w := set_selectedDebt chatID (mkDebt debtID 0 0%float "") w in
    let w := set_userState chatID StateEditingReason w in
    editMessageWithKeyboard chatID messageID (Sprintf "Введи новую причину:" []) w

  else if HasPrefix data "subtract_from_debt:" then
    withDebt data "subtract_from_debt:" "Error getting debt for subtraction: %v" w
      (fun debtID debt =>
         let w := set_selectedDebt chatID debt w in
         let w := set_userState chatID StateSubtractingFromDebt w in
         editMessageWithKeyboard chatID messageID
           (Sprintf "Какую сумму вычесть из долга *%.2f ₽*?"
                    [ArgF (Amount debt)]) w)

  else if String.eqb data "add_debt_to_existing" then
    let w := set_userState chatID StateAddingDebtReason w in
    editMessageWithKeyboard chatID messageID
      (Sprintf "Какова причина долга для *%s*?"
               [ArgS (Name (currentDebtor w chatID))]) w

  else if String.eqb data "delete_debtor" then
    let w := set_userState chatID StateConfirmingDeleteDebtor w in
    editMessageWithKeyboard chatID messageID
      (Sprintf "Вы уверены, что хотите удалить должника *%s*?  *Все долги этого должника будут удалены!*"
               [ArgS (Name (currentDebtor w chatID))]) w

  else if String.eqb data "confirm_delete_debtor" then
    let debtorID := ID (currentDebtor w chatID) in
    let '(d, err) := deleteDebtor (DB w) debtorID in
    let w := set_DB d w in
    let w :=
      match err with
      | Some err =>
          let w := logPrintf "Error deleting debtor: %v" err w in
          sendSimpleMessage chatID
            (Sprintf "Произошла ошибка при удалении должника." []) w
      | None =>
          editMessageWithKeyboard chatID messageID
            (Sprintf "Должник *%s* и все его долги удалены."
                     [ArgS (Name (currentDebtor w chatID))]) w
      end in
    clearUserState chatID w

  else if String.eqb data "set_payment_date" then
    let w := set_userState chatID StateSettingPaymentDate w in
    editMessageWithKeyboard chatID messageID
      (Sprintf "Введите дату платежа (ДД.ММ.ГГГГ или ДД.ММ.ГГ):" []) w

  else if String.eqb data "set_payment_amount" then
    let w := set_userState chatID StateSettingPaymentAmount w in
    editMessageWithKeyboard chatID messageID
      (Sprintf "Введите сумму платежа:" []) w

  else if String.eqb data "clear_payment_date" then
    let '(d, err) := clearDebtorPaymentDate (DB w) (ID (currentDebtor w chatID)) in
    let w := set_DB d w in
    let w :=
      match err with
      | Some err =>
          let w := logPrintf "Error clearing payment date: %v" err w in
          sendSimpleMessage chatID
            (Sprintf "Не удалось очистить дату платежа." []) w
      | None =>
          let w := editMessageWithKeyboard chatID messageID
                     (Sprintf "Дата платежа очищена." []) w in
          showDebtorDetails chatID (ID (currentDebtor w chatID)) w
      end in
    clearUserState chatID w

  else if String.eqb data "clear_payment_amount" then
    let '(d, err) :=
      clearDebtorPaymentAmount (DB w) (ID (currentDebtor w chatID)) in
    let w := set_DB d w in
    let w :=
      match err with
      | Some err =>
          let w := logPrintf "Error clearing payment amount: %v" err w in
          sendSimpleMessage chatID
            (Sprintf "Не удалось очистить сумму платежа." []) w
      | None =>
          let w := editMessageWithKeyboard chatID messageID
                     (Sprintf "Сумма платежа очищена." []) w in
          showDebtorDetails chatID (ID (currentDebtor w chatID)) w
      end in
    clearUserState chatID w

  else if String.eqb data "edit_payment_date" then
    let w := set_userState chatID StateEditingPaymentDate w in
    editMessageWithKeyboard chatID messageID
      (Sprintf "Введите новую дату платежа (ДД.ММ.ГГГГ или ДД.ММ.ГГ):" []) w

  else if String.eqb data "edit_payment_amount" then
    let w := set_userState chatID StateEditingPaymentAmount w in
    editMessageWithKeyboard chatID messageID
      (Sprintf "Введите новую сумму платежа:" []) w

  else w.

(** ** The update loop (main.go, lines 930-954) *)

(** An update of the transport: a command (already split from its
    message by [IsCommand] and [Command]), a plain message, or a button
    press with its payload. *)
Inductive Update : Type :=
| Command (chatID : Z) (command : string)
| Message (chatID : Z) (text : string)
| CallbackQuery (chatID messageID : Z) (data : string).

(** The body of [for update := range updates]. *)
Definition step (w : World) (update : Update) : World :=
  match update with
  | Command chatID command =>
      if String.eqb command "start" then handleStartCommand chatID w
      else if String.eqb command "add" then handleAddCommand chatID w
      else if String.eqb command "debts" then handleDebtsCommand chatID w
      else if String.eqb command "help" then handleHelpCommand chatID w
      else if String.eqb command "exportcsv" then handleExportCSVCommand chatID w
      else
        let w := sendSimpleMessage chatID
                   (Sprintf "Неизвестная команда. Используй /help для списка команд." []) w in
        clearUserState chatID w
  | Message chatID text => handleMessage chatID text w
  | CallbackQuery chatID messageID data =>
      handleCallbackQuery chatID messageID data w
  end.

(** The loop over the updates received so far. *)
Definition run (w : World) (updates : list Update) : World :=
  fold_left step updates w.

End Handlers.

(** ** Executable stand-ins for the two library functions

    They cover the inputs the examples below run the handlers on: plain
    decimals for [strconv.ParseFloat], and the day, month and year elements of
    the eight layouts for [time.Parse]. *)

Module Sample.

(** Digits, then optionally a dot and digits, read as [n / 10^k]; at most 15
    digits, so that [n] and [10^k] are exact and the quotient is the nearest
    binary64. Anything else is refused. *)
Fixpoint decimal (s : string) (n : Z) (frac : option nat) (len : nat)
  : option (Z * nat * nat) :=
  match s with
  | EmptyString => Some (n, default O frac, len)
  | String c s' =>
      if Ascii.eqb c "."%char
      then match frac with
           | None => decimal s' n (Some O) len
           | Some _ => None
           end
      else match digit c with
           | None => None
           | Some d => decimal s' (n * 10 + d) (S <$> frac) (S len)
           end
  end.

Definition ParseFloat (s : string) : option float :=
  match decimal s 0 None O with
  | Some (n, k, len) =>
      if (0 <? Z.of_nat len) && (Z.of_nat len <=? 15)
      then Some (PrimFloat.div (PrimFloat.of_uint63 (Uint63.of_Z n))
                               (PrimFloat.of_uint63 (Uint63.of_Z (10 ^ Z.of_nat k))))
      else None
  | None => None
  end.

(** [getnum(value, fixed)] of package time: one or two digits, two when
    [fixed]. *)
Definition getnum (value : string) (fixed : bool) : option (Z * string) :=
  match value with
  | String c1 rest =>
      match digit c1 with
      | None => None
      | Some d1 =>
          match rest with
          | String c2 rest' =>
              match digit c2 with
              | Some d2 => Some (d1 * 10 + d2, rest')
              | None => if fixed then None else Some (d1, rest)
              end
          | EmptyString => if fixed then None else Some (d1, rest)
          end
      end
  | EmptyString => None
  end.

Definition getyear4 (value : string) : option (Z * string) :=
  match value with
  | String c1 (String c2 (String c3 (String c4 rest))) =>
      match digit c1, digit c2, digit c3, digit c4 with
      | Some d1, Some d2, Some d3, Some d4 =>
          Some (d1 * 1000 + d2 * 100 + d3 * 10 + d4, rest)
      | _, _, _, _ => None
      end
  | _ => None
  end.

Definition getyear2 (value : string) : option (Z * string) :=
  match value with
  | String c1 (String c2 rest) =>
      match digit c1, digit c2 with
      | Some d1, Some d2 =>
          let y := d1 * 10 + d2 in
          Some (if y >=? 69 then y + 1900 else y + 2000, rest)
      | _, _ => None
      end
  | _ => None
  end.

Definition isLeap (y : Z) : bool :=
  (y mod 4 =? 0) && (negb (y mod 100 =? 0) || (y mod 400 =? 0)).

Definition daysIn (m y : Z) : Z :=
  if m =? 2 then (if isLeap y then 29 else 28)
  else if (m =? 4) || (m =? 6) || (m =? 9) || (m =? 11) then 30 else 31.

(** The layout is read element by element against the value. *)
Fixpoint parse (layout value : string) (t : Time) : option Time :=
  match layout with
  | String "2" (String "0" (String "0" (String "6" layout'))) =>
      match getyear4 value with
      | Some (y, value') => parse layout' value' (mkTime y (month t) (day t))
      | None => None
      end
  | String "0" (String "6" layout') =>
      match getyear2 value with
      | Some (y, value') => parse layout' value' (mkTime y (month t) (day t))
      | None => None
      end
  | String "0" (String "2" layout') =>
      match getnum value true with
      | Some (d, value') => parse layout' value' (mkTime (year t) (month t) d)
      | None => None
      end
  | String "0" (String "1" layout') =>
      match getnum value true with
      | Some (m, value') => parse layout' value' (mkTime (year t) m (day t))
      | None => None
      end
  | String "2" layout' =>
      match getnum value false with
      | Some (d, value') => parse layout' value' (mkTime (year t) (month t) d)
      | None => None
      end
  | String "1" layout' =>
      match getnum value false with
      | Some (m, value') => parse layout' value' (mkTime (year t) m (day t))
      | None => None
      end
  | String c layout' =>
      match value with
      | String c' value' => if Ascii.eqb c c' then parse layout' value' t else None
      | EmptyString => None
      end
  | EmptyString =>
      match value with
      | EmptyString =>
          if (1 <=? month t) && (month t <=? 12) && (1 <=? day t)
             && (day t <=? daysIn (month t) (year t))
          then Some t else None
      | _ => None
      end
  end.

Definition time_Parse (layout value : string) : option Time :=
  parse layout value (mkTime 0 1 1).

End Sample.

(** ** Worlds, files and predicates the statements below refer to *)

(** A database file as the bot leaves it: Alex, of chat 7, owes 100 for lunch. *)
Definition alex_file : sqlDB :=
  mkDB false [mkDebtor 1 "Alex" 7 None None] [mkDebt 1 1 100%float "lunch"] 1 1.

(** That file on the connection [initDB] opens. *)
Definition alex_db : sqlDB := initDB alex_file.

(** The amount of a stored debt is not zero ([==] of binary64: neither zero). *)
Definition nonzero (r : Debt) : bool := negb (PrimFloat.eqb (Amount r) 0).

(** The database after a subtraction that passed both tests. *)
Definition subtracted (db : sqlDB) (debt : Debt) (newAmount : float) : sqlDB :=
  match updateDebtAmount db (Debt_ID debt) newAmount with
  | (d, Some _) => d
  | (d, None) =>
      if PrimFloat.eqb newAmount 0 then fst (closeDebt d (Debt_ID debt)) else d
  end.

(** The states that await a payment date. *)
Definition date_state (s : State) : bool :=
  match s with
  | StateSettingPaymentDate | StateEditingPaymentDate => true
  | _ => false
  end.


(** The text sent when [addDebtor] reports a duplicate. *)
Definition duplicateName (text : string) : Text :=
  Sprintf "Должник с именем *%s* уже существует в вашем списке. Пожалуйста введите другое имя"
          [ArgS text].

(** Every debt of the database references a stored debtor. *)
Definition live_refs (db : sqlDB) : bool :=
  forallb (fun r => has_debtor db (DebtorID r)) (debts db).

(** The same, on a connection that enforces foreign keys. *)
Definition enforced (db : sqlDB) : Prop :=
  foreign_keys db = true /\ live_refs db = true.

(** Chat 7 adds Alex with one debt and opens the debtor view. *)
Definition add_alex : list Update :=
  [Command 7 "add"; Message 7 "Alex"; Message 7 "lunch"; Message 7 "25.50";
   Command 7 "debts"; CallbackQuery 7 1 "select_debtor:1"].

(** The world in which debt 1 of Alex has been closed, while an older message
    of the chat still shows the buttons of that debt. *)
Definition closed_debt_world : World :=
  run Sample.ParseFloat Sample.time_Parse (boot Sqlite.empty)
      (add_alex ++ [CallbackQuery 7 2 "edit_debt:1"; Command 7 "debts";
                    CallbackQuery 7 3 "select_debtor:1";
                    CallbackQuery 7 4 "close_debt:1";
                    CallbackQuery 7 4 "confirm_close:1"])%list.

(** ** More of main.go: button payloads, keyboards, the CSV export *)

(** [fmt.Sprintf("%d", n)]: the decimal digits of [n], with a minus sign for a
    negative number. *)
Definition Itoa (n : Z) : string := NilZero.string_of_int (Z.to_int n).

(** The payloads main.go writes into its buttons (lines 393, 691, 733-735,
    865, 866). *)
Definition selectDebtorData (debtorID : Z) : string := "select_debtor:" ++ Itoa debtorID.
Definition editDebtData (debtID : Z) : string := "edit_debt:" ++ Itoa debtID.
Definition closeDebtData (debtID : Z) : string := "close_debt:" ++ Itoa debtID.
Definition subtractData (debtID : Z) : string := "subtract_from_debt:" ++ Itoa debtID.

(** The word after the number of debts in the list of debtors (lines
    383-390), for [n = len(debts)]. *)
Definition debtPlural (n : Z) : string :=
  if (n mod 10 =? 1) && negb (n mod 100 =? 11) then "долг"
  else if ((n mod 10 >=? 2) && (n mod 10 <=? 4))
          && negb ((n mod 100 >=? 12) && (n mod 100 <=? 14)) then "долга"
  else "долгов".

(** An inline button: what it shows and the payload it sends back. The label
    of a debtor's button is kept as the arguments of its format
    ["%s (%d %s)"]. *)
Inductive Label : Type :=
| LabelText (s : string)
| LabelDebtor (name : string) (count : Z) (plural : string).

Record Button : Type := mkButton { label : Label; data : string }.

(** The keyboard of [handleDebtsCommand] (lines 380-397): one row, of one
    button, per debtor of the chat. *)
Definition debtorsKeyboard (db : sqlDB) (debtors : list Debtor) : list (list Button) :=
  map (fun debtor =>
         let debts := match listDebts db (ID debtor) with
                      | Ok debts => debts
                      | Err _ => []
                      end in
         let n := Z.of_nat (length debts) in
         [mkButton (LabelDebtor (Name debtor) n (debtPlural n))
                   (selectDebtorData (ID debtor))])
      debtors.

(** The keyboard of [showDebtorDetails] (lines 859-901): a row per debt, a row
    for the payment date, a row for the payment amount, and the last row. *)
Definition detailsKeyboard (debtor : Debtor) (debts : list Debt) : list (list Button) :=
  (map (fun debt =>
          [mkButton (LabelText "✏️ Редактировать") (editDebtData (Debt_ID debt));
           mkButton (LabelText "✅ Закрыть") (closeDebtData (Debt_ID debt))])
       debts
   ++ [match PaymentDate debtor with
       | Some _ => [mkButton (LabelText "Изменить дату") "edit_payment_date";
                    mkButton (LabelText "Очистить дату") "clear_payment_date"]
       | None => [mkButton (LabelText "Указать дату платежа") "set_payment_date"]
       end;
       match PaymentAmount debtor with
       | Some _ => [mkButton (LabelText "Изменить сумму") "edit_payment_amount";
                    mkButton (LabelText "Очистить сумму") "clear_payment_amount"]
       | None => [mkButton (LabelText "Указать сумму платежа") "set_payment_amount"]
       end;
       [mkButton (LabelText "➕ Добавить долг") "add_debt_to_existing";
        mkButton (LabelText "🗑️ Удалить должника") "delete_debtor"]])%list.

(** A cell of the CSV file: a text, an amount written with ["%.2f"], or a date
    written with the layout ["02.01.2006"]. *)
Inductive Cell : Type :=
| CellS (s : string)
| CellF (x : float)
| CellT (t : Time).

Definition csvHeader : list Cell :=
  [CellS "Debtor Name"; CellS "Total Debt"; CellS "Payment Date";
   CellS "Payment Amount"; CellS "Debt Reason"; CellS "Debt Amount"].

(** The rows [generateCSV] writes for one debtor (lines 283-323): one per
    debt, or a single row when there is none. *)
Definition csvRows (debtor : Debtor) (debts : list Debt) : list (list Cell) :=
  let total := totalDebt debts in
  let paymentDateStr :=
    match PaymentDate debtor with Some t => CellT t | None => CellS "" end in
  let paymentAmountStr :=
    match PaymentAmount debtor with Some a => CellF a | None => CellS "" end in
  match debts with
  | [] => [[CellS (Name debtor); CellF total; paymentDateStr; paymentAmountStr;
            CellS ""; CellS "0.00"]]
  | _ => map (fun debt =>
                [CellS (Name debtor); CellF total; paymentDateStr;
                 paymentAmountStr; CellS (Reason debt); CellF (Amount debt)])
             debts
  end.

(** The loop [for _, debtor := range debtors] of [generateCSV]. *)
Fixpoint csvBody (db : sqlDB) (debtors : list Debtor) : Result (list (list Cell)) :=
  match debtors with
  | [] => Ok []
  | debtor :: rest =>
      match listDebts db (ID debtor) with
      | Err err => Err err
      | Ok debts =>
          match csvBody db rest with
          | Err err => Err err
          | Ok rows => Ok (csvRows debtor debts ++ rows)%list
          end
      end
  end.

(** [generateCSV] (lines 253-328), as the rows written to the temporary file;
    creating and naming the file is the operating system's part. *)
Definition generateCSV (db : sqlDB) (chatID : Z) : Result (list (list Cell)) :=
  match listDebtors db chatID with
  | Err err => Err err
  | Ok [] => Err (Errorf ("no debtors found for chat " ++ Itoa chatID))
  | Ok debtors =>
      match csvBody db debtors with
      | Err err => Err err
      | Ok rows => Ok (csvHeader :: rows)
      end
  end.

(** ** Predicates of the further properties *)

(** What the schema promises of a database the bot wrote: ids are primary
    keys handed out by the AUTOINCREMENT counters, from 1 on, and
    [(name, chat_id)] is unique. *)
Definition wf (db : sqlDB) : Prop :=
  NoDup (map ID (debtors db)) /\
  NoDup (map Debt_ID (debts db)) /\
  NoDup (map (fun r => (Name r, ChatID r)) (debtors db)) /\
  Forall (fun r => 0 < ID r <= debtors_seq db) (debtors db) /\
  Forall (fun r => 0 < Debt_ID r <= debts_seq db) (debts db) /\
  0 <= debtors_seq db /\ 0 <= debts_seq db.

(** No stored debt has a zero amount. *)
Definition no_zero (db : sqlDB) : Prop := forallb nonzero (debts db) = true.

(** The chat an update belongs to. *)
Definition chatOf (update : Update) : Z :=
  match update with
  | Command chatID _ => chatID
  | Message chatID _ => chatID
  | CallbackQuery chatID _ _ => chatID
  end.

(** The entries of chat [c] in the three maps are the same in [w] and [w']. *)
Definition same_chat (c : Z) (w w' : World) : Prop :=
  userStates w' !! c = userStates w !! c /\
  currentDebtors w' !! c = currentDebtors w !! c /\
  selectedDebts w' !! c = selectedDebts w !! c.

(** The states in which [handleMessage] expects no text. *)
Definition textless_state (s : State) : bool :=
  match s with
  | StateIdle | StateEditingChooseDebt | StateEditingChooseWhatToEdit
  | StateConfirmingCloseDebt | StateConfirmingDeleteDebtor => true
  | _ => false
  end.

(** * Properties *)

(** ** Binary64 comparisons

    The comparisons of [float] are specified through [SFcompare]; the facts
    the handlers rely on follow by cases on the compared values. *)

Lemma SFcompare_antisym (x y : spec_float) :
  SFcompare y x = option_map CompOpp (SFcompare x y).
Proof.
  destruct x as [sx | sx | | sx mx ex], y as [sy | sy | | sy my ey]; simpl;
    try reflexivity;
    try (destruct sx; reflexivity); try (destruct sy; reflexivity);
    try (destruct sx, sy; reflexivity).
  destruct sx, sy; try reflexivity.
  - rewrite (Z.compare_antisym ey ex).
    destruct (ey ?= ex)%Z; simpl; try reflexivity.
    f_equal. f_equal. symmetry. apply (Pos.compare_cont_antisym mx my Eq).
  - rewrite (Z.compare_antisym ey ex).
    destruct (ey ?= ex)%Z; simpl; try reflexivity.
    f_equal. symmetry. apply (Pos.compare_cont_antisym mx my Eq).
Qed.

Lemma SFcompare_refl (x : spec_float) :
  x <> S754_nan -> SFcompare x x = Some Eq.
Proof.
  destruct x as [s | s | | s m e]; simpl; try congruence; intros _.
  - destruct s; reflexivity.
  - destruct s; rewrite Z.compare_refl, Pos.compare_cont_refl; reflexivity.
Qed.

Lemma SFcompare_nan_l (x y : spec_float) :
  SFcompare x y <> None -> x <> S754_nan.
Proof. intros H ->. apply H. reflexivity. Qed.

(** [x < y] excludes [y <= x]. *)
Lemma ltb_not_leb (x y : float) :
  PrimFloat.ltb x y = true -> PrimFloat.leb y x = false.
Proof.
  rewrite FloatAxioms.ltb_spec, FloatAxioms.leb_spec. unfold SFltb, SFleb.
  rewrite (SFcompare_antisym (Prim2SF x) (Prim2SF y)).
  destruct (SFcompare (Prim2SF x) (Prim2SF y)) as [[| |]|]; simpl; congruence.
Qed.

(** [x <= y] excludes [y < x]. *)
Lemma leb_not_ltb (x y : float) :
  PrimFloat.leb x y = true -> PrimFloat.ltb y x = false.
Proof.
  intros H. destruct (PrimFloat.ltb y x) eqn:E; [|reflexivity].
  apply ltb_not_leb in E. congruence.
Qed.

(** [x < y] excludes [y == x]. *)
Lemma ltb_not_eqb (x y : float) :
  PrimFloat.ltb x y = true -> PrimFloat.eqb y x = false.
Proof.
  rewrite FloatAxioms.ltb_spec, FloatAxioms.eqb_spec. unfold SFltb, SFeqb.
  rewrite (SFcompare_antisym (Prim2SF x) (Prim2SF y)).
  destruct (SFcompare (Prim2SF x) (Prim2SF y)) as [[| |]|]; simpl; congruence.
Qed.

(** A value that compares is no NaN. *)
Lemma ltb_not_nan (x y : float) :
  PrimFloat.ltb x y = true -> PrimFloat.is_nan y = false.
Proof.
  unfold PrimFloat.is_nan. rewrite FloatAxioms.ltb_spec, FloatAxioms.eqb_spec. unfold SFltb, SFeqb.
  intros H. rewrite SFcompare_refl; [reflexivity|].
  apply (SFcompare_nan_l _ (Prim2SF x)).
  rewrite (SFcompare_antisym (Prim2SF x) (Prim2SF y)).
  destruct (SFcompare (Prim2SF x) (Prim2SF y)); simpl; congruence.
Qed.

Lemma eqb_not_nan (x y : float) :
  PrimFloat.eqb x y = true -> PrimFloat.is_nan x = false.
Proof.
  unfold PrimFloat.is_nan. rewrite !FloatAxioms.eqb_spec. unfold SFeqb.
  intros H. rewrite SFcompare_refl; [reflexivity|].
  apply (SFcompare_nan_l _ (Prim2SF y)).
  destruct (SFcompare (Prim2SF x) (Prim2SF y)); simpl; congruence.
Qed.

(** ** Rows and lookups *)

(** An update that keeps the key maps the row found. *)
Lemma find_update {A} (p : A -> bool) (f : A -> A) (l : list A) :
  (forall x, p (f x) = p x) ->
  find p (map (fun r => if p r then f r else r) l) = f <$> find p l.
Proof.
  intros Hp. induction l as [|x l IH]; simpl; [reflexivity|].
  destruct (p x) eqn:E.
  - rewrite Hp, E. reflexivity.
  - rewrite E. exact IH.
Qed.

Lemma find_filter_out {A} (p : A -> bool) (l : list A) :
  find p (List.filter (fun r => negb (p r)) l) = None.
Proof.
  induction l as [|x l IH]; simpl; [reflexivity|].
  destruct (p x) eqn:E; simpl; [exact IH|]. rewrite E. exact IH.
Qed.

Lemma find_some_holds {A} (p : A -> bool) (l : list A) (x : A) :
  find p l = Some x -> p x = true /\ In x l.
Proof. intros H. apply find_some in H. tauto. Qed.

Lemma existsb_find {A} (p : A -> bool) (l : list A) :
  existsb p l = match find p l with Some _ => true | None => false end.
Proof.
  induction l as [|x l IH]; simpl; [reflexivity|].
  destruct (p x); [reflexivity | exact IH].
Qed.

Lemma getDebtorByID_ID (db : sqlDB) (id : Z) (debtor : Debtor) :
  getDebtorByID db id = Ok debtor -> ID debtor = id.
Proof.
  unfold getDebtorByID. destruct (find _ _) eqn:F; [|discriminate].
  intros [= <-]. apply find_some_holds in F. lia.
Qed.

Lemma getDebtorByID_has (db : sqlDB) (id : Z) (debtor : Debtor) :
  getDebtorByID db id = Ok debtor -> has_debtor db id = true.
Proof.
  unfold getDebtorByID, has_debtor. rewrite existsb_find.
  destruct (find _ _); [reflexivity | discriminate].
Qed.


Lemma getDebtByID_has (db : sqlDB) (id : Z) (debt : Debt) :
  getDebtByID db id = Ok debt -> has_debt db id = true.
Proof.
  unfold getDebtByID, has_debt. rewrite existsb_find.
  destruct (find _ _); [reflexivity | discriminate].
Qed.

(** ** Deleting a debtor *)

Lemma deleteDebtor_gone (db : sqlDB) (id : Z) :
  getDebtorByID (fst (deleteDebtor db id)) id = Err ErrNoRows.
Proof.
  unfold getDebtorByID, deleteDebtor, delete_debtor. simpl.
  rewrite (find_filter_out (fun r => ID r =? id)). reflexivity.
Qed.

(** With the pragma on, the ON DELETE CASCADE clause empties the debtor's
    list of debts. *)
Lemma deleteDebtor_cascades_when_enforced (db : sqlDB) (id : Z) :
  foreign_keys db = true -> has_debtor db id = true ->
  listDebts (fst (deleteDebtor db id)) id = Ok [].
Proof.
  intros Hfk Hd. unfold listDebts, deleteDebtor, delete_debtor. simpl.
  rewrite Hfk, Hd. simpl. f_equal.
  induction (debts db) as [|r l IH]; simpl; [reflexivity|].
  destruct (DebtorID r =? id) eqn:E; simpl; [exact IH|].
  rewrite E. exact IH.
Qed.

(** On the connection [initDB] opens the pragma is off: the debtor's row
    goes, the table of debts is left as it was. *)
Lemma deleteDebtor_after_initDB (file : sqlDB) (id : Z) :
  let db := initDB file in
  snd (deleteDebtor db id) = None /\
  getDebtorByID (fst (deleteDebtor db id)) id = Err ErrNoRows /\
  debts (fst (deleteDebtor db id)) = debts file /\
  listDebts (fst (deleteDebtor db id)) id = listDebts db id.
Proof.
  intros db. split; [reflexivity|]. split; [apply deleteDebtor_gone|].
  split; reflexivity.
Qed.

(** C1. The claim is that [deleteDebtor] removes the debtor together with
    every debt referencing it, so that [listDebts] is empty afterwards. On the
    connection [initDB] opens, deleting debtor 1 of [alex_file] removes the
    debtor and reports no error, and [listDebts] still returns the debt. *)
Theorem deleteDebtor_leaves_debts :
  let db := initDB alex_file in
  has_debtor db 1 = true /\
  snd (deleteDebtor db 1) = None /\
  getDebtorByID (fst (deleteDebtor db 1)) 1 = Err ErrNoRows /\
  listDebts (fst (deleteDebtor db 1)) 1 = Ok [mkDebt 1 0 100%float "lunch"].
Proof.
  pose proof (deleteDebtor_after_initDB alex_file 1) as (H1 & H2 & _ & H4).
  split; [reflexivity|]. split; [exact H1|]. split; [exact H2|].
  rewrite H4. reflexivity.
Qed.

(** ** Closing a debt *)

Lemma filter_twice {A} (p : A -> bool) (l : list A) :
  List.filter p (List.filter p l) = List.filter p l.
Proof.
  induction l as [|x l IH]; simpl; [reflexivity|].
  destruct (p x) eqn:E; simpl; [rewrite E; f_equal|]; exact IH.
Qed.

Lemma filter_out_unique {A} (key : A -> Z) (id : Z) (l : list A) :
  NoDup (map key l) -> existsb (fun r => key r =? id) l = true ->
  S (length (List.filter (fun r => negb (key r =? id)) l)) = length l.
Proof.
  induction l as [|x l IH]; simpl; [discriminate|].
  intros Hnd Hex. apply NoDup_cons in Hnd as [Hx Hnd].
  destruct (key x =? id) eqn:E; simpl.
  - f_equal. apply Z.eqb_eq in E.
    assert (Hall : forall r, In r l -> negb (key r =? id) = true).
    { intros r Hr. destruct (key r =? id) eqn:E'; [|reflexivity].
      apply Z.eqb_eq in E'. exfalso. apply Hx.
      apply list_elem_of_In, in_map_iff. exists r. split; [lia | exact Hr]. }
    clear -Hall. induction l as [|y l IH]; simpl; [reflexivity|].
    rewrite (Hall y (or_introl eq_refl)). simpl. f_equal.
    apply IH. intros r Hr. apply Hall. now right.
  - f_equal. apply IH; assumption.
Qed.

(** ** The world across the helper functions *)

Lemma userState_clear (chatID : Z) (w : World) :
  userState (clearUserState chatID w) chatID = StateIdle.
Proof. unfold userState, clearUserState. simpl. now rewrite lookup_delete_eq. Qed.

Lemma showDebtorDetails_DB (chatID debtorID : Z) (w : World) :
  DB (showDebtorDetails chatID debtorID w) = DB w.
Proof.
  unfold showDebtorDetails.
  destruct (getDebtorByID (DB w) debtorID) as [debtor|err]; simpl; [reflexivity|].
  destruct (isErrNoRows err); reflexivity.
Qed.

Lemma showDebtorDetails_userStates (chatID debtorID : Z) (w : World) :
  userStates (showDebtorDetails chatID debtorID w) = userStates w.
Proof.
  unfold showDebtorDetails.
  destruct (getDebtorByID (DB w) debtorID) as [debtor|err]; simpl; [reflexivity|].
  destruct (isErrNoRows err); reflexivity.
Qed.

Lemma showDebtorDetails_selectedDebts (chatID debtorID : Z) (w : World) :
  selectedDebts (showDebtorDetails chatID debtorID w) = selectedDebts w.
Proof.
  unfold showDebtorDetails.
  destruct (getDebtorByID (DB w) debtorID) as [debtor|err]; simpl; [reflexivity|].
  destruct (isErrNoRows err); reflexivity.
Qed.

Lemma showDebtorDetails_sent (chatID debtorID : Z) (w : World) :
  exists more, sent (showDebtorDetails chatID debtorID w) = (sent w ++ more)%list.
Proof.
  unfold showDebtorDetails.
  destruct (getDebtorByID (DB w) debtorID) as [debtor|err]; simpl.
  - eexists. reflexivity.
  - destruct (isErrNoRows err); simpl; rewrite <- app_assoc; eexists; reflexivity.
Qed.

(** The view of an existing debtor makes that debtor the chat's focus. *)
Lemma showDebtorDetails_focus (chatID debtorID : Z) (w : World) (debtor : Debtor) :
  getDebtorByID (DB w) debtorID = Ok debtor ->
  currentDebtors (showDebtorDetails chatID debtorID w)
  = <[chatID := debtor]> (currentDebtors w).
Proof. unfold showDebtorDetails. intros ->. reflexivity. Qed.

(** ** C6: closing a debt twice *)

(** The case [confirm_close:] of the callback handler. *)
Lemma confirm_close_unfold (w : World) (chatID messageID : Z) (payload : string) :
  handleCallbackQuery chatID messageID ("confirm_close:" ++ payload) w
  = let w1 := editMessageWithKeyboard chatID messageID (Sprintf "Долг закрыт." [])
                (set_DB (fst (closeDebt (DB w) (fst (Atoi payload)))) w) in
    clearUserState chatID
      (showDebtorDetails chatID (ID (currentDebtor w1 chatID)) w1).
Proof. reflexivity. Qed.

(** C6, as the claim states it, fails: the second [closeDebt] of the same id
    reports no error at all, so no NotFound either. *)
Lemma closeDebt_twice_reports_nothing :
  getDebtByID alex_db 1 = Ok (mkDebt 1 1 100%float "lunch") /\
  snd (closeDebt (fst (closeDebt alex_db 1)) 1) <> Some ErrNoRows.
Proof. split; [reflexivity | discriminate]. Qed.

(** C6, amended. [closeDebt] of a stored debt removes that row and no other
    (ids are a primary key), and returns no error; a second call changes
    nothing and returns no error as well. The confirm-close button deletes
    through [closeDebt] whatever id its payload holds, answers that the debt
    is closed, and the conversation is idle afterwards, whether or not the
    debt was still there. *)
Theorem closeDebt_twice (db : sqlDB) (id : Z) (debt : Debt) :
  NoDup (map Debt_ID (debts db)) ->
  getDebtByID db id = Ok debt ->
  let db1 := fst (closeDebt db id) in
  snd (closeDebt db id) = None /\
  S (length (debts db1)) = length (debts db) /\
  (forall r, In r (debts db1) <-> In r (debts db) /\ Debt_ID r <> id) /\
  debtors db1 = debtors db /\
  getDebtByID db1 id = Err ErrNoRows /\
  closeDebt db1 id = (db1, None) /\
  (forall (w : World) (chatID messageID : Z) (payload : string),
     let w' := handleCallbackQuery chatID messageID ("confirm_close:" ++ payload) w in
     DB w' = fst (closeDebt (DB w) (fst (Atoi payload))) /\
     userState w' chatID = StateIdle /\
     exists more,
       sent w' = (sent w ++ Edit chatID messageID (Sprintf "Долг закрыт." []) :: more)%list).
Proof.
  intros Hnd Hget db1. subst db1. unfold closeDebt, delete_debt. simpl.
  split; [reflexivity|].
  split; [apply (filter_out_unique Debt_ID id); [exact Hnd | exact (getDebtByID_has _ _ _ Hget)]|].
  split.
  { intros r. rewrite filter_In. rewrite negb_true_iff, Z.eqb_neq. tauto. }
  split; [reflexivity|].
  split.
  { unfold getDebtByID. simpl.
    rewrite (find_filter_out (fun r => Debt_ID r =? id)). reflexivity. }
  split.
  { f_equal. unfold with_debts. simpl. f_equal. apply filter_twice. }
  intros w chatID messageID payload.
  rewrite confirm_close_unfold. cbv zeta. rewrite userState_clear.
  change (DB (clearUserState ?c ?v)) with (DB v).
  change (sent (clearUserState ?c ?v)) with (sent v).
  rewrite showDebtorDetails_DB.
  split; [reflexivity|]. split; [reflexivity|].
  match goal with |- context [showDebtorDetails ?c ?i ?v] =>
    destruct (showDebtorDetails_sent c i v) as [more Hmore] end.
  exists more. rewrite Hmore. simpl. rewrite <- app_assoc. reflexivity.
Qed.

(** ** The handlers, for any [strconv.ParseFloat] and [time.Parse] *)

Section HandlerProperties.

Variable ParseFloat : string -> option float.
Variable time_Parse : string -> string -> option Time.

Local Abbreviation handleMessage' := (handleMessage ParseFloat time_Parse).
Local Abbreviation parseAmount' := (parseAmount ParseFloat).
Local Abbreviation parseDate' := (parseDate time_Parse).


Lemma parseAmount_positive (text : string) (amount : float) :
  ParseFloat text = Some amount -> PrimFloat.ltb 0 amount = true ->
  parseAmount' text = Some amount.
Proof.
  intros H Hpos. unfold parseAmount. rewrite H.
  now rewrite (ltb_not_leb _ _ Hpos).
Qed.

(** *** C4: subtracting more than the debt *)

(** C4. In the state [StateSubtractingFromDebt], an amount strictly greater
    than the focused debt's amount changes nothing but the messages sent:
    the database, the conversation state and both focuses are as before, and
    one corrective message goes out; for a positive amount it is the one
    saying that the amount may not exceed the debt. *)
Theorem subtract_more_than_debt (w : World) (chatID : Z) (text : string)
        (amount : float) :
  userState w chatID = StateSubtractingFromDebt ->
  ParseFloat text = Some amount ->
  PrimFloat.ltb (Amount (selectedDebt w chatID)) amount = true ->
  let w' := handleMessage' chatID text w in
  DB w' = DB w /\
  userStates w' = userStates w /\
  userState w' chatID = StateSubtractingFromDebt /\
  selectedDebts w' = selectedDebts w /\
  currentDebtors w' = currentDebtors w /\
  exists msg,
    sent w' = (sent w ++ [Send chatID (Sprintf msg [])])%list /\
    (PrimFloat.ltb 0 amount = true ->
     msg = "Сумма для вычитания не может быть больше суммы долга.").
Proof.
  intros Hstate Hparse Hgt w'. subst w'.
  unfold handleMessage. rewrite Hstate.
  unfold parseAmount. rewrite Hparse.
  destruct (PrimFloat.leb amount 0) eqn:Hle.
  - repeat (split; [reflexivity || exact Hstate|]).
    eexists. split; [reflexivity|].
    intros Hpos. apply ltb_not_leb in Hpos. congruence.
  - rewrite Hgt.
    repeat (split; [reflexivity || exact Hstate|]).
    eexists. split; reflexivity.
Qed.

(** *** C3: subtracting within the debt *)

Lemma subtract_DB (w : World) (chatID : Z) (text : string) (amount : float) :
  userState w chatID = StateSubtractingFromDebt ->
  parseAmount' text = Some amount ->
  PrimFloat.ltb (Amount (selectedDebt w chatID)) amount = false ->
  let w' := handleMessage' chatID text w in
  DB w' = subtracted (DB w) (selectedDebt w chatID)
            (PrimFloat.sub (Amount (selectedDebt w chatID)) amount) /\
  userState w' chatID = StateIdle.
Proof.
  intros Hstate Hparse Hgt w'. subst w'.
  unfold handleMessage. rewrite Hstate, Hparse, Hgt.
  unfold subtracted.
  destruct (updateDebtAmount _ _ _) as [d [err|]].
  - rewrite userState_clear. split; reflexivity.
  - rewrite userState_clear.
    change (DB (clearUserState ?c ?v)) with (DB v).
    rewrite showDebtorDetails_DB.
    destruct (PrimFloat.eqb _ 0); split; reflexivity.
Qed.

Lemma forallb_update (p : Debt -> bool) (id : Z) (f : Debt -> Debt)
      (l : list Debt) :
  (forall r, p (f r) = true) -> forallb p l = true ->
  forallb p (map (fun r => if Debt_ID r =? id then f r else r) l) = true.
Proof.
  intros Hf. induction l as [|r l IH]; simpl; [reflexivity|].
  intros [Hr Hl]%andb_true_iff. rewrite (IH Hl), andb_true_r.
  destruct (Debt_ID r =? id); [apply Hf | exact Hr].
Qed.

(** Rows other than the closed one, and their amounts, pass through
    update and delete of the row [id]. *)
Lemma forallb_update_delete (p : Debt -> bool) (id : Z) (f : Debt -> Debt)
      (l : list Debt) :
  (forall r, Debt_ID (f r) = Debt_ID r) -> forallb p l = true ->
  forallb p (List.filter (fun r => negb (Debt_ID r =? id))
               (map (fun r => if Debt_ID r =? id then f r else r) l)) = true.
Proof.
  intros Hf. induction l as [|r l IH]; simpl; [reflexivity|].
  intros [Hr Hl]%andb_true_iff.
  destruct (Debt_ID r =? id) eqn:E; simpl.
  - rewrite Hf, E. simpl. auto.
  - rewrite E. simpl. rewrite Hr. auto.
Qed.

(** C3. In the state [StateSubtractingFromDebt], let the focused debt be the
    stored row, of amount [d], and let the text parse to a positive amount
    [a <= d]. After the message is handled the conversation is idle; if
    [d - a > 0] the stored debt has amount [d - a]; if [d - a] is zero the
    debt is gone; the other debts and the debtors are untouched, and if no
    stored debt had a zero amount before, none has one afterwards. *)
Theorem subtract_within_debt (w : World) (chatID : Z) (text : string)
        (amount : float) (debt : Debt) :
  userState w chatID = StateSubtractingFromDebt ->
  selectedDebt w chatID = debt ->
  getDebtByID (DB w) (Debt_ID debt) = Ok debt ->
  ParseFloat text = Some amount ->
  PrimFloat.ltb 0 amount = true ->
  PrimFloat.leb amount (Amount debt) = true ->
  let newAmount := PrimFloat.sub (Amount debt) amount in
  let w' := handleMessage' chatID text w in
  userState w' chatID = StateIdle /\
  (PrimFloat.ltb 0 newAmount = true ->
   getDebtByID (DB w') (Debt_ID debt)
   = Ok (mkDebt (Debt_ID debt) (DebtorID debt) newAmount (Reason debt))) /\
  (PrimFloat.eqb newAmount 0 = true ->
   getDebtByID (DB w') (Debt_ID debt) = Err ErrNoRows) /\
  (forall id, id <> Debt_ID debt ->
              getDebtByID (DB w') id = getDebtByID (DB w) id) /\
  debtors (DB w') = debtors (DB w) /\
  (forallb nonzero (debts (DB w)) = true ->
   forallb nonzero (debts (DB w')) = true).
Proof.
  intros Hstate Hsel Hget Hparse Hpos Hle newAmount w'.
  pose proof (parseAmount_positive _ _ Hparse Hpos) as Hamount.
  pose proof (leb_not_ltb _ _ Hle) as Hgt.
  destruct (subtract_DB w chatID text amount Hstate Hamount) as [HDB Hidle].
  { now rewrite Hsel. }
  fold w' in HDB, Hidle. rewrite Hsel in HDB. fold newAmount in HDB.
  split; [exact Hidle|]. rewrite HDB. clear HDB Hidle.
  unfold subtracted, updateDebtAmount.
  rewrite (getDebtByID_has _ _ _ Hget), andb_true_r.
  set (f := fun r => mkDebt (Debt_ID r) (DebtorID r) newAmount (Reason r)).
  assert (Hfind : find (fun r => Debt_ID r =? Debt_ID debt) (debts (DB w)) = Some debt).
  { unfold getDebtByID in Hget. destruct (find _ _); congruence. }
  destruct (real_is_null newAmount) eqn:Hnan.
  { (* the remainder is a NaN: the update is refused *)
    split; [intros H; apply ltb_not_nan in H; unfold real_is_null in Hnan; congruence|].
    split; [intros H; apply eqb_not_nan in H; unfold real_is_null in Hnan; congruence|].
    split; [reflexivity|]. split; [reflexivity | tauto]. }
  destruct (PrimFloat.eqb newAmount 0) eqn:Hzero.
  - (* the remainder is zero: the debt is closed *)
    split; [intros H; apply ltb_not_eqb in H; congruence|].
    split.
    { intros _. unfold getDebtByID, closeDebt, delete_debt, update_debts. simpl.
      now rewrite (find_filter_out (fun r => Debt_ID r =? Debt_ID debt)). }
    split.
    { intros id Hid. unfold getDebtByID, closeDebt, delete_debt, update_debts. simpl.
      f_equal. generalize (debts (DB w)). intros l.
      induction l as [|r l IH]; simpl; [reflexivity|].
      destruct (Debt_ID r =? Debt_ID debt) eqn:E; simpl.
      - rewrite E. simpl. apply Z.eqb_eq in E.
        destruct (Debt_ID r =? id) eqn:E'; [apply Z.eqb_eq in E'; congruence | exact IH].
      - rewrite E. simpl. destruct (Debt_ID r =? id); [reflexivity | exact IH]. }
    split; [reflexivity|].
    intros Hnz. simpl. now apply forallb_update_delete.
  - (* a remainder is left *)
    split.
    { intros _. unfold getDebtByID, update_debts. simpl.
      rewrite (find_update (fun r => Debt_ID r =? Debt_ID debt) f); [|reflexivity].
      rewrite Hfind. reflexivity. }
    split; [discriminate|].
    split.
    { intros id Hid. unfold getDebtByID, update_debts. simpl. f_equal.
      generalize (debts (DB w)). intros l.
      induction l as [|r l IH]; simpl; [reflexivity|].
      destruct (Debt_ID r =? Debt_ID debt) eqn:E; simpl.
      - apply Z.eqb_eq in E.
        destruct (Debt_ID r =? id) eqn:E'; [apply Z.eqb_eq in E'; congruence | exact IH].
      - destruct (Debt_ID r =? id); [reflexivity | exact IH]. }
    split; [reflexivity|].
    intros Hnz. simpl. apply forallb_update; [|exact Hnz].
    intros r. unfold nonzero. simpl. now rewrite Hzero.
Qed.

(** *** C9: the payment date is parsed by the first layout that fits *)

Lemma tryFormats_cons (format : string) (rest : list string) (text : string)
      (last : option Time) :
  tryFormats time_Parse (format :: rest) text last
  = match time_Parse format text with
    | Some t => Some t
    | None => tryFormats time_Parse rest text None
    end.
Proof. reflexivity. Qed.

(** After a failed parse the loop yields the first success of the layouts
    left, if any. *)
Lemma tryFormats_first (layouts : list string) (text : string) (t : Time) :
  tryFormats time_Parse layouts text None = Some t <->
  exists before format after,
    layouts = (before ++ format :: after)%list /\
    Forall (fun g => time_Parse g text = None) before /\
    time_Parse format text = Some t.
Proof.
  induction layouts as [|f rest IH]; simpl.
  - split; [discriminate|]. intros (before & g & after & H & _).
    destruct before; discriminate.
  - destruct (time_Parse f text) as [t'|] eqn:E.
    + split.
      * intros [= <-]. exists [], f, rest. repeat split; [constructor | exact E].
      * intros (before & g & after & H & Hall & Hg).
        destruct before as [|b before]; simpl in H.
        -- injection H as <- _. congruence.
        -- injection H as <- _. apply Forall_cons in Hall as [Hb _]. congruence.
    + rewrite IH. split.
      * intros (before & g & after & -> & Hall & Hg).
        exists (f :: before), g, after. repeat split; [constructor; assumption | exact Hg].
      * intros (before & g & after & H & Hall & Hg).
        destruct before as [|b before]; simpl in H.
        -- injection H as <- _. congruence.
        -- injection H as <- ->. apply Forall_cons in Hall as [_ Hall].
           exists before, g, after. repeat split; assumption.
Qed.

Lemma tryFormats_none (layouts : list string) (text : string) :
  tryFormats time_Parse layouts text None = None <->
  forall format, In format layouts -> time_Parse format text = None.
Proof.
  induction layouts as [|f rest IH]; simpl.
  - split; [intros _ g [] | reflexivity].
  - destruct (time_Parse f text) as [t'|] eqn:E.
    + split; [discriminate|]. intros H. rewrite (H f) in E; [discriminate | now left].
    + rewrite IH. split.
      * intros H g [<- | Hg]; [exact E | now apply H].
      * intros H g Hg. apply H. now right.
Qed.

Lemma parseDate_first (text : string) (t : Time) :
  parseDate' text = Some t <->
  exists before format after,
    formats = (before ++ format :: after)%list /\
    Forall (fun g => time_Parse g text = None) before /\
    time_Parse format text = Some t.
Proof.
  unfold parseDate. unfold formats at 1. rewrite tryFormats_cons.
  rewrite <- (tryFormats_first formats text t). unfold formats.
  rewrite tryFormats_cons. reflexivity.
Qed.

Lemma parseDate_none (text : string) :
  parseDate' text = None <->
  forall format, In format formats -> time_Parse format text = None.
Proof.
  unfold parseDate. unfold formats at 1. rewrite tryFormats_cons.
  rewrite <- (tryFormats_none formats text). unfold formats.
  rewrite tryFormats_cons. reflexivity.
Qed.

(** A date that parses is stored for the focused debtor and the chat is
    idle afterwards. *)
Lemma payment_date_accepted (w : World) (chatID : Z) (text : string) (t : Time) :
  date_state (userState w chatID) = true ->
  parseDate' text = Some t ->
  let w' := handleMessage' chatID text w in
  DB w' = fst (updateDebtorPaymentDate (DB w) (ID (currentDebtor w chatID)) t) /\
  userState w' chatID = StateIdle.
Proof.
  intros Hstate Hparse w'. subst w'. unfold handleMessage.
  destruct (userState w chatID); try discriminate; rewrite Hparse;
    unfold updateDebtorPaymentDate; rewrite userState_clear;
    change (DB (clearUserState ?c ?v)) with (DB v);
    rewrite showDebtorDetails_DB; split; reflexivity.
Qed.

(** A date no layout parses is answered with a format hint and nothing
    else changes. *)
Lemma payment_date_refused (w : World) (chatID : Z) (text : string) :
  date_state (userState w chatID) = true ->
  parseDate' text = None ->
  exists hint,
    handleMessage' chatID text w = sendSimpleMessage chatID (Sprintf hint []) w.
Proof.
  intros Hstate Hparse. unfold handleMessage.
  destruct (userState w chatID); try discriminate; rewrite Hparse;
    eexists; reflexivity.
Qed.

(** C9. In the two payment-date states the text is parsed with the eight
    layouts below, in this order; the result is the time given by the first
    layout that parses the text. A date is accepted, and stored with
    [updateDebtorPaymentDate] for the focused debtor, exactly when some
    layout parses it; otherwise a format hint is sent and the state, the
    focus and the database are unchanged. *)
Theorem payment_date_parsing (w : World) (chatID : Z) (text : string) :
  date_state (userState w chatID) = true ->
  formats = ["02.01.2006"; "02.01.06"; "2.1.2006"; "2.1.06";
             "02-01-2006"; "02-01-06"; "2-1-2006"; "2-1-06"] /\
  length formats = 8%nat /\
  (forall t,
     parseDate' text = Some t <->
     exists before format after,
       formats = (before ++ format :: after)%list /\
       Forall (fun g => time_Parse g text = None) before /\
       time_Parse format text = Some t) /\
  ((exists t, parseDate' text = Some t) <->
   exists format t, In format formats /\ time_Parse format text = Some t) /\
  let w' := handleMessage' chatID text w in
  match parseDate' text with
  | Some t =>
      DB w' = fst (updateDebtorPaymentDate (DB w) (ID (currentDebtor w chatID)) t) /\
      userState w' chatID = StateIdle
  | None =>
      exists hint, w' = sendSimpleMessage chatID (Sprintf hint []) w
  end.
Proof.
  intros Hstate. split; [reflexivity|]. split; [reflexivity|].
  split; [apply parseDate_first|]. split.
  - split.
    + intros [t Ht]. apply parseDate_first in Ht as (before & f & after & Hf & _ & Hp).
      exists f, t. split; [|exact Hp]. rewrite Hf. apply in_elt.
    + intros (f & t & Hin & Hp).
      destruct (parseDate' text) as [t'|] eqn:E; [eauto|].
      rewrite parseDate_none in E. rewrite (E f Hin) in Hp. discriminate.
  - intros w'. destruct (parseDate' text) as [t|] eqn:E.
    + exact (payment_date_accepted w chatID text t Hstate E).
    + exact (payment_date_refused w chatID text Hstate E).
Qed.

(** *** C8: input that fails validation *)


(** *** C10: the focus kept by the debtor view *)

Lemma userState_set (chatID : Z) (s : State) (w : World) :
  userState (set_userState chatID s w) chatID = s.
Proof. unfold userState, set_userState. simpl. now rewrite lookup_insert_eq. Qed.

Lemma selectedDebt_set (chatID : Z) (d : Debt) (w : World) :
  selectedDebt (set_selectedDebt chatID d w) chatID = d.
Proof. unfold selectedDebt, set_selectedDebt. simpl. now rewrite lookup_insert_eq. Qed.

(** The messages that follow the button [add_debt_to_existing]: the reason,
    then a valid amount, add a debt for the focused debtor. *)
Lemma add_debt_to_existing_flow (w : World) (chatID messageID : Z)
      (reason text : string) (amount : float) :
  parseAmount' text = Some amount ->
  DB (handleMessage' chatID text
        (handleMessage' chatID reason
           (handleCallbackQuery chatID messageID "add_debt_to_existing" w)))
  = fst (addDebt (DB w) (mkDebt 0 (ID (currentDebtor w chatID)) amount reason)).
Proof.
  intros Hparse.
  change (handleCallbackQuery chatID messageID "add_debt_to_existing" w)
    with (editMessageWithKeyboard chatID messageID
            (Sprintf "Какова причина долга для *%s*?"
                     [ArgS (Name (currentDebtor (set_userState chatID StateAddingDebtReason w) chatID))])
            (set_userState chatID StateAddingDebtReason w)).
  set (w1 := editMessageWithKeyboard _ _ _ _).
  assert (H1 : userState w1 chatID = StateAddingDebtReason) by apply userState_set.
  unfold handleMessage at 2. rewrite H1.
  set (w2 := sendSimpleMessage _ _ _).
  assert (H2 : userState w2 chatID = StateAddingDebtAmount) by apply userState_set.
  assert (H3 : selectedDebt w2 chatID
               = mkDebt 0 (ID (currentDebtor w chatID)) 0%float reason)
    by apply selectedDebt_set.
  unfold handleMessage. rewrite H2, Hparse, H3.
  change (DB w2) with (DB w). change (currentDebtor w2 chatID) with (currentDebtor w chatID).
  simpl Reason.
  destruct (addDebt (DB w) _) as [d [err|]]; reflexivity.
Qed.

(** The button [delete_debtor] and its confirmation delete the focused
    debtor. *)
Lemma delete_debtor_flow (w : World) (chatID messageID messageID' : Z) :
  DB (handleCallbackQuery chatID messageID' "confirm_delete_debtor"
        (handleCallbackQuery chatID messageID "delete_debtor" w))
  = fst (deleteDebtor (DB w) (ID (currentDebtor w chatID))).
Proof. reflexivity. Qed.

Lemma payment_amount_flow (w : World) (chatID messageID : Z) (button text : string)
      (amount : float) :
  button = "set_payment_amount" \/ button = "edit_payment_amount" ->
  parseAmount' text = Some amount ->
  DB (handleMessage' chatID text (handleCallbackQuery chatID messageID button w))
  = fst (updateDebtorPaymentAmount (DB w) (ID (currentDebtor w chatID)) amount).
Proof.
  intros [-> | ->] Hparse.
  - change (handleCallbackQuery chatID messageID "set_payment_amount" w)
      with (editMessageWithKeyboard chatID messageID
              (Sprintf "Введите сумму платежа:" [])
              (set_userState chatID StateSettingPaymentAmount w)).
    set (w1 := editMessageWithKeyboard _ _ _ _).
    assert (H1 : userState w1 chatID = StateSettingPaymentAmount) by apply userState_set.
    unfold handleMessage. rewrite H1, Hparse.
    unfold updateDebtorPaymentAmount. cbv beta iota zeta.
    rewrite showDebtorDetails_DB. reflexivity.
  - change (handleCallbackQuery chatID messageID "edit_payment_amount" w)
      with (editMessageWithKeyboard chatID messageID
              (Sprintf "Введите новую сумму платежа:" [])
              (set_userState chatID StateEditingPaymentAmount w)).
    set (w1 := editMessageWithKeyboard _ _ _ _).
    assert (H1 : userState w1 chatID = StateEditingPaymentAmount) by apply userState_set.
    unfold handleMessage. rewrite H1, Hparse.
    unfold updateDebtorPaymentAmount. cbv beta iota zeta.
    rewrite showDebtorDetails_DB. reflexivity.
Qed.

Lemma payment_date_flow (w : World) (chatID messageID : Z) (button text : string)
      (t : Time) :
  button = "set_payment_date" \/ button = "edit_payment_date" ->
  parseDate' text = Some t ->
  DB (handleMessage' chatID text (handleCallbackQuery chatID messageID button w))
  = fst (updateDebtorPaymentDate (DB w) (ID (currentDebtor w chatID)) t).
Proof.
  intros Hb Hparse.
  assert (Hs : exists w1, handleCallbackQuery chatID messageID button w = w1 /\
                          date_state (userState w1 chatID) = true /\
                          DB w1 = DB w /\
                          currentDebtor w1 chatID = currentDebtor w chatID).
  { destruct Hb as [-> | ->]; eexists; (split; [reflexivity|]);
      (split; [|split; reflexivity]).
    - change (handleCallbackQuery chatID messageID "set_payment_date" w)
        with (editMessageWithKeyboard chatID messageID
                (Sprintf "Введите дату платежа (ДД.ММ.ГГГГ или ДД.ММ.ГГ):" [])
                (set_userState chatID StateSettingPaymentDate w)).
      unfold editMessageWithKeyboard, emit, userState. simpl.
      now rewrite lookup_insert_eq.
    - change (handleCallbackQuery chatID messageID "edit_payment_date" w)
        with (editMessageWithKeyboard chatID messageID
                (Sprintf "Введите новую дату платежа (ДД.ММ.ГГГГ или ДД.ММ.ГГ):" [])
                (set_userState chatID StateEditingPaymentDate w)).
      unfold editMessageWithKeyboard, emit, userState. simpl.
      now rewrite lookup_insert_eq. }
  destruct Hs as (w1 & -> & Hstate & HDB & Hcur).
  destruct (payment_date_accepted w1 chatID text t Hstate Hparse) as [H _].
  rewrite H, HDB, Hcur. reflexivity.
Qed.

(** C10. After a select-debtor press for a stored debtor the chat has no
    entry in [userStates] (it is idle) and none in [selectedDebts], and the
    debtor read from the database is the chat's focused debtor. The buttons
    of the view then act on that debtor: add-debt-to-existing followed by a
    reason and a valid amount adds a debt for it, delete-debtor followed by
    the confirmation deletes it, and the payment date and amount buttons
    followed by a valid text set its payment date and amount. *)
Theorem select_debtor_keeps_focus (w : World) (chatID messageID : Z)
        (payload : string) (debtorID : Z) (debtor : Debtor) :
  Atoi payload = (debtorID, None) ->
  getDebtorByID (DB w) debtorID = Ok debtor ->
  let w1 := handleCallbackQuery chatID messageID ("select_debtor:" ++ payload) w in
  userStates w1 !! chatID = None /\
  userState w1 chatID = StateIdle /\
  selectedDebts w1 !! chatID = None /\
  currentDebtors w1 !! chatID = Some debtor /\
  ID debtor = debtorID /\
  DB w1 = DB w /\
  (forall m reason text amount,
     parseAmount' text = Some amount ->
     DB (handleMessage' chatID text
           (handleMessage' chatID reason
              (handleCallbackQuery chatID m "add_debt_to_existing" w1)))
     = fst (addDebt (DB w) (mkDebt 0 debtorID amount reason))) /\
  (forall m m',
     DB (handleCallbackQuery chatID m' "confirm_delete_debtor"
           (handleCallbackQuery chatID m "delete_debtor" w1))
     = fst (deleteDebtor (DB w) debtorID)) /\
  (forall m button text t,
     button = "set_payment_date" \/ button = "edit_payment_date" ->
     parseDate' text = Some t ->
     DB (handleMessage' chatID text (handleCallbackQuery chatID m button w1))
     = fst (updateDebtorPaymentDate (DB w) debtorID t)) /\
  (forall m button text amount,
     button = "set_payment_amount" \/ button = "edit_payment_amount" ->
     parseAmount' text = Some amount ->
     DB (handleMessage' chatID text (handleCallbackQuery chatID m button w1))
     = fst (updateDebtorPaymentAmount (DB w) debtorID amount)).
Proof.
  intros Hatoi Hget w1.
  assert (Hw1 : w1 = showDebtorDetails chatID debtorID
                       (clearUserState chatID (set_currentDebtor chatID debtor w))).
  { subst w1. unfold handleCallbackQuery.
    change (HasPrefix ("select_debtor:" ++ payload) "select_debtor:") with true.
    change (TrimPrefix ("select_debtor:" ++ payload) "select_debtor:") with payload.
    cbv iota. rewrite Hatoi, Hget. reflexivity. }
  assert (HDB : DB w1 = DB w) by (rewrite Hw1, showDebtorDetails_DB; reflexivity).
  assert (Hfocus : currentDebtors w1 !! chatID = Some debtor).
  { rewrite Hw1, (showDebtorDetails_focus _ _ _ debtor); [apply lookup_insert_eq|].
    exact Hget. }
  assert (Hcur : currentDebtor w1 chatID = debtor).
  { unfold currentDebtor. now rewrite Hfocus. }
  pose proof (getDebtorByID_ID _ _ _ Hget) as HID.
  split.
  { rewrite Hw1, showDebtorDetails_userStates. apply lookup_delete_eq. }
  split.
  { unfold userState. rewrite Hw1, showDebtorDetails_userStates. simpl.
    now rewrite lookup_delete_eq. }
  split.
  { rewrite Hw1, showDebtorDetails_selectedDebts. apply lookup_delete_eq. }
  split; [exact Hfocus|]. split; [exact HID|]. split; [exact HDB|].
  split.
  { intros m reason text amount Hp.
    rewrite (add_debt_to_existing_flow w1 chatID m reason text amount Hp).
    now rewrite HDB, Hcur, HID. }
  split.
  { intros m m'. rewrite delete_debtor_flow. now rewrite HDB, Hcur, HID. }
  split.
  { intros m button text t Hb Hp.
    rewrite (payment_date_flow w1 chatID m button text t Hb Hp).
    now rewrite HDB, Hcur, HID. }
  intros m button text amount Hb Hp.
  rewrite (payment_amount_flow w1 chatID m button text amount Hb Hp).
  now rewrite HDB, Hcur, HID.
Qed.

(** *** C7: a second debtor of the same name *)

Lemma find_app_new {A} (p : A -> bool) (l : list A) (x : A) :
  existsb p l = false -> p x = true -> find p (l ++ [x]) = Some x.
Proof.
  induction l as [|y l IH]; simpl; intros H Hx.
  - now rewrite Hx.
  - apply orb_false_iff in H as [Hy Hl]. rewrite Hy. now apply IH.
Qed.

Lemma existsb_app_new {A} (p : A -> bool) (l : list A) (x : A) :
  p x = true -> existsb p (l ++ [x]) = true.
Proof. intros Hx. rewrite existsb_app. simpl. rewrite Hx. apply orb_true_iff. right. reflexivity. Qed.

(** In the state [StateAddingDebtorName] the name is looked up before any
    insert: an existing debtor becomes the focus and the dialog moves on to
    the reason. *)
Lemma existing_name_is_focused (w : World) (chatID : Z) (name : string)
      (debtor : Debtor) :
  userState w chatID = StateAddingDebtorName ->
  getDebtorByName (DB w) name chatID = Ok debtor ->
  let w' := handleMessage' chatID name w in
  DB w' = DB w /\
  currentDebtors w' !! chatID = Some debtor /\
  userState w' chatID = StateAddingDebtReason.
Proof.
  intros Hstate Hget w'. subst w'. unfold handleMessage. rewrite Hstate, Hget.
  unfold askDebtReason. split; [reflexivity|]. split.
  - simpl. apply lookup_insert_eq.
  - unfold sendSimpleMessage, emit, userState. simpl. now rewrite lookup_insert_eq.
Qed.

(** C7. Once a debtor of a given name has been created for a chat, creating
    another of the same name for that chat fails with the error "debtor
    already exists", and the database, the first debtor included, is as it
    was. The state [StateAddingDebtorName] answers that error with a request
    for another name and changes neither the conversation state nor the
    focus. *)
Theorem duplicate_debtor_rejected (db db1 : sqlDB) (chatID : Z) (name : string)
        (first : Debtor) :
  addDebtor db (mkDebtor 0 name chatID None None) = (db1, Ok first) ->
  getDebtorByName db1 name chatID = Ok first /\
  addDebtor db1 (mkDebtor 0 name chatID None None)
  = (db1, Err (Errorf "debtor already exists")) /\
  (forall (w : World) (text : string),
     let w' := addedDebtor chatID text
                 (snd (addDebtor db1 (mkDebtor 0 name chatID None None))) w in
     w' = sendSimpleMessage chatID (duplicateName text) w /\
     DB w' = DB w /\
     userStates w' = userStates w /\
     currentDebtors w' = currentDebtors w /\
     selectedDebts w' = selectedDebts w).
Proof.
  intros H.
  set (row := mkDebtor (debtors_seq db + 1) name chatID None None).
  set (p := fun r => String.eqb (Name r) name && (ChatID r =? chatID)).
  assert (Hadd : existsb p (debtors db) = false /\
                 db1 = mkDB (foreign_keys db) (debtors db ++ [row]) (debts db)
                            (debtors_seq db + 1) (debts_seq db) /\
                 first = row).
  { unfold addDebtor, insert_debtor in H. simpl in H. fold p in H.
    destruct (existsb p (debtors db)); [discriminate|].
    simpl in H. injection H as <- <-. repeat split; reflexivity. }
  destruct Hadd as (Hex & -> & ->).
  assert (Hrow : p row = true).
  { unfold p. simpl. now rewrite String.eqb_refl, Z.eqb_refl. }
  assert (Hdup : addDebtor
                   (mkDB (foreign_keys db) (debtors db ++ [row]) (debts db)
                         (debtors_seq db + 1) (debts_seq db))
                   (mkDebtor 0 name chatID None None)
                 = (mkDB (foreign_keys db) (debtors db ++ [row]) (debts db)
                         (debtors_seq db + 1) (debts_seq db),
                    Err (Errorf "debtor already exists"))).
  { unfold addDebtor, insert_debtor. simpl. fold p.
    rewrite (existsb_app_new p (debtors db) row Hrow). reflexivity. }
  split.
  { unfold getDebtorByName. simpl. fold p.
    rewrite (find_app_new p (debtors db) row Hex Hrow). reflexivity. }
  split; [exact Hdup|].
  intros w text. rewrite Hdup. repeat split; reflexivity.
Qed.

(** *** C5: the ids of button payloads *)

(** C5, amended. Let the payload of a button hold a well-formed id. The
    select-debtor button looks the debtor up when pressed; if it is gone the
    user is told so and the chat's state and focus are cleared. The
    close-debt, edit-debt and subtract-from-debt buttons look the debt up
    when pressed and focus the stored row; if it is gone the press is
    logged and nothing else happens: no message, and state, focus and
    database as before. The edit-amount and edit-reason buttons focus the id
    of the payload without a lookup, and confirm-close deletes by it without
    a lookup. *)
Theorem button_ids_at_press (w : World) (chatID messageID : Z)
        (payload : string) (id : Z) :
  Atoi payload = (id, None) ->
  let press prefix := handleCallbackQuery chatID messageID (prefix ++ payload) w in
  (getDebtorByID (DB w) id = Err ErrNoRows ->
   press "select_debtor:"
   = clearUserState chatID
       (sendSimpleMessage chatID (Sprintf "Должник не найден." []) w)) /\
  (forall debt,
     getDebtByID (DB w) id = Ok debt ->
     selectedDebt (press "close_debt:") chatID = debt /\
     selectedDebt (press "edit_debt:") chatID = debt /\
     selectedDebt (press "subtract_from_debt:") chatID = debt) /\
  (getDebtByID (DB w) id = Err ErrNoRows ->
   press "close_debt:" = logPrintf "Error getting debt for closing: %v" ErrNoRows w /\
   press "edit_debt:" = logPrintf "Error getting debt for editing: %v" ErrNoRows w /\
   press "subtract_from_debt:"
   = logPrintf "Error getting debt for subtraction: %v" ErrNoRows w) /\
  press "edit_amount:"
  = editMessageWithKeyboard chatID messageID (Sprintf "Введи новую сумму:" [])
      (set_userState chatID StateEditingAmount
         (set_selectedDebt chatID (mkDebt id 0 0%float "") w)) /\
  press "edit_reason:"
  = editMessageWithKeyboard chatID messageID (Sprintf "Введи новую причину:" [])
      (set_userState chatID StateEditingReason
         (set_selectedDebt chatID (mkDebt id 0 0%float "") w)) /\
  DB (press "confirm_close:") = fst (closeDebt (DB w) id).
Proof.
  intros Hatoi press. subst press. cbv beta.
  split.
  { intros Hget. unfold handleCallbackQuery.
    change (HasPrefix ("select_debtor:" ++ payload) "select_debtor:") with true.
    change (TrimPrefix ("select_debtor:" ++ payload) "select_debtor:") with payload.
    cbv iota. rewrite Hatoi, Hget. reflexivity. }
  split.
  { intros debt Hget. repeat split.
    - unfold handleCallbackQuery, withDebt.
      change (HasPrefix ("close_debt:" ++ payload) "select_debtor:") with false.
      change (HasPrefix ("close_debt:" ++ payload) "close_debt:") with true.
      change (TrimPrefix ("close_debt:" ++ payload) "close_debt:") with payload.
      cbv iota. rewrite Hatoi, Hget. apply selectedDebt_set.
    - unfold handleCallbackQuery, withDebt.
      change (HasPrefix ("edit_debt:" ++ payload) "select_debtor:") with false.
      change (HasPrefix ("edit_debt:" ++ payload) "close_debt:") with false.
      change (HasPrefix ("edit_debt:" ++ payload) "confirm_close:") with false.
      change (String.eqb ("edit_debt:" ++ payload) "cancel_operation") with false.
      change (HasPrefix ("edit_debt:" ++ payload) "edit_debt:") with true.
      change (TrimPrefix ("edit_debt:" ++ payload) "edit_debt:") with payload.
      cbv iota. rewrite Hatoi, Hget. apply selectedDebt_set.
    - unfold handleCallbackQuery, withDebt.
      change (HasPrefix ("subtract_from_debt:" ++ payload) "select_debtor:") with false.
      change (HasPrefix ("subtract_from_debt:" ++ payload) "close_debt:") with false.
      change (HasPrefix ("subtract_from_debt:" ++ payload) "confirm_close:") with false.
      change (String.eqb ("subtract_from_debt:" ++ payload) "cancel_operation") with false.
      change (HasPrefix ("subtract_from_debt:" ++ payload) "edit_debt:") with false.
      change (HasPrefix ("subtract_from_debt:" ++ payload) "edit_amount:") with false.
      change (HasPrefix ("subtract_from_debt:" ++ payload) "edit_reason:") with false.
      change (HasPrefix ("subtract_from_debt:" ++ payload) "subtract_from_debt:") with true.
      change (TrimPrefix ("subtract_from_debt:" ++ payload) "subtract_from_debt:") with payload.
      cbv iota. rewrite Hatoi, Hget. apply selectedDebt_set. }
  split.
  { intros Hget. repeat split.
    - unfold handleCallbackQuery, withDebt.
      change (HasPrefix ("close_debt:" ++ payload) "select_debtor:") with false.
      change (HasPrefix ("close_debt:" ++ payload) "close_debt:") with true.
      change (TrimPrefix ("close_debt:" ++ payload) "close_debt:") with payload.
      cbv iota. rewrite Hatoi, Hget. reflexivity.
    - unfold handleCallbackQuery, withDebt.
      change (HasPrefix ("edit_debt:" ++ payload) "select_debtor:") with false.
      change (HasPrefix ("edit_debt:" ++ payload) "close_debt:") with false.
      change (HasPrefix ("edit_debt:" ++ payload) "confirm_close:") with false.
      change (String.eqb ("edit_debt:" ++ payload) "cancel_operation") with false.
      change (HasPrefix ("edit_debt:" ++ payload) "edit_debt:") with true.
      change (TrimPrefix ("edit_debt:" ++ payload) "edit_debt:") with payload.
      cbv iota. rewrite Hatoi, Hget. reflexivity.
    - unfold handleCallbackQuery, withDebt.
      change (HasPrefix ("subtract_from_debt:" ++ payload) "select_debtor:") with false.
      change (HasPrefix ("subtract_from_debt:" ++ payload) "close_debt:") with false.
      change (HasPrefix ("subtract_from_debt:" ++ payload) "confirm_close:") with false.
      change (String.eqb ("subtract_from_debt:" ++ payload) "cancel_operation") with false.
      change (HasPrefix ("subtract_from_debt:" ++ payload) "edit_debt:") with false.
      change (HasPrefix ("subtract_from_debt:" ++ payload) "edit_amount:") with false.
      change (HasPrefix ("subtract_from_debt:" ++ payload) "edit_reason:") with false.
      change (HasPrefix ("subtract_from_debt:" ++ payload) "subtract_from_debt:") with true.
      change (TrimPrefix ("subtract_from_debt:" ++ payload) "subtract_from_debt:") with payload.
      cbv iota. rewrite Hatoi, Hget. reflexivity. }
  split.
  { change (handleCallbackQuery chatID messageID ("edit_amount:" ++ payload) w)
      with (editMessageWithKeyboard chatID messageID (Sprintf "Введи новую сумму:" [])
              (set_userState chatID StateEditingAmount
                 (set_selectedDebt chatID (mkDebt (fst (Atoi payload)) 0 0%float "") w))).
    now rewrite Hatoi. }
  split.
  { change (handleCallbackQuery chatID messageID ("edit_reason:" ++ payload) w)
      with (editMessageWithKeyboard chatID messageID (Sprintf "Введи новую причину:" [])
              (set_userState chatID StateEditingReason
                 (set_selectedDebt chatID (mkDebt (fst (Atoi payload)) 0 0%float "") w))).
    now rewrite Hatoi. }
  rewrite confirm_close_unfold. cbv zeta.
  change (DB (clearUserState ?c ?v)) with (DB v).
  rewrite showDebtorDetails_DB. simpl. now rewrite Hatoi.
Qed.

End HandlerProperties.

(** ** The handlers change the database through its functions only *)

Section StoreInvariant.

Variable ParseFloat : string -> option float.
Variable time_Parse : string -> string -> option Time.

(** A property of the database kept by each function that writes to it. *)
Variable P : sqlDB -> Prop.
Hypothesis P_addDebtor : forall db d, P db -> P (fst (addDebtor db d)).
Hypothesis P_addDebt : forall db d, P db -> P (fst (addDebt db d)).
Hypothesis P_updateDebtAmount :
  forall db id a, P db -> P (fst (updateDebtAmount db id a)).
Hypothesis P_updateDebtReason :
  forall db id r, P db -> P (fst (updateDebtReason db id r)).
Hypothesis P_closeDebt : forall db id, P db -> P (fst (closeDebt db id)).
Hypothesis P_deleteDebtor : forall db id, P db -> P (fst (deleteDebtor db id)).
Hypothesis P_updateDebtorPaymentDate :
  forall db id t, P db -> P (fst (updateDebtorPaymentDate db id t)).
Hypothesis P_updateDebtorPaymentAmount :
  forall db id a, P db -> P (fst (updateDebtorPaymentAmount db id a)).
Hypothesis P_clearDebtorPaymentDate :
  forall db id, P db -> P (fst (clearDebtorPaymentDate db id)).
Hypothesis P_clearDebtorPaymentAmount :
  forall db id, P db -> P (fst (clearDebtorPaymentAmount db id)).

Ltac use_write H :=
  match goal with
  | E : ?op = (?d, _) |- P ?d =>
      change d with (fst (d, @None error)) || idtac;
      let H' := fresh in
      pose proof (f_equal fst E) as H'; simpl in H'; rewrite <- H'; apply H; assumption
  end.

Ltac writes :=
  first [ assumption
        | use_write P_addDebtor | use_write P_addDebt
        | use_write P_updateDebtAmount | use_write P_updateDebtReason
        | use_write P_closeDebt | use_write P_deleteDebtor
        | use_write P_updateDebtorPaymentDate
        | use_write P_updateDebtorPaymentAmount
        | use_write P_clearDebtorPaymentDate
        | use_write P_clearDebtorPaymentAmount
        | apply P_closeDebt; writes ].

Ltac open_matches :=
  repeat first
    [ rewrite showDebtorDetails_DB
    | progress change (DB (clearUserState ?c ?v)) with (DB v)
    | progress change (DB (sendSimpleMessage ?c ?t ?v)) with (DB v)
    | progress change (DB (sendWithKeyboard ?c ?t ?v)) with (DB v)
    | progress change (DB (editMessageWithKeyboard ?c ?m ?t ?v)) with (DB v)
    | progress change (DB (logPrintf ?f ?e ?v)) with (DB v)
    | progress change (DB (emit ?o ?v)) with (DB v)
    | progress change (DB (set_userState ?c ?s ?v)) with (DB v)
    | progress change (DB (set_currentDebtor ?c ?d ?v)) with (DB v)
    | progress change (DB (set_selectedDebt ?c ?d ?v)) with (DB v)
    | progress change (DB (set_DB ?d ?v)) with d
    | match goal with
      | |- context [match ?x with _ => _ end] => destruct x eqn:?
      end ].

Lemma handleMessage_keeps (w : World) (chatID : Z) (text : string) :
  P (DB w) -> P (DB (handleMessage ParseFloat time_Parse chatID text w)).
Proof.
  intros H. unfold handleMessage, addedDebtor, askDebtReason.
  open_matches; writes.
Qed.

Lemma handleCallbackQuery_keeps (w : World) (chatID messageID : Z) (data : string) :
  P (DB w) -> P (DB (handleCallbackQuery chatID messageID data w)).
Proof.
  intros H. unfold handleCallbackQuery, withDebt.
  open_matches; writes.
Qed.

Lemma step_keeps (w : World) (update : Update) :
  P (DB w) -> P (DB (step ParseFloat time_Parse w update)).
Proof.
  intros H. destruct update as [chatID command | chatID text | chatID messageID data].
  - unfold step, handleStartCommand, handleAddCommand, handleDebtsCommand,
      handleHelpCommand, handleExportCSVCommand.
    open_matches; assumption.
  - now apply handleMessage_keeps.
  - now apply handleCallbackQuery_keeps.
Qed.

Lemma run_keeps (updates : list Update) (w : World) :
  P (DB w) -> P (DB (run ParseFloat time_Parse w updates)).
Proof.
  revert w. induction updates as [|u updates IH]; intros w H; [exact H|].
  apply IH. now apply step_keeps.
Qed.

End StoreInvariant.

(** ** With the pragma on, every debt keeps a stored debtor *)

Lemma has_debtor_app (db : sqlDB) (rows : list Debtor) (id : Z) :
  has_debtor db id = true ->
  existsb (fun r => ID r =? id) (debtors db ++ rows) = true.
Proof. unfold has_debtor. intros H. now rewrite existsb_app, H. Qed.

Lemma existsb_update_key (k id : Z) (f : Debtor -> Debtor) (l : list Debtor) :
  (forall r, ID (f r) = ID r) ->
  existsb (fun r => ID r =? id) (map (fun r => if ID r =? k then f r else r) l)
  = existsb (fun r => ID r =? id) l.
Proof.
  intros Hf. induction l as [|r l IH]; simpl; [reflexivity|].
  rewrite IH. destruct (ID r =? k); [now rewrite Hf | reflexivity].
Qed.

Lemma forallb_weaken {A} (p q : A -> bool) (l : list A) :
  (forall x, p x = true -> q x = true) -> forallb p l = true -> forallb q l = true.
Proof.
  intros H. induction l as [|x l IH]; simpl; [reflexivity|].
  intros [Hx Hl]%andb_true_iff. now rewrite (H _ Hx), (IH Hl).
Qed.

Lemma forallb_map_same {A} (p : A -> bool) (f : A -> A) (l : list A) :
  (forall x, p (f x) = p x) -> forallb p (map f l) = forallb p l.
Proof.
  intros H. induction l as [|x l IH]; simpl; [reflexivity|]. now rewrite H, IH.
Qed.

Lemma forallb_filter {A} (p q : A -> bool) (l : list A) :
  forallb p l = true -> forallb p (List.filter q l) = true.
Proof.
  induction l as [|x l IH]; simpl; [reflexivity|].
  intros [Hx Hl]%andb_true_iff. destruct (q x); simpl; [rewrite Hx|]; auto.
Qed.

Lemma enforced_addDebtor (db : sqlDB) (d : Debtor) :
  enforced db -> enforced (fst (addDebtor db d)).
Proof.
  intros [Hfk Hlive]. unfold addDebtor, insert_debtor.
  destruct (existsb _ (debtors db)); simpl; [split; assumption|].
  split; [exact Hfk|]. unfold live_refs, has_debtor in *. simpl.
  revert Hlive. apply forallb_weaken. intros r Hr.
  rewrite existsb_app, Hr. reflexivity.
Qed.

Lemma enforced_addDebt (db : sqlDB) (d : Debt) :
  enforced db -> enforced (fst (addDebt db d)).
Proof.
  intros [Hfk Hlive]. unfold addDebt, insert_debt.
  destruct (real_is_null (Amount d)); [split; assumption|].
  rewrite Hfk. simpl.
  destruct (has_debtor db (DebtorID d)) eqn:Hd; simpl; [|split; assumption].
  split; [reflexivity|]. unfold live_refs in *. simpl.
  rewrite forallb_app. simpl. unfold has_debtor in *. simpl.
  now rewrite Hlive, Hd.
Qed.

Lemma enforced_update_debts (db : sqlDB) (id : Z) (f : Debt -> Debt) :
  (forall r, DebtorID (f r) = DebtorID r) ->
  enforced db -> enforced (update_debts db id f).
Proof.
  intros Hf [Hfk Hlive]. split; [exact Hfk|].
  unfold live_refs, has_debtor, update_debts in *. simpl.
  rewrite forallb_map_same; [exact Hlive|].
  intros r. destruct (Debt_ID r =? id); [now rewrite Hf | reflexivity].
Qed.

Lemma enforced_update_debtors (db : sqlDB) (id : Z) (f : Debtor -> Debtor) :
  (forall r, ID (f r) = ID r) ->
  enforced db -> enforced (update_debtors db id f).
Proof.
  intros Hf [Hfk Hlive]. split; [exact Hfk|].
  unfold live_refs, has_debtor, update_debtors in *. simpl.
  revert Hlive. apply forallb_weaken. intros r Hr.
  now rewrite existsb_update_key.
Qed.

Lemma enforced_closeDebt (db : sqlDB) (id : Z) :
  enforced db -> enforced (fst (closeDebt db id)).
Proof.
  intros [Hfk Hlive]. split; [exact Hfk|].
  unfold live_refs, has_debtor in *. simpl. now apply forallb_filter.
Qed.

Lemma existsb_filter_other (id k : Z) (l : list Debtor) :
  k <> id ->
  existsb (fun r => ID r =? k) (List.filter (fun r => negb (ID r =? id)) l)
  = existsb (fun r => ID r =? k) l.
Proof.
  intros Hk. induction l as [|r l IH]; simpl; [reflexivity|].
  destruct (ID r =? id) eqn:E; simpl.
  - apply Z.eqb_eq in E. rewrite IH.
    destruct (ID r =? k) eqn:E'; [apply Z.eqb_eq in E'; congruence | reflexivity].
  - now rewrite IH.
Qed.

Lemma filter_absent (id : Z) (l : list Debtor) :
  existsb (fun r => ID r =? id) l = false ->
  List.filter (fun r => negb (ID r =? id)) l = l.
Proof.
  induction l as [|r l IH]; simpl; [reflexivity|].
  intros [Hr Hl]%orb_false_iff. rewrite Hr. simpl. now rewrite (IH Hl).
Qed.

(** The cascade: the debts of the deleted debtor go with it. *)
Lemma enforced_deleteDebtor (db : sqlDB) (id : Z) :
  enforced db -> enforced (fst (deleteDebtor db id)).
Proof.
  intros [Hfk Hlive]. split; [exact Hfk|].
  unfold deleteDebtor, delete_debtor, live_refs, has_debtor in *. simpl.
  rewrite Hfk. simpl.
  destruct (existsb (fun r => ID r =? id) (debtors db)) eqn:Hd.
  - induction (debts db) as [|r l IH]; simpl; [reflexivity|].
    simpl in Hlive. apply andb_true_iff in Hlive as [Hr Hl].
    destruct (DebtorID r =? id) eqn:E; simpl; [now apply IH|].
    apply Z.eqb_neq in E. rewrite existsb_filter_other, Hr; [|exact E].
    now apply IH.
  - now rewrite (filter_absent _ _ Hd).
Qed.

(** Foreign keys enforced, no sequence of updates orphans a debt. *)
Lemma enforced_run (ParseFloat : string -> option float)
      (time_Parse : string -> string -> option Time)
      (updates : list Update) (w : World) :
  enforced (DB w) -> enforced (DB (run ParseFloat time_Parse w updates)).
Proof.
  apply run_keeps.
  - apply enforced_addDebtor.
  - apply enforced_addDebt.
  - intros db id a H. unfold updateDebtAmount.
    destruct (_ && _); [exact H|]. now apply enforced_update_debts.
  - intros db id r H. now apply enforced_update_debts.
  - apply enforced_closeDebt.
  - apply enforced_deleteDebtor.
  - intros db id t H. now apply enforced_update_debtors.
  - intros db id a H. now apply enforced_update_debtors.
  - intros db id H. now apply enforced_update_debtors.
  - intros db id H. now apply enforced_update_debtors.
Qed.

(** ** The scenarios of the spec, run on the stand-in parsers *)

Example add_alex_result :
  let w := run Sample.ParseFloat Sample.time_Parse (boot Sqlite.empty) add_alex in
  debtors (DB w) = [mkDebtor 1 "Alex" 7 None None] /\
  debts (DB w) = [mkDebt 1 1 25.5%float "lunch"] /\
  userState w 7 = StateIdle /\
  currentDebtor w 7 = mkDebtor 1 "Alex" 7 None None.
Proof. vm_compute. repeat split; reflexivity. Qed.

(** C2. The claim is that no sequence of updates leaves a debt whose debtor
    id identifies no debtor. Two sequences do, from an empty database: after
    Alex is added with a debt, the delete-debtor button and its confirmation
    remove Alex and leave the debt; and the add-debt-to-existing button
    pressed in a chat without a focused debtor, followed by a reason and an
    amount, stores a debt for debtor 0. *)
Theorem orphan_debts :
  let run' := run Sample.ParseFloat Sample.time_Parse in
  let w := run' (boot Sqlite.empty)
             (add_alex ++ [CallbackQuery 7 2 "delete_debtor";
                           CallbackQuery 7 2 "confirm_delete_debtor"])%list in
  let v := run' (boot Sqlite.empty)
             [CallbackQuery 7 1 "add_debt_to_existing"; Message 7 "lunch";
              Message 7 "5"] in
  live_refs (DB (boot Sqlite.empty)) = true /\
  (debtors (DB w) = [] /\ debts (DB w) = [mkDebt 1 1 25.5%float "lunch"] /\
   live_refs (DB w) = false) /\
  (debtors (DB v) = [] /\ debts (DB v) = [mkDebt 1 0 5%float "lunch"] /\
   live_refs (DB v) = false).
Proof. vm_compute. repeat split; reflexivity. Qed.

(** C5, as the claim states it, fails. Debt 1 is gone; the stale edit-amount
    button makes no lookup, asks for a new amount and leaves the chat in
    [StateEditingAmount], and the amount then entered is reported as stored;
    the stale close-debt button is logged and the user is told nothing. *)
Lemma stale_debt_buttons :
  let w := closed_debt_world in
  getDebtByID (DB w) 1 = Err ErrNoRows /\
  userState w 7 = StateIdle /\
  (let w' := handleCallbackQuery 7 2 "edit_amount:1" w in
   userState w' 7 <> StateIdle /\
   sent w' = (sent w ++ [Edit 7 2 (Sprintf "Введи новую сумму:" [])])%list /\
   exists more,
     sent (handleMessage Sample.ParseFloat Sample.time_Parse 7 "30" w')
     = (sent w' ++ Send 7 (Sprintf "Сумма долга успешно обновлена." []) :: more)%list) /\
  (let w' := handleCallbackQuery 7 2 "close_debt:1" w in
   sent w' = (sent w ++ [Log "Error getting debt for closing: %v" ErrNoRows])%list).
Proof.
  vm_compute. split; [reflexivity|]. split; [reflexivity|]. split.
  - split; [discriminate|]. split; [reflexivity|]. eexists. reflexivity.
  - reflexivity.
Qed.

(** ** The theorems at concrete inputs *)

Lemma subtract_within_debt_witness :
  let w := handleCallbackQuery 7 3 "subtract_from_debt:1" (boot alex_file) in
  let w' := handleMessage Sample.ParseFloat Sample.time_Parse 7 "40" w in
  userState w 7 = StateSubtractingFromDebt /\
  Sample.ParseFloat "40" = Some 40%float /\
  userState w' 7 = StateIdle /\
  getDebtByID (DB w') 1 = Ok (mkDebt 1 1 60%float "lunch").
Proof.
  intros w w'.
  assert (H1 : userState w 7 = StateSubtractingFromDebt) by (vm_compute; reflexivity).
  assert (H2 : Sample.ParseFloat "40" = Some 40%float) by (vm_compute; reflexivity).
  destruct (subtract_within_debt Sample.ParseFloat Sample.time_Parse w 7 "40"
              40%float (mkDebt 1 1 100%float "lunch") H1)
    as (Hidle & Hleft & _); try (vm_compute; reflexivity).
  split; [exact H1|]. split; [exact H2|]. split; [exact Hidle|].
  apply Hleft. vm_compute. reflexivity.
Defined.

(** The scenario of the spec: subtracting "100" from a debt of 100 closes it. *)
Example subtract_all :
  let w := handleCallbackQuery 7 3 "subtract_from_debt:1" (boot alex_file) in
  let w' := handleMessage Sample.ParseFloat Sample.time_Parse 7 "100" w in
  debts (DB w') = [] /\ userState w' 7 = StateIdle.
Proof. vm_compute. split; reflexivity. Qed.

Lemma subtract_more_than_debt_witness :
  let w := handleCallbackQuery 7 3 "subtract_from_debt:1" (boot alex_file) in
  let w' := handleMessage Sample.ParseFloat Sample.time_Parse 7 "150" w in
  userState w 7 = StateSubtractingFromDebt /\
  DB w' = DB w /\ userState w' 7 = StateSubtractingFromDebt.
Proof.
  intros w w'.
  assert (H1 : userState w 7 = StateSubtractingFromDebt) by (vm_compute; reflexivity).
  destruct (subtract_more_than_debt Sample.ParseFloat Sample.time_Parse w 7 "150"
              150%float H1) as (HDB & _ & Hstate & _); try (vm_compute; reflexivity).
  split; [exact H1|]. split; [exact HDB | exact Hstate].
Defined.

Lemma closeDebt_twice_witness :
  NoDup (map Debt_ID (debts alex_db)) /\
  getDebtByID alex_db 1 = Ok (mkDebt 1 1 100%float "lunch") /\
  closeDebt (fst (closeDebt alex_db 1)) 1 = (fst (closeDebt alex_db 1), None).
Proof.
  assert (H1 : NoDup (map Debt_ID (debts alex_db))).
  { simpl. apply NoDup_cons. split; [apply not_elem_of_nil | apply NoDup_nil_2]. }
  assert (H2 : getDebtByID alex_db 1 = Ok (mkDebt 1 1 100%float "lunch")) by reflexivity.
  split; [exact H1|]. split; [exact H2|].
  exact (proj1 (proj2 (proj2 (proj2 (proj2 (proj2
           (closeDebt_twice alex_db 1 _ H1 H2))))))).
Defined.

Lemma duplicate_debtor_rejected_witness :
  let db1 := fst (addDebtor Sqlite.empty (mkDebtor 0 "Alex" 7 None None)) in
  addDebtor Sqlite.empty (mkDebtor 0 "Alex" 7 None None)
  = (db1, Ok (mkDebtor 1 "Alex" 7 None None)) /\
  addDebtor db1 (mkDebtor 0 "Alex" 7 None None)
  = (db1, Err (Errorf "debtor already exists")).
Proof.
  intros db1.
  assert (H : addDebtor Sqlite.empty (mkDebtor 0 "Alex" 7 None None)
              = (db1, Ok (mkDebtor 1 "Alex" 7 None None))) by reflexivity.
  split; [exact H|].
  exact (proj1 (proj2 (duplicate_debtor_rejected Sqlite.empty db1 7 "Alex" _ H))).
Defined.


Lemma payment_date_parsing_witness :
  let w := handleCallbackQuery 7 3 "set_payment_date"
             (handleCallbackQuery 7 2 "select_debtor:1" (boot alex_file)) in
  let w' := handleMessage Sample.ParseFloat Sample.time_Parse 7 "31.12.24" w in
  date_state (userState w 7) = true /\
  parseDate Sample.time_Parse "31.12.24" = Some (mkTime 2024 12 31) /\
  debtors (DB w') = [mkDebtor 1 "Alex" 7 (Some (mkTime 2024 12 31)) None] /\
  userState w' 7 = StateIdle.
Proof.
  intros w w'.
  assert (H1 : date_state (userState w 7) = true) by (vm_compute; reflexivity).
  assert (H2 : parseDate Sample.time_Parse "31.12.24" = Some (mkTime 2024 12 31))
    by (vm_compute; reflexivity).
  pose proof (payment_date_parsing Sample.ParseFloat Sample.time_Parse w 7
                "31.12.24" H1) as (_ & _ & _ & _ & H).
  cbv zeta in H. rewrite H2 in H. destruct H as [HDB Hidle].
  split; [exact H1|]. split; [exact H2|]. split; [|exact Hidle].
  fold w' in HDB. rewrite HDB. vm_compute. reflexivity.
Defined.

Lemma select_debtor_keeps_focus_witness :
  let w1 := handleCallbackQuery 7 2 "select_debtor:1" (boot alex_file) in
  Atoi "1" = (1, None) /\
  getDebtorByID (DB (boot alex_file)) 1 = Ok (mkDebtor 1 "Alex" 7 None None) /\
  userState w1 7 = StateIdle /\
  currentDebtors w1 !! 7 = Some (mkDebtor 1 "Alex" 7 None None).
Proof.
  intros w1.
  assert (H1 : Atoi "1" = (1, None)) by reflexivity.
  assert (H2 : getDebtorByID (DB (boot alex_file)) 1
               = Ok (mkDebtor 1 "Alex" 7 None None)) by reflexivity.
  destruct (select_debtor_keeps_focus Sample.ParseFloat Sample.time_Parse
              (boot alex_file) 7 2 "1" 1 _ H1 H2) as (_ & Hidle & _ & Hfocus & _).
  split; [exact H1|]. split; [exact H2|]. split; [exact Hidle | exact Hfocus].
Defined.

Lemma button_ids_at_press_witness :
  let w := closed_debt_world in
  Atoi "1" = (1, None) /\
  getDebtByID (DB w) 1 = Err ErrNoRows /\
  handleCallbackQuery 7 2 "close_debt:1" w
  = logPrintf "Error getting debt for closing: %v" ErrNoRows w /\
  DB (handleCallbackQuery 7 2 "confirm_close:1" w) = fst (closeDebt (DB w) 1).
Proof.
  intros w.
  assert (H1 : Atoi "1" = (1, None)) by reflexivity.
  assert (H2 : getDebtByID (DB w) 1 = Err ErrNoRows) by (vm_compute; reflexivity).
  destruct (button_ids_at_press w 7 2 "1" 1 H1) as (_ & _ & Hgone & _ & _ & Hclose).
  split; [exact H1|]. split; [exact H2|].
  split; [exact (proj1 (Hgone H2)) | exact Hclose].
Defined.

(** * Further properties of main.go *)

(** ** Button payloads: an id written with [%d] is read back by [Atoi] *)

Lemma of_uint_acc_ge (d : Decimal.uint) (acc : positive) :
  (acc <= Pos.of_uint_acc d acc)%positive.
Proof.
  revert acc. induction d; intros acc; simpl Pos.of_uint_acc; try reflexivity;
    match goal with
    | |- (_ <= Pos.of_uint_acc _ ?a)%positive =>
        specialize (IHd a); assert (acc <= a)%positive by lia; lia
    end.
Qed.

(** One turn of the digit loop, while the value stays within 2^63. *)
Lemma parseUint_digit (c : ascii) (s : string) (n d : Z) :
  digit c = Some d -> 0 <= n -> 0 <= d <= 9 ->
  n * 10 + d <= 9223372036854775808 ->
  parseUint n (String c s) = parseUint (n * 10 + d) s.
Proof.
  intros Hc Hn Hd Hmax. simpl. rewrite Hc. unfold maxUint64.
  change ((2 ^ 64 - 1) / 10 + 1) with 1844674407370955162.
  change (2 ^ 64 - 1) with 18446744073709551615.
  destruct (n >=? 1844674407370955162) eqn:E1; [lia|].
  destruct (n * 10 + d >? 18446744073709551615) eqn:E2; [lia | reflexivity].
Qed.

Ltac digit_turn k IH :=
  rewrite (parseUint_digit _ _ _ k);
  [ match goal with
    | |- parseUint ?z _ = (Z.pos (Pos.of_uint_acc _ ?a), _) =>
        replace z with (Z.pos a) by lia; apply IH; assumption
    end
  | reflexivity | lia | lia
  | match goal with
    | H : Z.pos (Pos.of_uint_acc ?d ?a) <= _ |- _ =>
        pose proof (of_uint_acc_ge d a); lia
    end ].

(** The digit loop on the digits of a number of at most 2^63. *)
Lemma parseUint_acc (d : Decimal.uint) (acc : positive) :
  Z.pos (Pos.of_uint_acc d acc) <= 9223372036854775808 ->
  parseUint (Z.pos acc) (NilEmpty.string_of_uint d)
  = (Z.pos (Pos.of_uint_acc d acc), None).
Proof.
  revert acc.
  induction d; intros acc Hmax; simpl NilEmpty.string_of_uint;
    simpl Pos.of_uint_acc in *;
    [ reflexivity
    | digit_turn 0 IHd | digit_turn 1 IHd | digit_turn 2 IHd | digit_turn 3 IHd
    | digit_turn 4 IHd | digit_turn 5 IHd | digit_turn 6 IHd | digit_turn 7 IHd
    | digit_turn 8 IHd | digit_turn 9 IHd ].
Qed.

Ltac first_digit k :=
  rewrite (parseUint_digit _ _ _ k);
  [ match goal with
    | H : N.pos (Pos.of_uint_acc ?d ?a) = N.pos ?p |- _ =>
        injection H as H; change (0 * 10 + k) with (Z.pos a);
        rewrite parseUint_acc; [now rewrite H | rewrite H; assumption]
    end
  | reflexivity | lia | lia | lia ].

Lemma parseUint_to_uint (p : positive) :
  Z.pos p <= 9223372036854775808 ->
  parseUint 0 (NilEmpty.string_of_uint (Pos.to_uint p)) = (Z.pos p, None).
Proof.
  intros Hmax. pose proof (Unsigned.of_to p) as Hp.
  revert Hp. generalize (Pos.to_uint p). intros d.
  induction d; intros Hp; simpl in Hp; simpl NilEmpty.string_of_uint;
    [ discriminate
    | rewrite (parseUint_digit _ _ _ 0); [now apply IHd | reflexivity | lia | lia | lia]
    | first_digit 1 | first_digit 2 | first_digit 3 | first_digit 4
    | first_digit 5 | first_digit 6 | first_digit 7 | first_digit 8
    | first_digit 9 ].
Qed.

Lemma string_of_to_uint (p : positive) :
  exists c s, NilZero.string_of_uint (Pos.to_uint p) = String c s /\
              NilEmpty.string_of_uint (Pos.to_uint p) = String c s /\
              Ascii.eqb c "-"%char = false /\ Ascii.eqb c "+"%char = false.
Proof.
  pose proof (Unsigned.to_uint_nonnil p) as Hnil.
  destruct (Pos.to_uint p); [contradiction | ..]; simpl;
    eexists _, _; repeat split; reflexivity.
Qed.

(** An id of the range of [int], written with [%d], is read back by
    [strconv.Atoi] without error. *)
Lemma Atoi_Itoa (n : Z) :
  minInt64 <= n <= maxInt64 -> Atoi (Itoa n) = (n, None).
Proof.
  unfold minInt64, maxInt64.
  change (- 2 ^ 63) with (-9223372036854775808).
  change (2 ^ 63 - 1) with 9223372036854775807.
  intros Hn. destruct n as [|p|p]; [reflexivity| |].
  - unfold Itoa. simpl Z.to_int. simpl NilZero.string_of_int.
    destruct (string_of_to_uint p) as (c & s & H1 & H2 & Hm & Hp).
    pose proof (parseUint_to_uint p ltac:(lia)) as Hparse. rewrite H2 in Hparse.
    rewrite H1. unfold Atoi. rewrite Hm, Hp. simpl orb. cbv iota.
    rewrite Hparse. simpl negb. simpl andb.
    change (2 ^ 63) with 9223372036854775808.
    destruct (Z.pos p >=? 9223372036854775808) eqn:E; [lia | reflexivity].
  - unfold Itoa. simpl Z.to_int. simpl NilZero.string_of_int.
    destruct (string_of_to_uint p) as (c & s & H1 & H2 & Hm & Hp).
    pose proof (parseUint_to_uint p ltac:(lia)) as Hparse. rewrite H2 in Hparse.
    rewrite H1. unfold Atoi.
    change (Ascii.eqb "-" "-") with true. simpl orb. cbv iota.
    rewrite Hparse. simpl negb. simpl andb.
    change (2 ^ 63) with 9223372036854775808.
    destruct (Z.pos p >? 9223372036854775808) eqn:E; [lia | reflexivity].
Qed.

(** ** The schema's keys are kept by every update *)

Lemma map_update_key {A B} (k : A -> B) (p : A -> bool) (g : A -> A) (l : list A) :
  (forall r, k (g r) = k r) ->
  map k (map (fun r => if p r then g r else r) l) = map k l.
Proof.
  intros Hk. induction l as [|r l IH]; simpl; [reflexivity|].
  rewrite IH. destruct (p r); [now rewrite Hk | reflexivity].
Qed.

Lemma NoDup_map_filter {A B} (k : A -> B) (p : A -> bool) (l : list A) :
  NoDup (map k l) -> NoDup (map k (List.filter p l)).
Proof.
  induction l as [|r l IH]; simpl; [trivial|].
  intros [Hr Hl]%NoDup_cons. destruct (p r); simpl; [|auto].
  apply NoDup_cons. split; [|auto].
  intros Hin. apply Hr. apply list_elem_of_In in Hin. apply list_elem_of_In.
  apply in_map_iff in Hin as (x & Hx & Hin). apply in_map_iff.
  exists x. split; [exact Hx|]. apply filter_In in Hin. tauto.
Qed.

Lemma Forall_filter_keeps {A} (P : A -> Prop) (p : A -> bool) (l : list A) :
  Forall P l -> Forall P (List.filter p l).
Proof.
  induction 1 as [|r l Hr Hl IH]; simpl; [constructor|].
  destruct (p r); [constructor|]; assumption.
Qed.

Lemma Forall_update {A} (P : A -> Prop) (p : A -> bool) (g : A -> A) (l : list A) :
  (forall r, P r -> P (g r)) ->
  Forall P l -> Forall P (map (fun r => if p r then g r else r) l).
Proof.
  intros Hg. induction 1 as [|r l Hr Hl IH]; simpl; constructor; [|assumption].
  destruct (p r); auto.
Qed.

Lemma NoDup_map_snoc {A B} (k : A -> B) (l : list A) (x : A) :
  NoDup (map k l) -> k x ∉ map k l -> NoDup (map k (l ++ [x])).
Proof.
  intros Hl Hx. rewrite map_app. simpl. apply NoDup_app. split; [exact Hl|].
  split; [|apply NoDup_singleton].
  intros y Hy Hy'. apply list_elem_of_singleton in Hy'. subst y. contradiction.
Qed.

Lemma wf_addDebtor (db : sqlDB) (d : Debtor) : wf db -> wf (fst (addDebtor db d)).
Proof.
  intros (H1 & H2 & H3 & H4 & H5 & H6 & H7). unfold addDebtor, insert_debtor.
  destruct (existsb _ (debtors db)) eqn:Hex; simpl; [repeat split; assumption|].
  repeat split; simpl; try assumption; try lia.
  - apply NoDup_map_snoc; [exact H1|]. simpl. intros Hin.
    apply list_elem_of_In, in_map_iff in Hin as (r & Hr & Hin).
    rewrite Forall_forall in H4. apply list_elem_of_In in Hin. specialize (H4 r Hin). lia.
  - apply NoDup_map_snoc; [exact H3|]. simpl. intros Hin.
    apply list_elem_of_In, in_map_iff in Hin as (r & Hr & Hin).
    injection Hr as Hn Hc.
    assert (Hex' : existsb (fun r => String.eqb (Name r) (Name d) && (ChatID r =? ChatID d))
                           (debtors db) = true).
    { apply existsb_exists. exists r. split; [exact Hin|].
      rewrite Hn, Hc, String.eqb_refl, Z.eqb_refl. reflexivity. }
    congruence.
  - apply Forall_app. split.
    + eapply Forall_impl; [exact H4|]. simpl. intros r Hr. lia.
    + constructor; [simpl; lia | constructor].
Qed.

Lemma wf_addDebt (db : sqlDB) (d : Debt) : wf db -> wf (fst (addDebt db d)).
Proof.
  intros (H1 & H2 & H3 & H4 & H5 & H6 & H7). unfold addDebt, insert_debt.
  destruct (real_is_null (Amount d)); [repeat split; assumption|].
  destruct (foreign_keys db && negb (has_debtor db (DebtorID d)));
    [repeat split; assumption|].
  repeat split; simpl; try assumption; try lia.
  - apply NoDup_map_snoc; [exact H2|]. simpl. intros Hin.
    apply list_elem_of_In, in_map_iff in Hin as (r & Hr & Hin).
    rewrite Forall_forall in H5. apply list_elem_of_In in Hin. specialize (H5 r Hin). lia.
  - apply Forall_app. split.
    + eapply Forall_impl; [exact H5|]. simpl. intros r Hr. lia.
    + constructor; [simpl; lia | constructor].
Qed.

Lemma wf_update_debts (db : sqlDB) (id : Z) (g : Debt -> Debt) :
  (forall r, Debt_ID (g r) = Debt_ID r) -> wf db -> wf (update_debts db id g).
Proof.
  intros Hg (H1 & H2 & H3 & H4 & H5 & H6 & H7).
  repeat split; simpl; try assumption.
  - rewrite (map_update_key Debt_ID (fun r => Debt_ID r =? id)); assumption.
  - apply (Forall_update _ (fun r => Debt_ID r =? id)); [|exact H5].
    intros r Hr. now rewrite Hg.
Qed.

Lemma wf_update_debtors (db : sqlDB) (id : Z) (g : Debtor -> Debtor) :
  (forall r, ID (g r) = ID r /\ Name (g r) = Name r /\ ChatID (g r) = ChatID r) ->
  wf db -> wf (update_debtors db id g).
Proof.
  intros Hg (H1 & H2 & H3 & H4 & H5 & H6 & H7).
  repeat split; simpl; try assumption.
  - rewrite (map_update_key ID (fun r => ID r =? id)); [assumption|].
    intros r. apply Hg.
  - rewrite (map_update_key (fun r => (Name r, ChatID r)) (fun r => ID r =? id));
      [assumption|].
    intros r. destruct (Hg r) as (_ & -> & ->). reflexivity.
  - apply (Forall_update _ (fun r => ID r =? id)); [|exact H4].
    intros r Hr. destruct (Hg r) as (-> & _). exact Hr.
Qed.

Lemma wf_closeDebt (db : sqlDB) (id : Z) : wf db -> wf (fst (closeDebt db id)).
Proof.
  intros (H1 & H2 & H3 & H4 & H5 & H6 & H7).
  repeat split; simpl; try assumption.
  - now apply NoDup_map_filter.
  - now apply Forall_filter_keeps.
Qed.

Lemma wf_deleteDebtor (db : sqlDB) (id : Z) : wf db -> wf (fst (deleteDebtor db id)).
Proof.
  intros (H1 & H2 & H3 & H4 & H5 & H6 & H7).
  repeat split; simpl; try assumption.
  - now apply NoDup_map_filter.
  - destruct (_ && _); [now apply NoDup_map_filter | assumption].
  - now apply NoDup_map_filter.
  - now apply Forall_filter_keeps.
  - destruct (_ && _); [now apply Forall_filter_keeps | assumption].
Qed.

(** X2. From a database whose ids are unique, positive and bounded by the
    AUTOINCREMENT counters, and whose (name, chat) pairs are unique, every
    sequence of updates leads to such a database. *)
Theorem wf_run (ParseFloat : string -> option float)
        (time_Parse : string -> string -> option Time)
        (updates : list Update) (w : World) :
  wf (DB w) -> wf (DB (run ParseFloat time_Parse w updates)).
Proof.
  apply run_keeps.
  - apply wf_addDebtor.
  - apply wf_addDebt.
  - intros db id a H. unfold updateDebtAmount.
    destruct (_ && _); [exact H|]. now apply wf_update_debts.
  - intros db id r H. now apply wf_update_debts.
  - apply wf_closeDebt.
  - apply wf_deleteDebtor.
  - intros db id t H. apply wf_update_debtors; [|exact H]. intros r. now simpl.
  - intros db id a H. apply wf_update_debtors; [|exact H]. intros r. now simpl.
  - intros db id H. apply wf_update_debtors; [|exact H]. intros r. now simpl.
  - intros db id H. apply wf_update_debtors; [|exact H]. intros r. now simpl.
Qed.

Lemma wf_empty : wf Sqlite.empty.
Proof.
  repeat split; simpl; try apply NoDup_nil_2; try constructor; try lia.
Qed.

Lemma wf_initDB (file : sqlDB) : wf file -> wf (initDB file).
Proof. intros H. exact H. Qed.

(** ** An update touches the conversation of its own chat only *)

Section Isolation.

Variable ParseFloat : string -> option float.
Variable time_Parse : string -> string -> option Time.
Variables c chatID : Z.
Hypothesis other : chatID <> c.

Lemma same_refl (w : World) : same_chat c w w.
Proof. repeat split. Qed.

Lemma same_set_DB (w v : World) (d : sqlDB) :
  same_chat c w v -> same_chat c w (set_DB d v).
Proof. intros H. exact H. Qed.

Lemma same_emit (w v : World) (o : Out) :
  same_chat c w v -> same_chat c w (emit o v).
Proof. intros H. exact H. Qed.

Lemma same_set_userState (w v : World) (s : State) :
  same_chat c w v -> same_chat c w (set_userState chatID s v).
Proof.
  intros (H1 & H2 & H3). repeat split; simpl; [|assumption..].
  now rewrite lookup_insert_ne.
Qed.

Lemma same_set_currentDebtor (w v : World) (d : Debtor) :
  same_chat c w v -> same_chat c w (set_currentDebtor chatID d v).
Proof.
  intros (H1 & H2 & H3). repeat split; simpl; [assumption| |assumption].
  now rewrite lookup_insert_ne.
Qed.

Lemma same_set_selectedDebt (w v : World) (d : Debt) :
  same_chat c w v -> same_chat c w (set_selectedDebt chatID d v).
Proof.
  intros (H1 & H2 & H3). repeat split; simpl; [assumption..|].
  now rewrite lookup_insert_ne.
Qed.

Lemma same_clearUserState (w v : World) :
  same_chat c w v -> same_chat c w (clearUserState chatID v).
Proof.
  intros (H1 & H2 & H3). repeat split; simpl; now rewrite lookup_delete_ne.
Qed.

Lemma same_showDebtorDetails (w v : World) (debtorID : Z) :
  same_chat c w v -> same_chat c w (showDebtorDetails chatID debtorID v).
Proof.
  intros H. unfold showDebtorDetails.
  destruct (getDebtorByID (DB v) debtorID) as [debtor|err].
  - simpl. apply same_emit. now apply same_set_currentDebtor.
  - destruct (isErrNoRows err); repeat apply same_emit; exact H.
Qed.

Ltac same_chat_steps :=
  repeat first
    [ assumption
    | apply same_refl
    | apply same_clearUserState
    | apply same_showDebtorDetails
    | apply same_set_userState
    | apply same_set_currentDebtor
    | apply same_set_selectedDebt
    | apply same_set_DB
    | apply same_emit
    | match goal with
      | |- context [match ?x with _ => _ end] => destruct x eqn:?
      end ].

Lemma same_handleMessage (w : World) (text : string) :
  same_chat c w (handleMessage ParseFloat time_Parse chatID text w).
Proof.
  unfold handleMessage, addedDebtor, askDebtReason, sendSimpleMessage,
    sendWithKeyboard, editMessageWithKeyboard, logPrintf.
  cbv zeta. same_chat_steps.
Qed.

Lemma same_handleCallbackQuery (w : World) (messageID : Z) (data : string) :
  same_chat c w (handleCallbackQuery chatID messageID data w).
Proof.
  unfold handleCallbackQuery, withDebt, sendSimpleMessage,
    sendWithKeyboard, editMessageWithKeyboard, logPrintf.
  cbv zeta. same_chat_steps.
Qed.

Lemma same_command (w : World) (command : string) :
  same_chat c w (step ParseFloat time_Parse w (Command chatID command)).
Proof.
  unfold step, handleStartCommand, handleAddCommand, handleDebtsCommand,
    handleHelpCommand, handleExportCSVCommand, sendSimpleMessage,
    sendWithKeyboard, editMessageWithKeyboard, logPrintf.
  cbv zeta. same_chat_steps.
Qed.

End Isolation.

(** X3. An update of one chat leaves the conversation state, the focused
    debtor and the focused debt of every other chat as they were. *)
Theorem step_other_chat (ParseFloat : string -> option float)
        (time_Parse : string -> string -> option Time)
        (w : World) (update : Update) (c : Z) :
  chatOf update <> c ->
  userStates (step ParseFloat time_Parse w update) !! c = userStates w !! c /\
  currentDebtors (step ParseFloat time_Parse w update) !! c = currentDebtors w !! c /\
  selectedDebts (step ParseFloat time_Parse w update) !! c = selectedDebts w !! c.
Proof.
  intros Hc. destruct update as [chatID command | chatID text | chatID messageID data];
    simpl in Hc.
  - now apply same_command.
  - now apply same_handleMessage.
  - now apply same_handleCallbackQuery.
Qed.

(** ** Commands, stray text and the cancel button *)

Section Resets.

Variable ParseFloat : string -> option float.
Variable time_Parse : string -> string -> option Time.

Lemma cleared_maps (chatID : Z) (w : World) :
  userStates (clearUserState chatID w) !! chatID = None /\
  currentDebtors (clearUserState chatID w) !! chatID = None /\
  selectedDebts (clearUserState chatID w) !! chatID = None.
Proof. repeat split; simpl; apply lookup_delete_eq. Qed.

(** X4. Every command, known or not, leaves the database untouched and drops
    the chat's focused debtor and focused debt; afterwards the chat is idle,
    except after [/add], which awaits a debtor name. *)
Theorem command_resets (w : World) (chatID : Z) (command : string) :
  let w' := step ParseFloat time_Parse w (Command chatID command) in
  DB w' = DB w /\
  currentDebtors w' !! chatID = None /\
  selectedDebts w' !! chatID = None /\
  userState w' chatID
  = (if String.eqb command "add" then StateAddingDebtorName else StateIdle).
Proof.
  intros w'. subst w'. unfold step.
  destruct (cleared_maps chatID w) as (Hs & Hd & Hsel).
  destruct (String.eqb command "start") eqn:E1.
  { apply String.eqb_eq in E1. subst command. repeat split; try assumption.
    unfold userState. simpl. now rewrite lookup_delete_eq. }
  destruct (String.eqb command "add") eqn:E2.
  { repeat split; try assumption. unfold userState. simpl.
    now rewrite lookup_insert_eq. }
  destruct (String.eqb command "debts") eqn:E3.
  { unfold handleDebtsCommand.
    destruct (listDebtors _ _) as [[|d l]|err]; repeat split; try assumption;
      unfold userState; simpl; now rewrite lookup_delete_eq. }
  destruct (String.eqb command "help") eqn:E4.
  { repeat split; try assumption. unfold userState. simpl.
    now rewrite lookup_delete_eq. }
  destruct (String.eqb command "exportcsv") eqn:E5.
  { unfold handleExportCSVCommand.
    destruct (listDebtors _ _) as [[|d l]|err]; repeat split; try assumption;
      unfold userState; simpl; now rewrite lookup_delete_eq. }
  repeat split; try assumption. unfold userState. simpl.
  now rewrite lookup_delete_eq.
Qed.

(** X5. A text message in a state that expects none (idle, the edit choice,
    the two confirmations) is answered with the usage hint and ends the
    pending operation: state and focus are cleared, the database is not
    touched. *)
Theorem stray_text_resets (w : World) (chatID : Z) (text : string) :
  textless_state (userState w chatID) = true ->
  let w' := handleMessage ParseFloat time_Parse chatID text w in
  w' = clearUserState chatID
         (sendSimpleMessage chatID
            (Sprintf "Чтобы добавить долг, используй команду /add.  Чтобы посмотреть долги, используй /debts." [])
            w) /\
  DB w' = DB w /\
  userState w' chatID = StateIdle /\
  currentDebtors w' !! chatID = None /\
  selectedDebts w' !! chatID = None.
Proof.
  intros Hstate w'. subst w'. unfold handleMessage.
  destruct (userState w chatID); try discriminate;
    (split; [reflexivity|]); (split; [reflexivity|]);
    (split; [apply userState_clear|]); split; simpl; apply lookup_delete_eq.
Qed.

(** X6. The cancel button edits the message and clears the chat's state and
    focus, and that is all: the debtor view is looked for in the focus just
    cleared, so it is never shown again, and the database is not touched. *)
Theorem cancel_operation_clears (w : World) (chatID messageID : Z) :
  handleCallbackQuery chatID messageID "cancel_operation" w
  = clearUserState chatID
      (editMessageWithKeyboard chatID messageID (Sprintf "Операция отменена." []) w).
Proof.
  change (handleCallbackQuery chatID messageID "cancel_operation" w)
    with (let w1 := clearUserState chatID
                      (editMessageWithKeyboard chatID messageID
                         (Sprintf "Операция отменена." []) w) in
          match currentDebtors w1 !! chatID with
          | Some debtor => showDebtorDetails chatID (ID debtor) w1
          | None => w1
          end).
  cbv zeta.
  destruct (cleared_maps chatID
              (editMessageWithKeyboard chatID messageID
                 (Sprintf "Операция отменена." []) w)) as (_ & -> & _).
  reflexivity.
Qed.

End Resets.

(** ** Rows written and read back *)




Lemma find_update_miss {A} (p q : A -> bool) (g : A -> A) (l : list A) :
  (forall r, p r = true -> q r = false) ->
  (forall r, p r = true -> q (g r) = false) ->
  find q (map (fun r => if p r then g r else r) l) = find q l.
Proof.
  intros H1 H2. induction l as [|r l IH]; simpl; [reflexivity|].
  destruct (p r) eqn:E.
  - now rewrite (H1 _ E), (H2 _ E).
  - destruct (q r); [reflexivity | exact IH].
Qed.

Lemma update_absent {A} (p : A -> bool) (g : A -> A) (l : list A) :
  existsb p l = false -> map (fun r => if p r then g r else r) l = l.
Proof.
  induction l as [|r l IH]; simpl; [reflexivity|].
  intros [Hr Hl]%orb_false_iff. now rewrite Hr, (IH Hl).
Qed.



Section Flows.

Variable ParseFloat : string -> option float.
Variable time_Parse : string -> string -> option Time.

Local Abbreviation handleMessage' := (handleMessage ParseFloat time_Parse).
Local Abbreviation parseAmount' := (parseAmount ParseFloat).
Local Abbreviation run' := (run ParseFloat time_Parse).

(** X12. A new amount entered for a focused debt that is no longer stored is
    reported as saved: the UPDATE reaches no row, returns no error, and both
    tables stay as they were; the chat is idle afterwards. *)
Theorem edit_amount_of_missing_debt (w : World) (chatID : Z) (text : string)
        (amount : float) :
  userState w chatID = StateEditingAmount ->
  has_debt (DB w) (Debt_ID (selectedDebt w chatID)) = false ->
  parseAmount' text = Some amount ->
  let w' := handleMessage' chatID text w in
  debts (DB w') = debts (DB w) /\
  debtors (DB w') = debtors (DB w) /\
  userState w' chatID = StateIdle /\
  exists more,
    sent w' = (sent w ++ Send chatID (Sprintf "Сумма долга успешно обновлена." [])
                 :: more)%list.
Proof.
  intros Hstate Hmiss Hparse w'. subst w'.
  unfold handleMessage. rewrite Hstate, Hparse.
  unfold updateDebtAmount. rewrite Hmiss, andb_false_r.
  rewrite userState_clear.
  change (DB (clearUserState ?c ?v)) with (DB v).
  change (sent (clearUserState ?c ?v)) with (sent v).
  rewrite showDebtorDetails_DB.
  split.
  { simpl. apply update_absent. exact Hmiss. }
  split; [reflexivity|]. split; [reflexivity|].
  match goal with |- context [showDebtorDetails ?c ?i ?v] =>
    destruct (showDebtorDetails_sent c i v) as [more Hmore] end.
  exists more. rewrite Hmore. simpl. rewrite <- app_assoc. reflexivity.
Qed.


(** The name entered after [/add]: the debtor found or created is stored
    under that name and is the focus; no debt is touched. *)
Lemma name_step (w : World) (chatID : Z) (name : string) :
  userState w chatID = StateAddingDebtorName ->
  let w' := handleMessage' chatID name w in
  exists debtor,
    getDebtorByName (DB w') name chatID = Ok debtor /\
    currentDebtor w' chatID = debtor /\
    has_debtor (DB w') (ID debtor) = true /\
    debts (DB w') = debts (DB w) /\
    debts_seq (DB w') = debts_seq (DB w) /\
    userState w' chatID = StateAddingDebtReason /\
    (forall old, getDebtorByName (DB w) name chatID = Ok old ->
                 debtor = old /\ debtors (DB w') = debtors (DB w)).
Proof.
  intros Hstate w'. subst w'. unfold handleMessage. rewrite Hstate.
  set (p := fun r => String.eqb (Name r) name && (ChatID r =? chatID)).
  destruct (getDebtorByName (DB w) name chatID) as [debtor|err] eqn:Hget.
  - exists debtor.
    assert (Hfind : find p (debtors (DB w)) = Some debtor).
    { unfold getDebtorByName in Hget. fold p in Hget. destruct (find p _); congruence. }
    split; [exact Hget|]. split.
    { unfold askDebtReason, currentDebtor. simpl. now rewrite lookup_insert_eq. }
    split.
    { apply find_some_holds in Hfind as [_ Hin]. unfold has_debtor.
      apply existsb_exists. exists debtor. split; [exact Hin | apply Z.eqb_refl]. }
    split; [reflexivity|]. split; [reflexivity|]. split.
    { unfold askDebtReason, userState. simpl. now rewrite lookup_insert_eq. }
    intros old [= <-]. split; reflexivity.
  - assert (Hnone : existsb p (debtors (DB w)) = false).
    { rewrite existsb_find. unfold getDebtorByName in Hget. fold p in Hget.
      destruct (find p _); [discriminate | reflexivity]. }
    assert (Herr : isErrNoRows err = true).
    { unfold getDebtorByName in Hget. destruct (find _ _); [discriminate|].
      injection Hget as <-. reflexivity. }
    rewrite Herr. simpl negb. cbv iota.
    unfold addDebtor, insert_debtor. simpl Name. simpl ChatID. fold p.
    rewrite Hnone. cbv beta iota zeta. simpl PaymentDate. simpl PaymentAmount.
    set (row := mkDebtor (debtors_seq (DB w) + 1) name chatID None None).
    assert (Hrow : p row = true).
    { unfold p. simpl. now rewrite String.eqb_refl, Z.eqb_refl. }
    exists row. split.
    { unfold getDebtorByName. simpl. fold p.
      now rewrite (find_app_new p _ row Hnone Hrow). }
    split.
    { unfold addedDebtor, askDebtReason, currentDebtor. simpl.
      now rewrite lookup_insert_eq. }
    split.
    { unfold has_debtor. simpl. rewrite existsb_app. simpl.
      rewrite Z.eqb_refl. apply orb_true_iff. right. reflexivity. }
    split; [reflexivity|]. split; [reflexivity|]. split.
    { unfold addedDebtor, askDebtReason, userState. simpl.
      now rewrite lookup_insert_eq. }
    intros old Hold. discriminate.
Qed.

(** The state [StateAddingDebtReason]. *)
Lemma handleMessage_reason (w : World) (chatID : Z) (text : string) :
  userState w chatID = StateAddingDebtReason ->
  handleMessage' chatID text w
  = sendSimpleMessage chatID
      (Sprintf "Сколько *%s* должен за *%s*?"
               [ArgS (Name (currentDebtor w chatID)); ArgS text])
      (set_userState chatID StateAddingDebtAmount
         (set_selectedDebt chatID
            (mkDebt 0 (ID (currentDebtor w chatID)) 0%float text) w)).
Proof. intros H. unfold handleMessage. rewrite H. reflexivity. Qed.

(** The state [StateAddingDebtAmount], on a valid amount. *)
Lemma handleMessage_amount (w : World) (chatID : Z) (text : string) (amount : float) :
  userState w chatID = StateAddingDebtAmount ->
  parseAmount' text = Some amount ->
  let w' := handleMessage' chatID text w in
  DB w' = fst (addDebt (DB w)
                 (mkDebt 0 (ID (currentDebtor w chatID)) amount
                         (Reason (selectedDebt w chatID)))) /\
  userState w' chatID = StateIdle /\
  currentDebtors w' !! chatID = None.
Proof.
  intros H Hparse w'. subst w'. unfold handleMessage. rewrite H, Hparse.
  destruct (addDebt (DB w) _) as [d [err|]]; cbv beta iota; rewrite userState_clear;
    (split; [reflexivity|]); (split; [reflexivity|]); apply lookup_delete_eq.
Qed.

(** The reason and the amount entered next add a debt for the focus. *)
Lemma reason_amount_step (w : World) (chatID : Z) (reason text : string)
      (amount : float) :
  userState w chatID = StateAddingDebtReason ->
  parseAmount' text = Some amount ->
  let w' := handleMessage' chatID text (handleMessage' chatID reason w) in
  DB w' = fst (addDebt (DB w) (mkDebt 0 (ID (currentDebtor w chatID)) amount reason)) /\
  userState w' chatID = StateIdle /\
  currentDebtors w' !! chatID = None.
Proof.
  intros Hstate Hparse w'. subst w'. rewrite (handleMessage_reason w chatID reason Hstate).
  set (w2 := sendSimpleMessage _ _ _).
  assert (H2 : userState w2 chatID = StateAddingDebtAmount) by apply userState_set.
  assert (H3 : selectedDebt w2 chatID
               = mkDebt 0 (ID (currentDebtor w chatID)) 0%float reason)
    by apply selectedDebt_set.
  destruct (handleMessage_amount w2 chatID text amount H2 Hparse) as (HDB & Hidle & Hfocus).
  rewrite H3 in HDB. split; [exact HDB|]. split; assumption.
Qed.

(** X8. The dialog [/add], name, reason, amount. Whatever the chat was doing,
    and whether or not the debtor existed, afterwards a debtor of that name
    is stored for the chat, the table of debts has grown by exactly one row,
    for that debtor, with the amount and the reason entered, and the chat is
    idle with no focus. An existing debtor is reused: the table of debtors is
    unchanged. *)
Theorem add_dialog (w : World) (chatID : Z) (name reason text : string)
        (amount : float) :
  parseAmount' text = Some amount ->
  PrimFloat.is_nan amount = false ->
  let w' := run' w [Command chatID "add"; Message chatID name;
                    Message chatID reason; Message chatID text] in
  exists debtor,
    getDebtorByName (DB w') name chatID = Ok debtor /\
    debts (DB w')
    = (debts (DB w) ++ [mkDebt (debts_seq (DB w) + 1) (ID debtor) amount reason])%list /\
    (forall old, getDebtorByName (DB w) name chatID = Ok old ->
                 debtor = old /\ debtors (DB w') = debtors (DB w)) /\
    userState w' chatID = StateIdle /\
    currentDebtors w' !! chatID = None.
Proof.
  intros Hparse Hnan w'. subst w'. unfold run. simpl fold_left.
  change (step ParseFloat time_Parse w (Command chatID "add"))
    with (handleAddCommand chatID w).
  set (w0 := handleAddCommand chatID w).
  assert (H0 : userState w0 chatID = StateAddingDebtorName) by apply userState_set.
  destruct (name_step w0 chatID name H0)
    as (debtor & Hname & Hcur & Hhas & Hdebts & Hseq & Hstate & Hold).
  set (w1 := handleMessage' chatID name w0) in *.
  destruct (reason_amount_step w1 chatID reason text amount Hstate Hparse)
    as (HDB & Hidle & Hfocus).
  exists debtor. rewrite HDB, Hcur.
  unfold addDebt, insert_debt. simpl Amount. simpl DebtorID. simpl Reason.
  unfold real_is_null. rewrite Hnan, Hhas, andb_false_r. simpl fst.
  split; [exact Hname|]. split.
  { simpl. now rewrite Hdebts, Hseq. }
  split; [exact Hold|]. split; assumption.
Qed.

End Flows.

(** ** The buttons sent are the buttons understood *)

Lemma find_unique {A} (k : A -> Z) (l : list A) (r : A) :
  NoDup (map k l) -> In r l -> find (fun x => k x =? k r) l = Some r.
Proof.
  induction l as [|x l IH]; simpl; [contradiction|].
  intros [Hx Hl]%NoDup_cons [-> | Hin].
  - now rewrite Z.eqb_refl.
  - destruct (k x =? k r) eqn:E; [|now apply IH].
    apply Z.eqb_eq in E. exfalso. apply Hx. rewrite E.
    apply list_elem_of_In, in_map. exact Hin.
Qed.

(** The case [select_debtor:] on a debtor that is stored. *)
Lemma select_debtor_found (w : World) (chatID messageID : Z) (payload : string)
      (debtorID : Z) (debtor : Debtor) :
  Atoi payload = (debtorID, None) ->
  getDebtorByID (DB w) debtorID = Ok debtor ->
  handleCallbackQuery chatID messageID ("select_debtor:" ++ payload) w
  = showDebtorDetails chatID debtorID
      (clearUserState chatID (set_currentDebtor chatID debtor w)).
Proof.
  intros Hatoi Hget. unfold handleCallbackQuery.
  change (HasPrefix ("select_debtor:" ++ payload) "select_debtor:") with true.
  change (TrimPrefix ("select_debtor:" ++ payload) "select_debtor:") with payload.
  cbv iota. rewrite Hatoi, Hget. reflexivity.
Qed.

(** The case [edit_debt:] on a debt that is stored. *)
Lemma edit_debt_found (w : World) (chatID messageID : Z) (payload : string)
      (debtID : Z) (debt : Debt) :
  Atoi payload = (debtID, None) ->
  getDebtByID (DB w) debtID = Ok debt ->
  handleCallbackQuery chatID messageID ("edit_debt:" ++ payload) w
  = editMessageWithKeyboard chatID messageID (Sprintf "Что ты хочешь изменить?" [])
      (set_userState chatID StateEditingChooseWhatToEdit
         (set_selectedDebt chatID debt w)).
Proof.
  intros Hatoi Hget. unfold handleCallbackQuery, withDebt.
  change (HasPrefix ("edit_debt:" ++ payload) "select_debtor:") with false.
  change (HasPrefix ("edit_debt:" ++ payload) "close_debt:") with false.
  change (HasPrefix ("edit_debt:" ++ payload) "confirm_close:") with false.
  change (String.eqb ("edit_debt:" ++ payload) "cancel_operation") with false.
  change (HasPrefix ("edit_debt:" ++ payload) "edit_debt:") with true.
  change (TrimPrefix ("edit_debt:" ++ payload) "edit_debt:") with payload.
  cbv iota. rewrite Hatoi, Hget. reflexivity.
Qed.

(** The case [close_debt:] on a debt that is stored. *)
Lemma close_debt_found (w : World) (chatID messageID : Z) (payload : string)
      (debtID : Z) (debt : Debt) :
  Atoi payload = (debtID, None) ->
  getDebtByID (DB w) debtID = Ok debt ->
  handleCallbackQuery chatID messageID ("close_debt:" ++ payload) w
  = editMessageWithKeyboard chatID messageID
      (Sprintf "Вы уверены, что хотите закрыть долг *%.2f ₽* за *%s*?"
               [ArgF (Amount debt); ArgS (Reason debt)])
      (set_userState chatID StateConfirmingCloseDebt
         (set_selectedDebt chatID debt w)).
Proof.
  intros Hatoi Hget. unfold handleCallbackQuery, withDebt.
  change (HasPrefix ("close_debt:" ++ payload) "select_debtor:") with false.
  change (HasPrefix ("close_debt:" ++ payload) "close_debt:") with true.
  change (TrimPrefix ("close_debt:" ++ payload) "close_debt:") with payload.
  cbv iota. rewrite Hatoi, Hget. reflexivity.
Qed.

Lemma wf_debtor_id (db : sqlDB) (r : Debtor) :
  wf db -> debtors_seq db <= maxInt64 -> In r (debtors db) ->
  Atoi (Itoa (ID r)) = (ID r, None) /\ getDebtorByID db (ID r) = Ok r.
Proof.
  intros (H1 & _ & _ & H4 & _) Hmax Hin. split.
  - apply Atoi_Itoa. rewrite Forall_forall in H4.
    specialize (H4 r (proj2 (list_elem_of_In _ _) Hin)).
    unfold minInt64. change (- 2 ^ 63) with (-9223372036854775808). lia.
  - unfold getDebtorByID. now rewrite (find_unique ID _ r H1 Hin).
Qed.

Lemma wf_debt_id (db : sqlDB) (r : Debt) :
  wf db -> debts_seq db <= maxInt64 -> In r (debts db) ->
  Atoi (Itoa (Debt_ID r)) = (Debt_ID r, None) /\ getDebtByID db (Debt_ID r) = Ok r.
Proof.
  intros (_ & H2 & _ & _ & H5 & _) Hmax Hin. split.
  - apply Atoi_Itoa. rewrite Forall_forall in H5.
    specialize (H5 r (proj2 (list_elem_of_In _ _) Hin)).
    unfold minInt64. change (- 2 ^ 63) with (-9223372036854775808). lia.
  - unfold getDebtByID. now rewrite (find_unique Debt_ID _ r H2 Hin).
Qed.

(** X9. Every button of the keyboard that [/debts] sends carries the id of a
    debtor stored for this chat, and pressing it makes exactly that debtor the
    chat's focus, leaves the chat idle and does not touch the database. *)
Theorem debtors_keyboard_selects (w : World) (chatID messageID : Z)
        (debtors : list Debtor) (row : list Button) (button : Button) :
  wf (DB w) ->
  debtors_seq (DB w) <= maxInt64 ->
  listDebtors (DB w) chatID = Ok debtors ->
  In row (debtorsKeyboard (DB w) debtors) ->
  In button row ->
  exists debtor,
    In debtor (Sqlite.debtors (DB w)) /\
    ChatID debtor = chatID /\
    data button = selectDebtorData (ID debtor) /\
    let w' := handleCallbackQuery chatID messageID (data button) w in
    currentDebtors w' !! chatID = Some debtor /\
    userState w' chatID = StateIdle /\
    DB w' = DB w.
Proof.
  intros Hwf Hmax [= <-] Hrow Hbutton.
  unfold debtorsKeyboard in Hrow. apply in_map_iff in Hrow as (listed & <- & Hlisted).
  destruct Hbutton as [<- | []].
  apply in_map_iff in Hlisted as (r & <- & Hr).
  apply filter_In in Hr as [Hin Hchat]. apply Z.eqb_eq in Hchat.
  destruct (wf_debtor_id (DB w) r Hwf Hmax Hin) as [Hatoi Hget].
  exists r. split; [exact Hin|]. split; [exact Hchat|]. split; [reflexivity|].
  simpl data. simpl ID. unfold selectDebtorData.
  rewrite (select_debtor_found w chatID messageID _ _ r Hatoi Hget).
  split.
  { rewrite (showDebtorDetails_focus _ _ _ r); [apply lookup_insert_eq | exact Hget]. }
  split.
  { unfold userState. rewrite showDebtorDetails_userStates. simpl.
    now rewrite lookup_delete_eq. }
  now rewrite showDebtorDetails_DB.
Qed.

(** X10. For every debt listed in a debtor's view the keyboard has a row with
    an edit and a close button; each carries the id of a stored debt of that
    debtor with the listed amount and reason, and pressing it focuses the
    stored row and awaits the edit choice, respectively the confirmation. *)
Theorem details_keyboard_debts (w : World) (chatID messageID : Z)
        (debtor : Debtor) (debts : list Debt) (debt : Debt) :
  wf (DB w) ->
  debts_seq (DB w) <= maxInt64 ->
  listDebts (DB w) (ID debtor) = Ok debts ->
  In debt debts ->
  let stored := mkDebt (Debt_ID debt) (ID debtor) (Amount debt) (Reason debt) in
  let edit := handleCallbackQuery chatID messageID (editDebtData (Debt_ID debt)) w in
  let close := handleCallbackQuery chatID messageID (closeDebtData (Debt_ID debt)) w in
  (exists row, In row (detailsKeyboard debtor debts) /\
               map data row = [editDebtData (Debt_ID debt);
                               closeDebtData (Debt_ID debt)]) /\
  getDebtByID (DB w) (Debt_ID debt) = Ok stored /\
  selectedDebts edit !! chatID = Some stored /\
  userState edit chatID = StateEditingChooseWhatToEdit /\
  selectedDebts close !! chatID = Some stored /\
  userState close chatID = StateConfirmingCloseDebt /\
  DB edit = DB w /\ DB close = DB w.
Proof.
  intros Hwf Hmax [= <-] Hin stored edit close.
  apply in_map_iff in Hin as (r & <- & Hr).
  apply filter_In in Hr as [Hin Hdebtor]. apply Z.eqb_eq in Hdebtor.
  destruct (wf_debt_id (DB w) r Hwf Hmax Hin) as [Hatoi Hget].
  simpl in stored, edit, close.
  assert (Hstored : stored = r).
  { subst stored. rewrite <- Hdebtor. now destruct r. }
  split.
  { eexists. split.
    - unfold detailsKeyboard. apply in_or_app. left. apply in_map_iff.
      exists (mkDebt (Debt_ID r) 0 (Amount r) (Reason r)). split; [reflexivity|].
      apply in_map_iff. exists r. split; [reflexivity|].
      apply filter_In. split; [exact Hin | now apply Z.eqb_eq].
    - reflexivity. }
  rewrite Hstored. split; [exact Hget|].
  subst edit close. unfold editDebtData, closeDebtData.
  rewrite (edit_debt_found w chatID messageID _ _ r Hatoi Hget).
  rewrite (close_debt_found w chatID messageID _ _ r Hatoi Hget).
  repeat split; simpl; try apply lookup_insert_eq;
    unfold userState; simpl; now rewrite lookup_insert_eq.
Qed.

(** ** The edit and close dialogs, from button to stored row *)

Section Dialogs.

Variable ParseFloat : string -> option float.
Variable time_Parse : string -> string -> option Time.

Local Abbreviation handleMessage' := (handleMessage ParseFloat time_Parse).
Local Abbreviation parseAmount' := (parseAmount ParseFloat).
Local Abbreviation run' := (run ParseFloat time_Parse).

(** The state [StateEditingAmount], on a valid amount. *)
Lemma handleMessage_editingAmount (w : World) (chatID : Z) (text : string)
      (amount : float) :
  userState w chatID = StateEditingAmount ->
  parseAmount' text = Some amount ->
  DB (handleMessage' chatID text w)
  = fst (updateDebtAmount (DB w) (Debt_ID (selectedDebt w chatID)) amount) /\
  userState (handleMessage' chatID text w) chatID = StateIdle.
Proof.
  intros H Hparse. unfold handleMessage. rewrite H, Hparse.
  destruct (updateDebtAmount _ _ _) as [d [err|]]; cbv beta iota;
    rewrite userState_clear;
    change (DB (clearUserState ?c ?v)) with (DB v);
    rewrite ?showDebtorDetails_DB; split; reflexivity.
Qed.

(** The state [StateEditingReason]. *)
Lemma handleMessage_editingReason (w : World) (chatID : Z) (text : string) :
  userState w chatID = StateEditingReason ->
  DB (handleMessage' chatID text w)
  = fst (updateDebtReason (DB w) (Debt_ID (selectedDebt w chatID)) text) /\
  userState (handleMessage' chatID text w) chatID = StateIdle.
Proof.
  intros H. unfold handleMessage. rewrite H.
  unfold updateDebtReason. cbv beta iota.
  rewrite userState_clear.
  change (DB (clearUserState ?c ?v)) with (DB v).
  rewrite showDebtorDetails_DB. split; reflexivity.
Qed.




End Dialogs.

(** ** The CSV export *)

Lemma csvBody_rows (db : sqlDB) (debtors : list Debtor) :
  csvBody db debtors
  = Ok (concat (map (fun debtor =>
                       csvRows debtor
                         (map (fun r => mkDebt (Debt_ID r) 0 (Amount r) (Reason r))
                              (List.filter (fun r => DebtorID r =? ID debtor) (debts db))))
                    debtors)).
Proof.
  induction debtors as [|d l IH]; simpl; [reflexivity|]. now rewrite IH.
Qed.

Lemma csvRows_first (debtor : Debtor) (debts : list Debt) (row : list Cell) :
  In row (csvRows debtor debts) ->
  exists rest, row = CellS (Name debtor) :: rest /\ length rest = 5%nat.
Proof.
  unfold csvRows. destruct debts as [|d l].
  - intros [<- | []]. eexists. split; reflexivity.
  - intros Hin. apply in_map_iff in Hin as (x & <- & _). eexists. split; reflexivity.
Qed.

Lemma csvRows_nonempty (debtor : Debtor) (debts : list Debt) :
  exists row rows, csvRows debtor debts = row :: rows.
Proof. unfold csvRows. destruct debts; simpl; eauto. Qed.

Lemma filter_nil_iff (db : sqlDB) (chatID : Z) :
  List.filter (fun r => ChatID r =? chatID) (debtors db) = [] <->
  forall r, In r (debtors db) -> ChatID r <> chatID.
Proof.
  split.
  - intros Hnil r Hin Hc.
    assert (Hf : In r (List.filter (fun r => ChatID r =? chatID) (debtors db))).
    { apply filter_In. split; [exact Hin | now apply Z.eqb_eq]. }
    rewrite Hnil in Hf. contradiction.
  - intros Hnone. destruct (List.filter _ _) as [|x l] eqn:E; [reflexivity|].
    assert (Hx : In x (List.filter (fun r => ChatID r =? chatID) (debtors db))).
    { rewrite E. now left. }
    apply filter_In in Hx as [Hin Hc]. apply Z.eqb_eq in Hc.
    exfalso. exact (Hnone x Hin Hc).
Qed.

Lemma generateCSV_cases (db : sqlDB) (chatID : Z) :
  (List.filter (fun r => ChatID r =? chatID) (debtors db) = [] /\
   generateCSV db chatID = Err (Errorf ("no debtors found for chat " ++ Itoa chatID)))
  \/ (List.filter (fun r => ChatID r =? chatID) (debtors db) <> [] /\
      exists body,
        generateCSV db chatID = Ok (csvHeader :: body) /\
        csvBody db (match listDebtors db chatID with Ok l => l | Err _ => [] end)
        = Ok body).
Proof.
  unfold generateCSV, listDebtors.
  destruct (List.filter _ (debtors db)) as [|d l] eqn:E.
  - left. split; reflexivity.
  - right. split; [discriminate|]. simpl map. rewrite csvBody_rows.
    eexists. split; reflexivity.
Qed.

Lemma export_command_sends (w : World) (chatID : Z) :
  DB (handleExportCSVCommand chatID w) = DB w /\
  (sent (handleExportCSVCommand chatID w) = (sent w ++ [Document chatID])%list <->
   List.filter (fun r => ChatID r =? chatID) (debtors (DB w)) <> []).
Proof.
  unfold handleExportCSVCommand, listDebtors.
  change (DB (clearUserState chatID w)) with (DB w).
  destruct (List.filter _ (debtors (DB w))) as [|d l]; simpl.
  - split; [reflexivity|]. split; [|congruence].
    intros H. rewrite <- app_assoc in H. apply app_inv_head in H. discriminate.
  - split; [reflexivity|]. split; [discriminate | reflexivity].
Qed.

(** X15. [generateCSV] fails, with "no debtors found", exactly when the chat
    has no debtor. Otherwise it writes the header and then, for each debtor
    of the chat and of no other chat, one row per debt, or one row when the
    debtor has no debt: every row has six cells and starts with the name of a
    debtor of this chat, and every debtor of this chat has a row. The export
    command sends a document exactly when [generateCSV] succeeds, and never
    changes the database. *)
Theorem generateCSV_rows (w : World) (chatID : Z) :
  let db := DB w in
  (generateCSV db chatID = Err (Errorf ("no debtors found for chat " ++ Itoa chatID))
   <-> forall r, In r (debtors db) -> ChatID r <> chatID) /\
  (forall rows,
     generateCSV db chatID = Ok rows ->
     exists body,
       rows = csvHeader :: body /\
       (forall row, In row body ->
                    exists name rest,
                      row = CellS name :: rest /\ length rest = 5%nat /\
                      exists r, In r (debtors db) /\ ChatID r = chatID /\ Name r = name) /\
       (forall r, In r (debtors db) -> ChatID r = chatID ->
                  exists rest, In (CellS (Name r) :: rest) body)) /\
  DB (handleExportCSVCommand chatID w) = db /\
  ((exists rows, generateCSV db chatID = Ok rows) <->
   sent (handleExportCSVCommand chatID w) = (sent w ++ [Document chatID])%list).
Proof.
  intros db. subst db.
  destruct (export_command_sends w chatID) as [HDB Hsent].
  destruct (generateCSV_cases (DB w) chatID) as [[Hnil Herr] | [Hne (body & Hok & Hbody)]].
  - split; [split; [intros _; now apply filter_nil_iff | intros _; exact Herr]|].
    split; [intros rows H; congruence|]. split; [exact HDB|].
    split; [intros [rows H]; congruence|].
    intros H. apply Hsent in H. contradiction.
  - split.
    { split; [intros H; congruence|]. intros H. apply filter_nil_iff in H. contradiction. }
    split.
    { intros rows Hrows. rewrite Hok in Hrows. injection Hrows as <-.
      exists body. split; [reflexivity|].
      unfold listDebtors in Hbody. rewrite csvBody_rows in Hbody.
      injection Hbody as <-. split.
      - intros row Hin. apply in_concat in Hin as (rows & Hrows & Hrow).
        apply in_map_iff in Hrows as (listed & <- & Hlisted).
        apply csvRows_first in Hrow as (rest & -> & Hlen).
        apply in_map_iff in Hlisted as (r & <- & Hr).
        apply filter_In in Hr as [Hin Hc]. apply Z.eqb_eq in Hc.
        exists (Name r), rest. split; [reflexivity|]. split; [exact Hlen|].
        exists r. repeat split; assumption.
      - intros r Hin Hc.
        set (listed := mkDebtor (ID r) (Name r) 0 (PaymentDate r) (PaymentAmount r)).
        set (debts := map (fun x => mkDebt (Debt_ID x) 0 (Amount x) (Reason x))
                          (List.filter (fun x => DebtorID x =? ID listed) (debts (DB w)))).
        destruct (csvRows_nonempty listed debts) as (row & rows & Hrows).
        assert (Hrow : In row (csvRows listed debts)) by (rewrite Hrows; now left).
        destruct (csvRows_first listed debts row Hrow) as (rest & -> & _).
        exists rest. apply in_concat. exists (csvRows listed debts).
        split; [|exact Hrow].
        apply in_map_iff. exists listed. split; [reflexivity|].
        apply in_map_iff. exists r. split; [reflexivity|].
        apply filter_In. split; [exact Hin | now apply Z.eqb_eq]. }
    split; [exact HDB|].
    split; [intros _; now apply Hsent | intros _; eauto].
Qed.

(** ** No zero amount is ever stored *)

Lemma eqb_leb (x y : float) :
  PrimFloat.eqb x y = true -> PrimFloat.leb x y = true.
Proof.
  rewrite FloatAxioms.eqb_spec, FloatAxioms.leb_spec. unfold SFeqb, SFleb.
  destruct (SFcompare (Prim2SF x) (Prim2SF y)) as [[| |]|]; congruence.
Qed.

Lemma forallb_nonzero_snoc (l : list Debt) (r : Debt) :
  forallb nonzero l = true -> nonzero r = true ->
  forallb nonzero (l ++ [r]) = true.
Proof. intros Hl Hr. rewrite forallb_app. simpl. now rewrite Hl, Hr. Qed.

Section NonzeroAmounts.

Variable ParseFloat : string -> option float.
Variable time_Parse : string -> string -> option Time.

Local Abbreviation handleMessage' := (handleMessage ParseFloat time_Parse).
Local Abbreviation parseAmount' := (parseAmount ParseFloat).

Lemma parseAmount_nonzero (text : string) (amount : float) :
  parseAmount' text = Some amount -> PrimFloat.eqb amount 0 = false.
Proof.
  unfold parseAmount. destruct (ParseFloat text) as [a|]; [|discriminate].
  destruct (PrimFloat.leb a 0) eqn:E; [discriminate|]. intros [= <-].
  destruct (PrimFloat.eqb a 0) eqn:E'; [|reflexivity].
  apply eqb_leb in E'. congruence.
Qed.

Lemma no_zero_addDebt (db : sqlDB) (debt : Debt) :
  PrimFloat.eqb (Amount debt) 0 = false ->
  no_zero db -> no_zero (fst (addDebt db debt)).
Proof.
  intros Hnz H. unfold addDebt, insert_debt.
  destruct (real_is_null _); [exact H|]. destruct (_ && _); [exact H|].
  unfold no_zero. simpl. apply forallb_nonzero_snoc; [exact H|].
  unfold nonzero. simpl. now rewrite Hnz.
Qed.

Lemma no_zero_updateDebtAmount (db : sqlDB) (id : Z) (amount : float) :
  PrimFloat.eqb amount 0 = false ->
  no_zero db -> no_zero (fst (updateDebtAmount db id amount)).
Proof.
  intros Hnz H. unfold updateDebtAmount. destruct (_ && _); [exact H|].
  unfold no_zero. simpl. apply forallb_update; [|exact H].
  intros r. unfold nonzero. simpl. now rewrite Hnz.
Qed.

Lemma no_zero_subtracted (db : sqlDB) (debt : Debt) (newAmount : float) :
  no_zero db -> no_zero (subtracted db debt newAmount).
Proof.
  intros H. unfold subtracted, updateDebtAmount.
  destruct (_ && _); [exact H|].
  destruct (PrimFloat.eqb newAmount 0) eqn:E.
  - unfold no_zero. simpl. now apply forallb_update_delete.
  - unfold no_zero. simpl. apply forallb_update; [|exact H].
    intros r. unfold nonzero. simpl. now rewrite E.
Qed.

Lemma no_zero_updateDebtReason (db : sqlDB) (id : Z) (reason : string) :
  no_zero db -> no_zero (fst (updateDebtReason db id reason)).
Proof.
  intros H. unfold no_zero, updateDebtReason. simpl.
  rewrite forallb_map_same; [exact H|].
  intros r. destruct (Debt_ID r =? id); reflexivity.
Qed.

Lemma no_zero_closeDebt (db : sqlDB) (id : Z) :
  no_zero db -> no_zero (fst (closeDebt db id)).
Proof. intros H. unfold no_zero. simpl. now apply forallb_filter. Qed.

Lemma no_zero_deleteDebtor (db : sqlDB) (id : Z) :
  no_zero db -> no_zero (fst (deleteDebtor db id)).
Proof.
  intros H. unfold no_zero. simpl.
  destruct (_ && _); [now apply forallb_filter | exact H].
Qed.

Lemma no_zero_same_debts (db db' : sqlDB) :
  debts db' = debts db -> no_zero db -> no_zero db'.
Proof. unfold no_zero. now intros ->. Qed.

Lemma addDebtor_debts (db : sqlDB) (d : Debtor) :
  debts (fst (addDebtor db d)) = debts db.
Proof.
  unfold addDebtor, insert_debtor. destruct (existsb _ _); reflexivity.
Qed.

Lemma handleMessage_no_zero (w : World) (chatID : Z) (text : string) :
  no_zero (DB w) -> no_zero (DB (handleMessage' chatID text w)).
Proof.
  intros H. destruct (userState w chatID) eqn:Hstate.
  all: try (unfold handleMessage; rewrite Hstate; exact H).
  - (* StateAddingDebtorName *)
    unfold handleMessage. rewrite Hstate.
    destruct (getDebtorByName _ _ _) as [debtor|err]; [exact H|].
    destruct (negb (isErrNoRows err)); [exact H|].
    pose proof (addDebtor_debts (DB w) (mkDebtor 0 text chatID None None)) as Hd.
    destruct (addDebtor _ _) as [d res]. simpl in Hd.
    assert (Hq : no_zero d) by (now apply (no_zero_same_debts (DB w))).
    unfold addedDebtor. destruct res as [newDebtor|err'].
    + exact Hq.
    + destruct (Contains _ _); exact Hq.
  - (* StateAddingDebtAmount *)
    destruct (parseAmount' text) as [amount|] eqn:Hparse.
    + destruct (handleMessage_amount ParseFloat time_Parse w chatID text amount
                  Hstate Hparse) as [-> _].
      apply no_zero_addDebt; [|exact H]. simpl.
      now apply (parseAmount_nonzero text).
    + unfold handleMessage. rewrite Hstate, Hparse. exact H.
  - (* StateEditingAmount *)
    destruct (parseAmount' text) as [amount|] eqn:Hparse.
    + destruct (handleMessage_editingAmount ParseFloat time_Parse w chatID text
                  amount Hstate Hparse) as [-> _].
      apply no_zero_updateDebtAmount; [|exact H].
      now apply (parseAmount_nonzero text).
    + unfold handleMessage. rewrite Hstate, Hparse. exact H.
  - (* StateEditingReason *)
    destruct (handleMessage_editingReason ParseFloat time_Parse w chatID text Hstate)
      as [-> _].
    now apply no_zero_updateDebtReason.
  - (* StateSubtractingFromDebt *)
    destruct (parseAmount' text) as [amount|] eqn:Hparse.
    + destruct (PrimFloat.ltb (Amount (selectedDebt w chatID)) amount) eqn:Hgt.
      * unfold handleMessage. rewrite Hstate, Hparse, Hgt. exact H.
      * destruct (subtract_DB ParseFloat time_Parse w chatID text amount
                    Hstate Hparse Hgt) as [-> _].
        now apply no_zero_subtracted.
    + unfold handleMessage. rewrite Hstate, Hparse. exact H.
  - (* StateSettingPaymentDate *)
    unfold handleMessage. rewrite Hstate.
    destruct (parseDate time_Parse text); [|exact H].
    unfold updateDebtorPaymentDate. cbv beta iota zeta.
    change (DB (clearUserState ?c ?v)) with (DB v).
    rewrite showDebtorDetails_DB. exact H.
  - (* StateSettingPaymentAmount *)
    unfold handleMessage. rewrite Hstate.
    destruct (parseAmount' text); [|exact H].
    unfold updateDebtorPaymentAmount. cbv beta iota zeta.
    rewrite showDebtorDetails_DB. exact H.
  - (* StateEditingPaymentDate *)
    unfold handleMessage. rewrite Hstate.
    destruct (parseDate time_Parse text); [|exact H].
    unfold updateDebtorPaymentDate. cbv beta iota zeta.
    change (DB (clearUserState ?c ?v)) with (DB v).
    rewrite showDebtorDetails_DB. exact H.
  - (* StateEditingPaymentAmount *)
    unfold handleMessage. rewrite Hstate.
    destruct (parseAmount' text); [|exact H].
    unfold updateDebtorPaymentAmount. cbv beta iota zeta.
    rewrite showDebtorDetails_DB. exact H.
Qed.

End NonzeroAmounts.

Ltac expose_DB :=
  repeat first
    [ rewrite showDebtorDetails_DB
    | progress change (DB (clearUserState ?c ?v)) with (DB v)
    | progress change (DB (sendSimpleMessage ?c ?t ?v)) with (DB v)
    | progress change (DB (sendWithKeyboard ?c ?t ?v)) with (DB v)
    | progress change (DB (editMessageWithKeyboard ?c ?m ?t ?v)) with (DB v)
    | progress change (DB (logPrintf ?f ?e ?v)) with (DB v)
    | progress change (DB (emit ?o ?v)) with (DB v)
    | progress change (DB (set_userState ?c ?s ?v)) with (DB v)
    | progress change (DB (set_currentDebtor ?c ?d ?v)) with (DB v)
    | progress change (DB (set_selectedDebt ?c ?d ?v)) with (DB v)
    | progress change (DB (set_DB ?d ?v)) with d
    | match goal with
      | |- context [match ?x with _ => _ end] => destruct x eqn:?
      end ].

Lemma handleCallbackQuery_no_zero (w : World) (chatID messageID : Z) (data : string) :
  no_zero (DB w) -> no_zero (DB (handleCallbackQuery chatID messageID data w)).
Proof.
  intros H. unfold handleCallbackQuery, withDebt.
  expose_DB; try assumption;
    match goal with
    | E : closeDebt _ _ = (?d, _) |- no_zero ?d =>
        apply (f_equal fst) in E; simpl in E; rewrite <- E;
        now apply (no_zero_closeDebt (DB w))
    | E : deleteDebtor _ _ = (?d, _) |- no_zero ?d =>
        apply (f_equal fst) in E; simpl fst at 2 in E; rewrite <- E;
        now apply no_zero_deleteDebtor
    | E : _ = (?d, _) |- no_zero ?d =>
        apply (f_equal fst) in E; simpl in E; rewrite <- E; exact H
    end.
Qed.

Lemma command_keeps_DB (ParseFloat : string -> option float)
      (time_Parse : string -> string -> option Time)
      (w : World) (chatID : Z) (command : string) :
  DB (step ParseFloat time_Parse w (Command chatID command)) = DB w.
Proof.
  unfold step, handleStartCommand, handleAddCommand, handleDebtsCommand,
    handleHelpCommand, handleExportCSVCommand.
  expose_DB; reflexivity.
Qed.

(** X16. If no stored debt has a zero amount, none has one after any sequence
    of updates: an amount is stored only after the test [amount <= 0] has
    failed, and a subtraction that leaves zero deletes the debt. *)
Theorem no_zero_run (ParseFloat : string -> option float)
        (time_Parse : string -> string -> option Time)
        (updates : list Update) (w : World) :
  no_zero (DB w) -> no_zero (DB (run ParseFloat time_Parse w updates)).
Proof.
  revert w. induction updates as [|u updates IH]; intros w H; [exact H|].
  apply IH. destruct u as [chatID command | chatID text | chatID messageID data].
  - unfold no_zero. rewrite command_keeps_DB. exact H.
  - now apply handleMessage_no_zero.
  - now apply handleCallbackQuery_no_zero.
Qed.

(** ** A debtor created is a debtor found *)

(** X1. A debtor that [addDebtor] creates gets the next id of the counter and
    is found under that id and under its name and chat; every debtor found by
    id before is still found, unchanged, and no debt is touched. *)
Theorem addDebtor_found (db db' : sqlDB) (name : string) (chatID : Z)
        (debtor : Debtor) :
  wf db ->
  addDebtor db (mkDebtor 0 name chatID None None) = (db', Ok debtor) ->
  debtor = mkDebtor (debtors_seq db + 1) name chatID None None /\
  getDebtorByID db' (ID debtor) = Ok debtor /\
  getDebtorByName db' name chatID = Ok debtor /\
  (forall id old, getDebtorByID db id = Ok old -> getDebtorByID db' id = Ok old) /\
  debts db' = debts db.
Proof.
  intros (H1 & _ & _ & H4 & _) Hadd.
  set (p := fun r => String.eqb (Name r) name && (ChatID r =? chatID)).
  set (row := mkDebtor (debtors_seq db + 1) name chatID None None).
  assert (Hnew : existsb p (debtors db) = false /\
                 db' = mkDB (foreign_keys db) (debtors db ++ [row]) (debts db)
                            (debtors_seq db + 1) (debts_seq db) /\
                 debtor = row).
  { unfold addDebtor, insert_debtor in Hadd. simpl in Hadd. fold p in Hadd.
    destruct (existsb p (debtors db)); [discriminate|].
    simpl in Hadd. injection Hadd as <- <-. repeat split; reflexivity. }
  destruct Hnew as (Hex & -> & ->).
  assert (Hfresh : existsb (fun r => ID r =? ID row) (debtors db) = false).
  { apply not_true_is_false. intros Hin. apply existsb_exists in Hin as (r & Hin & Hr).
    apply Z.eqb_eq in Hr. rewrite Forall_forall in H4.
    specialize (H4 r (proj2 (list_elem_of_In _ _) Hin)). simpl in Hr. lia. }
  split; [reflexivity|]. split.
  { unfold getDebtorByID. simpl debtors.
    rewrite (find_app_new (fun r => ID r =? ID row) _ row Hfresh (Z.eqb_refl _)).
    reflexivity. }
  split.
  { unfold getDebtorByName. simpl debtors. fold p.
    rewrite (find_app_new p _ row Hex); [reflexivity|].
    unfold p. simpl. now rewrite String.eqb_refl, Z.eqb_refl. }
  split; [|reflexivity].
  intros id old Hold. unfold getDebtorByID in *. simpl debtors.
  destruct (find (fun r => ID r =? id) (debtors db)) as [r|] eqn:F; [|discriminate].
  injection Hold as ->.
  assert (Hkeep : find (fun r => ID r =? id) (debtors db ++ [row]) = Some old).
  { clear -F. induction (debtors db) as [|x l IH]; simpl in *; [discriminate|].
    destruct (ID x =? id); [exact F | now apply IH]. }
  now rewrite Hkeep.
Qed.

(** ** The further theorems at concrete inputs *)

Lemma wf_alex_file : wf alex_file.
Proof.
  repeat split; simpl; try lia;
    try (apply NoDup_cons; split; [apply not_elem_of_nil | apply NoDup_nil_2]);
    repeat constructor; simpl; lia.
Qed.

Lemma addDebtor_found_witness :
  wf Sqlite.empty /\
  getDebtorByID (fst (addDebtor Sqlite.empty (mkDebtor 0 "Alex" 7 None None))) 1
  = Ok (mkDebtor 1 "Alex" 7 None None).
Proof.
  split; [exact wf_empty|].
  exact (proj1 (proj2 (addDebtor_found Sqlite.empty _ "Alex" 7 _ wf_empty eq_refl))).
Defined.

Lemma wf_run_witness :
  wf (DB (boot Sqlite.empty)) /\
  wf (DB (run Sample.ParseFloat Sample.time_Parse (boot Sqlite.empty) add_alex)).
Proof.
  split; [exact wf_empty|].
  exact (wf_run Sample.ParseFloat Sample.time_Parse add_alex (boot Sqlite.empty) wf_empty).
Defined.

Lemma step_other_chat_witness :
  let w := run Sample.ParseFloat Sample.time_Parse (boot Sqlite.empty)
             [Command 7 "add"; Message 7 "Alex"] in
  chatOf (Command 8 "help") <> 7 /\
  userStates (step Sample.ParseFloat Sample.time_Parse w (Command 8 "help")) !! 7
  = userStates w !! 7.
Proof.
  intros w.
  assert (H : chatOf (Command 8 "help") <> 7) by (simpl; lia).
  split; [exact H|].
  exact (proj1 (step_other_chat Sample.ParseFloat Sample.time_Parse w _ 7 H)).
Defined.

Lemma stray_text_resets_witness :
  let w := handleCallbackQuery 7 2 "delete_debtor"
             (handleCallbackQuery 7 2 "select_debtor:1" (boot alex_file)) in
  textless_state (userState w 7) = true /\
  DB (handleMessage Sample.ParseFloat Sample.time_Parse 7 "yes" w) = DB w /\
  userState (handleMessage Sample.ParseFloat Sample.time_Parse 7 "yes" w) 7 = StateIdle.
Proof.
  intros w.
  assert (H : textless_state (userState w 7) = true) by (vm_compute; reflexivity).
  destruct (stray_text_resets Sample.ParseFloat Sample.time_Parse w 7 "yes" H)
    as (_ & HDB & Hidle & _).
  split; [exact H|]. split; [exact HDB | exact Hidle].
Defined.


Lemma add_dialog_witness :
  let w' := run Sample.ParseFloat Sample.time_Parse (boot alex_file)
              [Command 7 "add"; Message 7 "Alex"; Message 7 "taxi"; Message 7 "12.5"] in
  parseAmount Sample.ParseFloat "12.5" = Some 12.5%float /\
  debts (DB w') = (debts alex_file ++ [mkDebt 2 1 12.5%float "taxi"])%list.
Proof.
  intros w'.
  assert (H1 : parseAmount Sample.ParseFloat "12.5" = Some 12.5%float)
    by (vm_compute; reflexivity).
  destruct (add_dialog Sample.ParseFloat Sample.time_Parse (boot alex_file) 7
              "Alex" "taxi" "12.5" 12.5%float H1 eq_refl)
    as (debtor & Hname & Hdebts & Hold & _).
  split; [exact H1|].
  destruct (Hold (mkDebtor 1 "Alex" 7 None None) eq_refl) as [-> _].
  exact Hdebts.
Defined.

Lemma debtors_keyboard_selects_witness :
  let w := boot alex_file in
  let button := mkButton (LabelDebtor "Alex" 1 "долг") "select_debtor:1" in
  listDebtors (DB w) 7 = Ok [mkDebtor 1 "Alex" 0 None None] /\
  debtorsKeyboard (DB w) [mkDebtor 1 "Alex" 0 None None] = [[button]] /\
  exists debtor,
    currentDebtors (handleCallbackQuery 7 1 (data button) w) !! 7 = Some debtor /\
    ChatID debtor = 7.
Proof.
  intros w button.
  assert (H1 : listDebtors (DB w) 7 = Ok [mkDebtor 1 "Alex" 0 None None]) by reflexivity.
  assert (H2 : debtorsKeyboard (DB w) [mkDebtor 1 "Alex" 0 None None] = [[button]])
    by reflexivity.
  assert (Hmax : debtors_seq (DB w) <= maxInt64) by (vm_compute; discriminate).
  destruct (debtors_keyboard_selects w 7 1 _ [button] button wf_alex_file Hmax H1)
    as (debtor & _ & Hchat & _ & Hfocus & _).
  { rewrite H2. now left. }
  { now left. }
  split; [exact H1|]. split; [exact H2|].
  exists debtor. split; [exact Hfocus | exact Hchat].
Defined.

Lemma details_keyboard_debts_witness :
  let w := boot alex_file in
  let debtor := mkDebtor 1 "Alex" 7 None None in
  listDebts (DB w) (ID debtor) = Ok [mkDebt 1 0 100%float "lunch"] /\
  selectedDebts (handleCallbackQuery 7 1 (editDebtData 1) w) !! 7
  = Some (mkDebt 1 1 100%float "lunch").
Proof.
  intros w debtor.
  assert (H1 : listDebts (DB w) (ID debtor) = Ok [mkDebt 1 0 100%float "lunch"])
    by reflexivity.
  assert (Hmax : debts_seq (DB w) <= maxInt64) by (vm_compute; discriminate).
  destruct (details_keyboard_debts w 7 1 debtor _ (mkDebt 1 0 100%float "lunch")
              wf_alex_file Hmax H1 (or_introl eq_refl))
    as (_ & _ & Hedit & _).
  split; [exact H1 | exact Hedit].
Defined.


Lemma edit_amount_of_missing_debt_witness :
  let w := handleCallbackQuery 7 2 "edit_amount:1" closed_debt_world in
  userState w 7 = StateEditingAmount /\
  has_debt (DB w) (Debt_ID (selectedDebt w 7)) = false /\
  debts (DB (handleMessage Sample.ParseFloat Sample.time_Parse 7 "30" w)) = debts (DB w).
Proof.
  intros w.
  assert (H1 : userState w 7 = StateEditingAmount) by (vm_compute; reflexivity).
  assert (H2 : has_debt (DB w) (Debt_ID (selectedDebt w 7)) = false)
    by (vm_compute; reflexivity).
  assert (H3 : parseAmount Sample.ParseFloat "30" = Some 30%float)
    by (vm_compute; reflexivity).
  split; [exact H1|]. split; [exact H2|].
  exact (proj1 (edit_amount_of_missing_debt Sample.ParseFloat Sample.time_Parse
                  w 7 "30" 30%float H1 H2 H3)).
Defined.



Lemma no_zero_run_witness :
  no_zero (DB (boot alex_file)) /\
  no_zero (DB (run Sample.ParseFloat Sample.time_Parse (boot alex_file)
                 [CallbackQuery 7 1 "subtract_from_debt:1"; Message 7 "100"])).
Proof.
  assert (H : no_zero (DB (boot alex_file))) by reflexivity.
  split; [exact H|].
  exact (no_zero_run Sample.ParseFloat Sample.time_Parse _ (boot alex_file) H).
Defined.

(** ** Buttons of a view whose focus is gone *)

Lemma existsb_id_zero (l : list Debtor) (n : Z) :
  Forall (fun r => 0 < ID r <= n) l -> existsb (fun r => ID r =? 0) l = false.
Proof.
  induction l as [|r l IH]; simpl; [reflexivity|].
  intros H. inversion H as [|? ? Hr Hl]; subst.
  rewrite (IH Hl), orb_false_r. apply Z.eqb_neq. lia.
Qed.

Lemma wf_no_debtor_zero (db : sqlDB) : wf db -> has_debtor db 0 = false.
Proof. intros (_ & _ & _ & H4 & _). exact (existsb_id_zero _ _ H4). Qed.

Lemma delete_debtor_absent (db : sqlDB) (id : Z) :
  has_debtor db id = false -> delete_debtor db id = db.
Proof.
  intros H. unfold delete_debtor. rewrite H, andb_false_r.
  unfold has_debtor in H. rewrite (filter_absent id _ H). now destruct db.
Qed.

Lemma update_debtors_absent (db : sqlDB) (id : Z) (g : Debtor -> Debtor) :
  has_debtor db id = false -> update_debtors db id g = db.
Proof.
  intros H. unfold update_debtors, with_debtors.
  rewrite (update_absent (fun r => ID r =? id) g _ H). now destruct db.
Qed.

Lemma getDebtorByID_absent (db : sqlDB) (id : Z) :
  has_debtor db id = false -> getDebtorByID db id = Err ErrNoRows.
Proof.
  unfold getDebtorByID, has_debtor. rewrite existsb_find.
  destruct (find _ _); [discriminate | reflexivity].
Qed.

Lemma set_DB_same (w : World) : set_DB (DB w) w = w.
Proof. now destruct w. Qed.

Lemma currentDebtor_none (w : World) (chatID : Z) :
  currentDebtors w !! chatID = None -> currentDebtor w chatID = zeroDebtor.
Proof. unfold currentDebtor. now intros ->. Qed.

(** The three cases of the callback handler that write to the focused
    debtor. *)
Lemma confirm_delete_debtor_unfold (w : World) (chatID messageID : Z) :
  handleCallbackQuery chatID messageID "confirm_delete_debtor" w
  = clearUserState chatID
      (editMessageWithKeyboard chatID messageID
         (Sprintf "Должник *%s* и все его долги удалены."
                  [ArgS (Name (currentDebtor w chatID))])
         (set_DB (delete_debtor (DB w) (ID (currentDebtor w chatID))) w)).
Proof. reflexivity. Qed.

Lemma clear_payment_date_unfold (w : World) (chatID messageID : Z) :
  handleCallbackQuery chatID messageID "clear_payment_date" w
  = clearUserState chatID
      (showDebtorDetails chatID (ID (currentDebtor w chatID))
         (editMessageWithKeyboard chatID messageID
            (Sprintf "Дата платежа очищена." [])
            (set_DB (fst (clearDebtorPaymentDate (DB w) (ID (currentDebtor w chatID))))
                    w))).
Proof. reflexivity. Qed.

Lemma clear_payment_amount_unfold (w : World) (chatID messageID : Z) :
  handleCallbackQuery chatID messageID "clear_payment_amount" w
  = clearUserState chatID
      (showDebtorDetails chatID (ID (currentDebtor w chatID))
         (editMessageWithKeyboard chatID messageID
            (Sprintf "Сумма платежа очищена." [])
            (set_DB (fst (clearDebtorPaymentAmount (DB w) (ID (currentDebtor w chatID))))
                    w))).
Proof. reflexivity. Qed.

(** The view of a debtor that is not stored. *)
Lemma showDebtorDetails_absent (chatID debtorID : Z) (w : World) :
  has_debtor (DB w) debtorID = false ->
  showDebtorDetails chatID debtorID w
  = sendSimpleMessage chatID (Sprintf "Должник не найден." [])
      (logPrintf "Error getting debtor details: %v" ErrNoRows w).
Proof.
  intros H. unfold showDebtorDetails. now rewrite (getDebtorByID_absent _ _ H).
Qed.

(** X17. A chat without a focused debtor, as after every command and every
    completed dialog, can still press the buttons of a debtor view left on
    the screen. The confirmation of a deletion and the two clear buttons then
    address debtor 0, which no database of the bot holds: nothing is deleted
    or cleared, yet the deletion is reported as done, for a debtor with an
    empty name, and each clearing is reported as done before the user is told
    that the debtor was not found. *)
Theorem unfocused_debtor_buttons (w : World) (chatID messageID : Z) :
  wf (DB w) ->
  currentDebtors w !! chatID = None ->
  let press data := handleCallbackQuery chatID messageID data w in
  let notFound := [Log "Error getting debtor details: %v" ErrNoRows;
                   Send chatID (Sprintf "Должник не найден." [])] in
  DB (press "confirm_delete_debtor") = DB w /\
  sent (press "confirm_delete_debtor")
  = (sent w ++ [Edit chatID messageID
                  (Sprintf "Должник *%s* и все его долги удалены." [ArgS ""])])%list /\
  DB (press "clear_payment_date") = DB w /\
  sent (press "clear_payment_date")
  = (sent w ++ Edit chatID messageID (Sprintf "Дата платежа очищена." [])
       :: notFound)%list /\
  DB (press "clear_payment_amount") = DB w /\
  sent (press "clear_payment_amount")
  = (sent w ++ Edit chatID messageID (Sprintf "Сумма платежа очищена." [])
       :: notFound)%list.
Proof.
  intros Hwf Hnone press notFound. subst press notFound. cbv beta.
  pose proof (wf_no_debtor_zero _ Hwf) as Hzero.
  rewrite confirm_delete_debtor_unfold, clear_payment_date_unfold,
    clear_payment_amount_unfold.
  rewrite (currentDebtor_none _ _ Hnone).
  unfold clearDebtorPaymentDate, clearDebtorPaymentAmount.
  change (ID zeroDebtor) with 0. change (Name zeroDebtor) with "".
  rewrite (delete_debtor_absent _ _ Hzero), !(update_debtors_absent _ _ _ Hzero).
  simpl fst. rewrite set_DB_same.
  rewrite !showDebtorDetails_absent by exact Hzero.
  simpl. rewrite <- !app_assoc. simpl.
  repeat split; reflexivity.
Qed.

(** Clearing the payment date without a focused debtor. *)
Lemma clear_payment_date_unfocused (w : World) (chatID messageID : Z) :
  wf (DB w) ->
  currentDebtors w !! chatID = None ->
  DB (handleCallbackQuery chatID messageID "clear_payment_date" w) = DB w.
Proof.
  intros Hwf Hnone. rewrite clear_payment_date_unfold.
  change (DB (clearUserState ?c ?v)) with (DB v).
  rewrite showDebtorDetails_DB. simpl DB.
  rewrite (currentDebtor_none _ _ Hnone). change (ID zeroDebtor) with 0.
  unfold clearDebtorPaymentDate. simpl fst.
  apply update_debtors_absent, wf_no_debtor_zero, Hwf.
Qed.

(** ** The payment date dialog *)

Lemma getDebtorByID_update_debtors (db : sqlDB) (id : Z) (g : Debtor -> Debtor)
      (debtor : Debtor) :
  (forall r, ID (g r) = ID r) ->
  getDebtorByID db id = Ok debtor ->
  getDebtorByID (update_debtors db id g) id = Ok (g debtor) /\
  forall id', id' <> id ->
              getDebtorByID (update_debtors db id g) id' = getDebtorByID db id'.
Proof.
  intros Hg Hget.
  assert (Hfind : find (fun r => ID r =? id) (debtors db) = Some debtor).
  { unfold getDebtorByID in Hget. destruct (find _ _); congruence. }
  split.
  - unfold getDebtorByID, update_debtors. simpl.
    rewrite (find_update (fun r => ID r =? id) g); [now rewrite Hfind|].
    intros r. now rewrite Hg.
  - intros id' Hne. unfold getDebtorByID, update_debtors. simpl.
    rewrite (find_update_miss (fun r => ID r =? id) (fun r => ID r =? id') g);
      [reflexivity | |].
    + intros r Hr. apply Z.eqb_eq in Hr. apply Z.eqb_neq. congruence.
    + intros r Hr. rewrite Hg. apply Z.eqb_eq in Hr. apply Z.eqb_neq. congruence.
Qed.

Section PaymentDate.

Variable ParseFloat : string -> option float.
Variable time_Parse : string -> string -> option Time.

Local Abbreviation handleMessage' := (handleMessage ParseFloat time_Parse).
Local Abbreviation parseDate' := (parseDate time_Parse).
Local Abbreviation run' := (run ParseFloat time_Parse).

(** A date that parses, in [StateSettingPaymentDate]. *)
Lemma handleMessage_settingDate (w : World) (chatID : Z) (text : string) (t : Time) :
  userState w chatID = StateSettingPaymentDate ->
  parseDate' text = Some t ->
  handleMessage' chatID text w
  = clearUserState chatID
      (showDebtorDetails chatID (ID (currentDebtor w chatID))
         (sendSimpleMessage chatID
            (Sprintf "Дата платежа для %s установлена на %s"
                     [ArgS (Name (currentDebtor w chatID)); ArgT t])
            (set_DB (fst (updateDebtorPaymentDate (DB w) (ID (currentDebtor w chatID)) t))
                    w))).
Proof.
  intros Hstate Hparse. unfold handleMessage. rewrite Hstate, Hparse. reflexivity.
Qed.

(** X18. The payment date dialog: the button of a debtor in the list, the
    set-date button of the view, a date that parses. The date is stored in
    that debtor's row, whose other fields, the other debtors and the debts
    stay as they were, and the last message is the debtor's view with the new
    date. The chat is left idle and without focus, so the clear-date button
    that this view now offers changes nothing: the date is still stored after
    it is pressed. *)
Theorem payment_date_dialog (w : World) (chatID messageID : Z) (id : Z)
        (debtor : Debtor) (text : string) (t : Time) :
  wf (DB w) ->
  minInt64 <= id <= maxInt64 ->
  getDebtorByID (DB w) id = Ok debtor ->
  parseDate' text = Some t ->
  let w1 := run' w [CallbackQuery chatID messageID (selectDebtorData id);
                    CallbackQuery chatID messageID "set_payment_date";
                    Message chatID text] in
  let w2 := step ParseFloat time_Parse w1
              (CallbackQuery chatID messageID "clear_payment_date") in
  let stored := mkDebtor id (Name debtor) (ChatID debtor) (Some t)
                         (PaymentAmount debtor) in
  getDebtorByID (DB w1) id = Ok stored /\
  (forall id', id' <> id -> getDebtorByID (DB w1) id' = getDebtorByID (DB w) id') /\
  debts (DB w1) = debts (DB w) /\
  (exists before debts,
     listDebts (DB w) id = Ok debts /\
     sent w1 = (before ++ [Send chatID (DebtorDetails stored debts (totalDebt debts))])%list) /\
  userState w1 chatID = StateIdle /\
  currentDebtors w1 !! chatID = None /\
  DB w2 = DB w1.
Proof.
  intros Hwf Hid Hget Hparse w1 w2 stored.
  pose proof (getDebtorByID_ID _ _ _ Hget) as HID.
  set (g := fun r => mkDebtor (ID r) (Name r) (ChatID r) (Some t) (PaymentAmount r)).
  assert (Hg : forall r, ID (g r) = ID r) by reflexivity.
  destruct (getDebtorByID_update_debtors (DB w) id g debtor Hg Hget) as [Hone Hother].
  (* the three updates, one after the other *)
  set (wa := showDebtorDetails chatID id
               (clearUserState chatID (set_currentDebtor chatID debtor w))).
  set (wb := editMessageWithKeyboard chatID messageID
               (Sprintf "Введите дату платежа (ДД.ММ.ГГГГ или ДД.ММ.ГГ):" [])
               (set_userState chatID StateSettingPaymentDate wa)).
  assert (Hw1 : w1 = handleMessage' chatID text wb).
  { subst w1. unfold run. simpl fold_left. unfold selectDebtorData.
    rewrite (select_debtor_found w chatID messageID (Itoa id) id debtor
               (Atoi_Itoa id Hid) Hget).
    reflexivity. }
  assert (HDBa : DB wa = DB w) by (unfold wa; now rewrite showDebtorDetails_DB).
  assert (Hfocus : currentDebtor wb chatID = debtor).
  { unfold wb, wa, currentDebtor. simpl.
    rewrite (showDebtorDetails_focus chatID id _ debtor) by exact Hget.
    now rewrite lookup_insert_eq. }
  assert (Hstate : userState wb chatID = StateSettingPaymentDate)
    by apply userState_set.
  rewrite (handleMessage_settingDate wb chatID text t Hstate Hparse) in Hw1.
  rewrite Hfocus, HID in Hw1.
  change (DB wb) with (DB wa) in Hw1. rewrite HDBa in Hw1.
  unfold updateDebtorPaymentDate in Hw1. simpl fst in Hw1. fold g in Hw1.
  assert (HDB1 : DB w1 = update_debtors (DB w) id g).
  { rewrite Hw1. change (DB (clearUserState ?c ?v)) with (DB v).
    now rewrite showDebtorDetails_DB. }
  assert (Hstored : g debtor = stored) by (unfold g, stored; now rewrite HID).
  assert (Hnone : currentDebtors w1 !! chatID = None).
  { rewrite Hw1. apply cleared_maps. }
  split; [rewrite HDB1, Hone; now rewrite Hstored|].
  split; [intros id' Hne; rewrite HDB1; now apply Hother|].
  split; [now rewrite HDB1|].
  split.
  { eexists. exists (match listDebts (DB w) id with Ok l => l | Err _ => [] end).
    split; [reflexivity|].
    rewrite Hw1. change (sent (clearUserState ?c ?v)) with (sent v).
    unfold showDebtorDetails at 1.
    change (DB (sendSimpleMessage ?c ?x (set_DB ?d ?v))) with d.
    rewrite Hone, Hstored. reflexivity. }
  split; [rewrite Hw1; apply userState_clear|].
  split; [exact Hnone|].
  subst w2. clearbody w1.
  change (DB (handleCallbackQuery chatID messageID "clear_payment_date" w1) = DB w1).
  apply clear_payment_date_unfocused; [|exact Hnone].
  rewrite HDB1. apply wf_update_debtors; [intros r; repeat split; reflexivity | exact Hwf].
Qed.

End PaymentDate.

(** ** The two theorems above at concrete inputs *)

Lemma unfocused_debtor_buttons_witness :
  let w := handleMessage Sample.ParseFloat Sample.time_Parse 7 "31.12.24"
             (handleCallbackQuery 7 3 "set_payment_date"
                (handleCallbackQuery 7 2 "select_debtor:1" (boot alex_file))) in
  wf (DB w) /\
  currentDebtors w !! 7 = None /\
  DB (handleCallbackQuery 7 4 "confirm_delete_debtor" w) = DB w.
Proof.
  intros w.
  assert (H1 : wf (DB w)).
  { change (DB w) with (mkDB false [mkDebtor 1 "Alex" 7 (Some (mkTime 2024 12 31)) None]
                             [mkDebt 1 1 100%float "lunch"] 1 1).
    repeat split; simpl; try lia;
      try (apply NoDup_cons; split; [apply not_elem_of_nil | apply NoDup_nil_2]);
      repeat constructor; simpl; lia. }
  assert (H2 : currentDebtors w !! 7 = None) by (vm_compute; reflexivity).
  split; [exact H1|]. split; [exact H2|].
  exact (proj1 (unfocused_debtor_buttons w 7 4 H1 H2)).
Defined.

Lemma payment_date_dialog_witness :
  wf (DB (boot alex_file)) /\
  parseDate Sample.time_Parse "31.12.24" = Some (mkTime 2024 12 31) /\
  currentDebtors
    (run Sample.ParseFloat Sample.time_Parse (boot alex_file)
       [CallbackQuery 7 2 (selectDebtorData 1);
        CallbackQuery 7 2 "set_payment_date";
        Message 7 "31.12.24"]) !! 7 = None.
Proof.
  assert (Hid : minInt64 <= 1 <= maxInt64) by (vm_compute; split; discriminate).
  assert (Hget : getDebtorByID (DB (boot alex_file)) 1
                 = Ok (mkDebtor 1 "Alex" 7 None None)) by reflexivity.
  assert (Hp : parseDate Sample.time_Parse "31.12.24" = Some (mkTime 2024 12 31))
    by (vm_compute; reflexivity).
  pose proof (payment_date_dialog Sample.ParseFloat Sample.time_Parse (boot alex_file)
                7 2 1 (mkDebtor 1 "Alex" 7 None None) "31.12.24" (mkTime 2024 12 31)
                wf_alex_file Hid Hget Hp) as H.
  cbv zeta in H. destruct H as (_ & _ & _ & _ & _ & H & _).
  split; [exact wf_alex_file|]. split; [exact Hp | exact H].
Defined.
